(** * Monitor_Pc: the metric acquisition and storage layer of [test 1.1.py]

    A shallow embedding of the monitoring script (the version with the CPU
    temperature chain, classes [MetricsRepository], [MetricChart] and
    [PcMonitorApp]) and the properties of its specification.

    Conventions of the embedding.
    - A Python [float] is an IEEE binary64 number: Rocq's primitive [float].
      [a <= b] is [PrimFloat.leb], [a > b] is [PrimFloat.ltb b a], [/] is
      [PrimFloat.div].
    - A Python [str] is a sequence of code points.  The model keeps the
      code points below 256 (Latin-1), one per [ascii]; the degree sign is
      code point 176.  The label and unit literals of the script (Cyrillic
      text, the unit "°C") are kept as the bytes of their UTF-8 encoding:
      they are only ever compared for equality.
    - [None] is [option]'s [None]; an exception that leaves a function is
      the [Raise] case of [result].
    - [sum] over floats depends on the interpreter (plain additions up to
      CPython 3.11, compensated from 3.12 on); the interpreter is part of
      [Env].
    - What the script reads from the machine (psutil, GPUtil, the [sensors]
      tool, [/sys/class/thermal], the clock, faults of the store) is the
      [Env] record of one tick. *)

From Stdlib Require Import String Ascii.
From Stdlib Require Import ZArith List Bool Lia.
From Stdlib Require Import PrimFloat SpecFloat FloatOps FloatAxioms.
Import ListNotations.

Set Implicit Arguments.

(** ** Outcomes *)

Inductive result (E A : Type) :=
| Ok (a : A)
| Raise (e : E).
Arguments Ok {E A}.
Arguments Raise {E A}.

(** ** Python floats *)

Module PyFloat.

(** [float(n)] for a Python int [n]: the nearest binary64 number. *)
Definition of_Z (n : Z) : float :=
  SF2Prim (binary_normalize prec emax n 0 false).

Definition of_nat (n : nat) : float := of_Z (Z.of_nat n).

(** The value [(-1)^neg * m / d] rounded once to nearest-even; [m = 0]
    keeps the sign, as [float("-0.0")] does. *)
Definition of_ratio (neg : bool) (m : Z) (d : positive) : float :=
  match m with
  | Zpos p =>
      SF2Prim (SFdiv prec emax (S754_finite neg p 0) (S754_finite false d 0))
  | _ => SF2Prim (S754_zero neg)
  end.

(** The two ways CPython adds up floats in [sum]. *)
Inductive cpython :=
| Until311      (* plain additions *)
| From312.      (* additions with Neumaier's compensation *)

(** [sum(values)] up to CPython 3.11: the accumulator starts at the int
    [0], so the first addition is [0.0 + v]; additions run left to right. *)
Definition plain_sum (values : list float) : float :=
  fold_left PrimFloat.add values 0%float.

(** One round of the compensated loop of CPython 3.12: the running sum
    [f_result], the compensation [c], and the item [x]. *)
Definition neumaier_step (acc : float * float) (x : float) : float * float :=
  let '(f_result, c) := acc in
  let t := PrimFloat.add f_result x in
  (t,
   if PrimFloat.leb (PrimFloat.abs x) (PrimFloat.abs f_result)
   then PrimFloat.add c (PrimFloat.add (PrimFloat.sub f_result t) x)
   else PrimFloat.add c (PrimFloat.add (PrimFloat.sub x t) f_result)).

(** [sum(values)] from CPython 3.12 on: the first item is added to the int
    [0] as before, the others go through the compensated loop, and the
    compensation is added at the end unless it is zero or not finite. *)
Definition compensated_sum (values : list float) : float :=
  match values with
  | [] => 0%float
  | first :: rest =>
      let '(f_result, c) :=
        fold_left neumaier_step rest (PrimFloat.add 0%float first, 0%float) in
      if negb (PrimFloat.eqb c 0%float) && PrimFloat.is_finite c
      then PrimFloat.add f_result c else f_result
  end.

Definition sum (py : cpython) (values : list float) : float :=
  match py with
  | Until311 => plain_sum values
  | From312 => compensated_sum values
  end.

(** [sum(values) / len(values)] *)
Definition mean (py : cpython) (values : list float) : float :=
  PrimFloat.div (sum py values) (of_nat (length values)).

(** [lo <= v <= hi] *)
Definition between (lo v hi : float) : bool :=
  PrimFloat.leb lo v && PrimFloat.leb v hi.

End PyFloat.

(** ** [collections.deque] with [maxlen] *)

Module Deque.
Section WithElem.
Variable A : Type.

Record deque := mk { items : list A; maxlen : nat }.

(** [d.append(v)]: the value goes to the right end; a deque that is now
    longer than [maxlen] drops its leftmost element. *)
Definition append (d : deque) (v : A) : deque :=
  let xs := items d ++ [v] in
  mk (if maxlen d <? length xs then tl xs else xs) (maxlen d).

(** [deque(iterable, maxlen=n)] appends the elements in turn. *)
Definition make (iterable : list A) (n : nat) : deque :=
  fold_left append iterable (mk [] n).

Definition extend (d : deque) (vs : list A) : deque := fold_left append vs d.

(** [list(d)] *)
Definition to_list (d : deque) : list A := items d.
End WithElem.
Arguments mk {A}.
End Deque.

(** ** Text shown next to a chart *)

(** The script builds the label text with f-strings [f"{pre}{v:.1f}{post}"].
    The rendering of a float with one decimal is kept symbolic. *)
Inductive label :=
| Plain (s : string)
| Fixed1 (pre : string) (v : float) (post : string).

(** Truthiness of a [str]: non-empty.  A [.1f] field is never empty. *)
Definition label_truthy (t : label) : bool :=
  match t with
  | Plain s => negb (String.eqb s "")
  | Fixed1 _ _ _ => true
  end.

(** ** [MetricChart] *)

Module MetricChart.

Record t := mk {
  max_points : nat;
  unit : string;
  history : Deque.deque float;
  value_var : label
}.

(** [__init__]: [history = deque([0.0] * max_points, maxlen=max_points)]. *)
Definition init (max_points : nat) (unit : string) : t :=
  mk max_points unit
     (Deque.make (repeat 0%float max_points) max_points)
     (Plain (String.append "Текущее значение: 0.0" unit)).

(** [update_value(value, display_text=None)] *)
Definition update_value (c : t) (value : float) (display_text : option label) : t :=
  let shown :=
    match display_text with
    | Some d => if label_truthy d then d
                else Fixed1 "Текущее значение: " value (unit c)
    | None => Fixed1 "Текущее значение: " value (unit c)
    end in
  mk (max_points c) (unit c) (Deque.append (history c) value) shown.

(** The window handed to the drawing code. *)
Definition snapshot (c : t) : list float := Deque.to_list (history c).

(** A run of [update_value] calls with the default label. *)
Definition pushes (c : t) (vs : list float) : t :=
  fold_left (fun c v => update_value c v None) vs c.

End MetricChart.

(** ** Python [str] over Latin-1 *)

Module Text.

Definition text := list ascii.

(** A string literal of the script. *)
Definition str (s : string) : text := list_ascii_of_string s.

Definition code (c : ascii) : nat := nat_of_ascii c.

(** The degree sign, U+00B0. *)
Definition degree_sign : ascii := ascii_of_nat 176.

(** [\d]: a decimal digit.  Below 256 these are [0]..[9] only. *)
Definition is_digit (c : ascii) : bool :=
  (48 <=? code c) && (code c <=? 57).

(** [\s] and [str.isspace]: below 256 these are tab..carriage return, the
    separators 28..31, the space, NEL (133) and the no-break space (160). *)
Definition is_space (c : ascii) : bool :=
  ((9 <=? code c) && (code c <=? 13))
  || ((28 <=? code c) && (code c <=? 32))
  || (code c =? 133) || (code c =? 160).

(** [str.lower] on one code point: [A]..[Z] and the accented capitals
    192..222 (the multiplication sign 215 apart) move up by 32. *)
Definition lower_char (c : ascii) : ascii :=
  if ((65 <=? code c) && (code c <=? 90))
     || ((192 <=? code c) && (code c <=? 222) && negb (code c =? 215))
  then ascii_of_nat (code c + 32) else c.

Definition lower (s : text) : text := map lower_char s.

Fixpoint lstrip (s : text) : text :=
  match s with
  | c :: s' => if is_space c then lstrip s' else s
  | [] => []
  end.

(** [s.strip()] *)
Definition strip (s : text) : text := rev (lstrip (rev (lstrip s))).

Fixpoint startswith (s prefix : text) : bool :=
  match prefix, s with
  | [], _ => true
  | p :: prefix', c :: s' => Ascii.eqb p c && startswith s' prefix'
  | _ :: _, [] => false
  end.

(** [needle in s] *)
Fixpoint contains (needle s : text) : bool :=
  startswith s needle ||
  match s with
  | _ :: s' => contains needle s'
  | [] => false
  end.

End Text.

(** ** The fragment of [re] the script uses

    Greedy, backtracking matching in continuation style: [run r s k] tries
    the ways [r] can match a prefix of [s] in the order Python's engine
    does, and hands the rest of the input to [k]; the first way on which
    [k] succeeds wins. *)

Module Re.
Import Text.

Inductive re :=
| Class (p : ascii -> bool)   (* one character of a class *)
| Seq (a b : re)              (* ab *)
| Opt (a : re)                (* a?   *)
| Star (p : ascii -> bool)    (* [p]* *)
| Plus (p : ascii -> bool).   (* [p]+ *)

Section Run.
Variable R : Type.

Fixpoint star (p : ascii -> bool) (s : text) (k : text -> option R) : option R :=
  match s with
  | c :: s' =>
      if p c then
        match star p s' k with
        | Some r => Some r
        | None => k s
        end
      else k s
  | [] => k []
  end.

Fixpoint run (r : re) (s : text) (k : text -> option R) : option R :=
  match r with
  | Class p =>
      match s with
      | c :: s' => if p c then k s' else None
      | [] => None
      end
  | Seq a b => run a s (fun s1 => run b s1 k)
  | Opt a =>
      match run a s k with
      | Some r => Some r
      | None => k s
      end
  | Star p => star p s k
  | Plus p =>
      match s with
      | c :: s' => if p c then star p s' k else None
      | [] => None
      end
  end.
End Run.

Definition is_char (c : ascii) : ascii -> bool := Ascii.eqb c.
Definition is_sign (c : ascii) : bool := Ascii.eqb c "+" || Ascii.eqb c "-".

(** Group 1 of the pattern: [[+-]?\d+(?:\.\d+)?] *)
Definition number : re :=
  Seq (Opt (Class is_sign))
      (Seq (Plus is_digit)
           (Opt (Seq (Class (is_char ".")) (Plus is_digit)))).

(** What follows the group: [\s*°?C] *)
Definition unit_suffix : re :=
  Seq (Star is_space) (Seq (Opt (Class (is_char degree_sign))) (Class (is_char "C"))).

(** One match of [([+-]?\d+(?:\.\d+)?)\s*°?C] at the start of [s]: the text
    of group 1 and the input left after the whole match. *)
Definition match_here (s : text) : option (text * text) :=
  run number s (fun s1 =>
    run unit_suffix s1 (fun s2 =>
      Some (firstn (length s - length s1) s, s2))).

(** [re.findall]: scan from the left; after a match the scan resumes where
    the match ended ([skip] counts the characters of the last match that the
    scan still has to pass), otherwise it moves on by one character. *)
Fixpoint scan (s : text) (skip : nat) : list text :=
  match s with
  | [] => []
  | _ :: s' =>
      match skip with
      | S n => scan s' n
      | O =>
          match match_here s with
          | Some (group, rest) => group :: scan s' (length s' - length rest)
          | None => scan s' 0
          end
      end
  end.

Definition findall (s : text) : list text := scan s 0.

End Re.

(** ** [float(match)] *)

Module Decimal.
Import Text.

Definition digit_value (c : ascii) : Z := Z.of_nat (code c) - 48.

(** The integer written by a run of digits, most significant first. *)
Definition digits_value (ds : text) : Z :=
  fold_left (fun acc c => 10 * acc + digit_value c)%Z ds 0%Z.

Definition all_digits (ds : text) : bool :=
  negb (Nat.eqb (length ds) 0) && forallb is_digit ds.

(** Split at the first ['.']. *)
Fixpoint split_dot (s : text) : text * option text :=
  match s with
  | [] => ([], None)
  | c :: s' =>
      if Ascii.eqb c "." then ([], Some s')
      else let '(i, f) := split_dot s' in (c :: i, f)
  end.

Definition unsigned_float (neg : bool) (s : text) : option float :=
  match split_dot s with
  | (i, None) =>
      if all_digits i
      then Some (PyFloat.of_ratio neg (digits_value i) 1)
      else None
  | (i, Some f) =>
      if all_digits i && all_digits f
      then Some (PyFloat.of_ratio neg (digits_value (i ++ f))
                   (Pos.pow 10 (Pos.of_nat (length f))))
      else None
  end.

(** [float(s)] for a string of the shape the pattern's group can hold, a
    sign, digits and at most one fraction; [None] is [ValueError].  The
    rest of Python's float syntax (exponents, [inf], [nan], blanks,
    underscores) never reaches this call. *)
Definition float_of_text (s : text) : option float :=
  match s with
  | c :: s' =>
      if Ascii.eqb c "-" then unsigned_float true s'
      else if Ascii.eqb c "+" then unsigned_float false s'
      else unsigned_float false s
  | [] => None
  end.

End Decimal.
(** ** What one tick reads from the machine *)

Module Env.
Import Text.

(** An entry of [psutil.sensors_temperatures()]; the script only looks at
    [getattr(entry, "current", None)]. *)
Record shwtemp := { current : option float }.

(** [psutil.sensors_temperatures(fahrenheit=False)]: an exception, or the
    dict from sensor group to entries, in iteration order. *)
Inductive sensors_outcome :=
| SensorsRaise
| SensorsDict (groups : list (text * list shwtemp)).

(** [subprocess.run(["sensors"], capture_output=True, text=True, timeout=1,
    check=False)]: the two exception classes the script handles, any other
    exception (a [PermissionError] when the tool cannot be executed, a
    [UnicodeDecodeError] of its output), or a completed process. *)
Inductive run_outcome :=
| RunFileNotFound
| RunSubprocessError
| RunOtherError
| RunCompleted (returncode : Z) (stdout : text).

(** The [type] file of a thermal zone. *)
Inductive type_file :=
| TypeAbsent                  (* [os.path.isfile] is false *)
| TypeUnreadable              (* [open]/[read] raises [OSError] *)
| TypeContent (s : text).

(** The [temp] file of a thermal zone; [TempContent v] is a file whose
    stripped content [float] accepts, with value [v]. *)
Inductive temp_file :=
| TempAbsent                  (* [os.path.isfile] is false *)
| TempUnreadable              (* [OSError], or [ValueError] from [float] *)
| TempContent (v : float).

Record dir_entry := { name : text; temp : temp_file; type : type_file }.

(** A [GPUtil.GPU]: [load] is a fraction of 1. *)
Record GPU := { load : float; temperature : option float }.

Inductive gpus_outcome :=
| GetGPUsRaise
| GetGPUsList (gpus : list GPU).

Record t := {
  python : PyFloat.cpython;             (* the interpreter that runs the script *)
  now : text;                           (* [datetime.now().strftime(...)] *)
  cpu_percent : float;                  (* [psutil.cpu_percent(interval=None)] *)
  ram_percent : float;                  (* [psutil.virtual_memory().percent] *)
  getGPUs : gpus_outcome;
  sensors_temperatures : sensors_outcome;
  sensors_tool : run_outcome;
  thermal : option (list dir_entry);    (* [None]: no [/sys/class/thermal] *)
  store_fault : bool                    (* another connection holds [monitor.db] locked *)
}.

End Env.

(** ** Source readers: a reader of [Env.t] that logs which source it asked *)

Inductive source := SensorApi | SensorsTool | ThermalZones | GpuList.

Definition Src (A : Type) : Type := Env.t -> list source -> A * list source.

Definition ret {A} (a : A) : Src A := fun _ log => (a, log).

Definition bind {A B} (m : Src A) (f : A -> Src B) : Src B :=
  fun env log => let '(a, log') := m env log in f a env log'.

(** Ask the machine: the call is logged, the answer comes from [Env.t]. *)
Definition ask {A} (s : source) (field : Env.t -> A) : Src A :=
  fun env log => (field env, log ++ [s]).

Notation "x <- m ;; k" := (bind m (fun x => k))
  (at level 61, m at next level, right associativity).

(** The interpreter, which decides how [sum] adds. *)
Definition interpreter : Src PyFloat.cpython := fun env log => (Env.python env, log).

(** An exception of the tool call that [_read_cpu_temp_from_lm_sensors]
    does not handle. *)
Inductive source_error := ToolError.

Definition value_of {A} (m : Src A) (env : Env.t) : A := fst (m env []).

Module PcMonitorApp_sources.
Import Text.

(** [not values] *)
Definition is_empty {A} (l : list A) : bool :=
  match l with [] => true | _ => false end.

Definition plausible (value : float) : bool :=
  PyFloat.between (-20)%float value 150%float.

(** [read_gpu_metrics] *)
Definition read_gpu_metrics : Src (option float * option float) :=
  outcome <- ask GpuList Env.getGPUs ;;
  match outcome with
  | Env.GetGPUsRaise => ret (None, None)
  | Env.GetGPUsList [] => ret (None, None)
  | Env.GetGPUsList (gpu :: _) =>
      ret (Some (PrimFloat.mul (Env.load gpu) 100%float), Env.temperature gpu)
  end.

(** [_extract_temp_values_from_text] *)
Definition _extract_temp_values_from_text (raw_text : text) : list float :=
  flat_map
    (fun m =>
       match Decimal.float_of_text m with
       | None => []                                   (* [ValueError]: continue *)
       | Some value => if plausible value then [value] else []
       end)
    (Re.findall raw_text).

(** [_read_cpu_temp_from_lm_sensors]: only [FileNotFoundError] and
    [subprocess.SubprocessError] are caught. *)
Definition _read_cpu_temp_from_lm_sensors : Src (result source_error (option float)) :=
  result <- ask SensorsTool Env.sensors_tool ;;
  match result with
  | Env.RunFileNotFound | Env.RunSubprocessError => ret (Ok None)
  | Env.RunOtherError => ret (Raise ToolError)
  | Env.RunCompleted returncode stdout =>
      if negb (Z.eqb returncode 0) || is_empty stdout then ret (Ok None)
      else
        let values := _extract_temp_values_from_text stdout in
        if is_empty values then ret (Ok None)
        else
          py <- interpreter ;;
          ret (Ok (Some (PyFloat.mean py values)))
  end.

(** The test on [zone_type] that skips a zone. *)
Definition unrelated (zone_type : text) : bool :=
  negb (is_empty zone_type)
  && (negb (contains (str "cpu") zone_type)
      && negb (contains (str "x86") zone_type)
      && negb (contains (str "package") zone_type)).

(** One round of the loop over [os.listdir(zone_root)]: the value the entry
    adds to [values], if any. *)
Definition zone_reading (entry : Env.dir_entry) : option float :=
  if negb (startswith (Env.name entry) (str "thermal_zone")) then None
  else
    match Env.temp entry with
    | Env.TempAbsent => None
    | temp_read =>
        let zone_type :=
          match Env.type entry with
          | Env.TypeContent s => lower (strip s)
          | Env.TypeAbsent | Env.TypeUnreadable => []
          end in
        match temp_read with
        | Env.TempContent raw =>
            let value :=
              if PrimFloat.ltb 1000%float raw
              then PrimFloat.div raw 1000%float else raw in
            if plausible value then
              if unrelated zone_type then None else Some value
            else None
        | _ => None
        end
    end.

Definition some_to_list {A} (o : option A) : list A :=
  match o with Some a => [a] | None => [] end.

(** [_read_cpu_temp_from_sysfs] *)
Definition _read_cpu_temp_from_sysfs : Src (option float) :=
  tree <- ask ThermalZones Env.thermal ;;
  match tree with
  | None => ret None
  | Some entries =>
      let values := flat_map (fun e => some_to_list (zone_reading e)) entries in
      if is_empty values then ret None
      else
        py <- interpreter ;;
        ret (Some (PyFloat.mean py values))
  end.

(** The [current] readings of all groups, in iteration order. *)
Definition current_values (temps : list (text * list Env.shwtemp)) : list float :=
  flat_map
    (fun group => flat_map (fun e => some_to_list (Env.current e)) (snd group))
    temps.

(** [read_cpu_temperature]: an exception of the tool fallback passes
    through. *)
Definition read_cpu_temperature : Src (result source_error (option float)) :=
  outcome <- ask SensorApi Env.sensors_temperatures ;;
  let temps :=
    match outcome with
    | Env.SensorsRaise => []
    | Env.SensorsDict groups => groups
    end in
  let values := current_values temps in
  if negb (is_empty values) then
    py <- interpreter ;;
    ret (Ok (Some (PyFloat.mean py values)))
  else
    fallback_value <- _read_cpu_temp_from_lm_sensors ;;
    match fallback_value with
    | Raise e => ret (Raise e)
    | Ok (Some v) => ret (Ok (Some v))
    | Ok None =>
        from_zones <- _read_cpu_temp_from_sysfs ;;
        ret (Ok from_zones)
    end.

End PcMonitorApp_sources.

(** ** The wording of the specification, for comparison with the code *)

Module SpecWords.
Import Text.

(** "a signed/unsigned decimal number immediately followed by a degree
    marker and an optional unit letter" *)
Definition is_letter (c : ascii) : bool :=
  ((65 <=? code c) && (code c <=? 90)) || ((97 <=? code c) && (code c <=? 122)).

Definition token_suffix : Re.re :=
  Re.Seq (Re.Class (Re.is_char degree_sign)) (Re.Opt (Re.Class is_letter)).

Definition token_here (s : text) : option (text * text) :=
  Re.run Re.number s (fun s1 =>
    Re.run token_suffix s1 (fun s2 =>
      Some (firstn (length s - length s1) s, s2))).

Fixpoint tokens (s : text) (skip : nat) : list text :=
  match s with
  | [] => []
  | _ :: s' =>
      match skip with
      | S n => tokens s' n
      | O =>
          match token_here s with
          | Some (group, rest) => group :: tokens s' (length s' - length rest)
          | None => tokens s' 0
          end
      end
  end.

(** "Discard any parsed value outside [-20, 150]. Return the mean of the
    remaining values, or no data if none remain." *)
Definition tool_reading (py : PyFloat.cpython) (stdout : text) : option float :=
  let values :=
    flat_map
      (fun m => match Decimal.float_of_text m with
                | Some v => if PcMonitorApp_sources.plausible v then [v] else []
                | None => []
                end)
      (tokens stdout 0) in
  match values with
  | [] => None
  | _ => Some (PyFloat.mean py values)
  end.

(** "if the magnitude exceeds 1000, treat it as millidegrees and divide by
    1000" *)
Definition normalize (raw : float) : float :=
  if PrimFloat.ltb 1000%float (PrimFloat.abs raw)
  then PrimFloat.div raw 1000%float else raw.

Definition cpu_related (label : text) : bool :=
  contains (str "cpu") label || contains (str "x86") label
  || contains (str "package") label.

(** "Discard values outside [-20, 150]. If a zone's type label is available
    and does not contain any of the substrings identifying it as
    CPU-related, skip that zone; if the type label is unavailable, include
    the zone's reading anyway." *)
Definition zone_value (entry : Env.dir_entry) : option float :=
  if negb (startswith (Env.name entry) (str "thermal_zone")) then None
  else
    match Env.temp entry with
    | Env.TempContent raw =>
        let value := normalize raw in
        if PcMonitorApp_sources.plausible value then
          match Env.type entry with
          | Env.TypeContent s =>
              if cpu_related (lower (strip s)) then Some value else None
          | Env.TypeAbsent | Env.TypeUnreadable => Some value
          end
        else None
    | _ => None
    end.

(** "Return the mean of included values, or no data if none." *)
Definition thermal_reading (py : PyFloat.cpython) (tree : option (list Env.dir_entry))
  : option float :=
  match tree with
  | None => None
  | Some entries =>
      match flat_map (fun e => PcMonitorApp_sources.some_to_list (zone_value e)) entries with
      | [] => None
      | values => Some (PyFloat.mean py values)
      end
  end.

End SpecWords.
(** ** The SQLite store, as far as the script uses it

    One table, [measurements].  A stored row may have fewer fields than the
    table has columns: [ALTER TABLE ... ADD COLUMN] leaves the rows as they
    are, and a field that is not there reads as NULL. *)

Module Sqlite.
Import Text.

Inductive value :=
| Null
| Integer (n : Z)
| Real (r : float)
| Str (s : text).

Inductive error :=
| OperationalError     (* no such table or column, duplicate column, I/O fault *)
| IntegrityError.      (* a NOT NULL constraint failed *)

Record column := {
  cname : text;
  decltype : text;
  notnull : bool;
  autoincrement : bool      (* INTEGER PRIMARY KEY AUTOINCREMENT *)
}.

Record table := {
  columns : list column;
  rows : list (list value);
  sequence : Z                (* the largest row id handed out so far *)
}.

(** The content of the database file: the table, once it exists. *)
Definition database := option table.

Fixpoint text_eqb (a b : text) : bool :=
  match a, b with
  | [], [] => true
  | x :: a', y :: b' => Ascii.eqb x y && text_eqb a' b'
  | _, _ => false
  end.

(** SQLite compares identifiers without regard to the case of [A]..[Z]. *)
Definition fold_char (c : ascii) : ascii :=
  if (65 <=? code c) && (code c <=? 90) then ascii_of_nat (code c + 32) else c.

Definition same_name (a b : text) : bool :=
  text_eqb (map fold_char a) (map fold_char b).

Definition names (t : table) : list text := map cname (columns t).

(** Binding a Python value to a [?]: SQLite has no NaN and binds it as
    NULL. *)
Definition bind_float (v : float) : value :=
  if PrimFloat.is_nan v then Null else Real v.

Definition bind_optional (o : option float) : value :=
  match o with
  | Some v => bind_float v
  | None => Null
  end.

(** What a column keeps of a value.  A REAL column keeps a zero without its
    sign; the script binds only floats to its REAL columns and only text to
    its TEXT column, and these are kept as they are. *)
Definition keep (c : column) (v : value) : value :=
  match v with
  | Real r =>
      if same_name (decltype c) (str "REAL") && PrimFloat.eqb 0%float r
      then Real 0%float else v
  | _ => v
  end.

Fixpoint lookup (name : text) (assignments : list (text * value)) : option value :=
  match assignments with
  | [] => None
  | (n, v) :: rest => if same_name n name then Some v else lookup name rest
  end.

(** The field a new row gets in column [c]. *)
Definition new_field (t : table) (assignments : list (text * value)) (c : column) : value :=
  match lookup (cname c) assignments with
  | Some v => keep c v
  | None => if autoincrement c then Integer (sequence t + 1) else Null
  end.

Definition violates_notnull (c : column) (v : value) : bool :=
  notnull c && match v with Null => true | _ => false end.

(** [CREATE TABLE IF NOT EXISTS measurements (...)] *)
Definition create_table_if_not_exists (cols : list column) (d : database) : database :=
  match d with
  | Some t => Some t
  | None => Some {| columns := cols; rows := []; sequence := 0 |}
  end.

(** Column 1 of [PRAGMA table_info(measurements)]. *)
Definition table_info (d : database) : list text :=
  match d with
  | Some t => names t
  | None => []
  end.

(** [ALTER TABLE measurements ADD COLUMN name type] *)
Definition add_column (name type : text) (d : database) : result error database :=
  match d with
  | None => Raise OperationalError
  | Some t =>
      if existsb (same_name name) (names t) then Raise OperationalError
      else Ok (Some {| columns := columns t
                         ++ [{| cname := name; decltype := type;
                                notnull := false; autoincrement := false |}];
                       rows := rows t;
                       sequence := sequence t |})
  end.

(** [INSERT INTO measurements (n1, ..) VALUES (?, ..)] is compiled first:
    the table and every named column must exist. *)
Definition prepare_insert (assignments : list (text * value)) (d : database) : result error table :=
  match d with
  | None => Raise OperationalError
  | Some t =>
      if negb (forallb (fun a => existsb (same_name (fst a)) (names t)) assignments)
      then Raise OperationalError
      else Ok t
  end.

(** The compiled INSERT is then run: the constraints are checked on the new
    row. *)
Definition step_insert (assignments : list (text * value)) (t : table) : result error database :=
  let row := map (new_field t assignments) (columns t) in
  if existsb (fun cv => violates_notnull (fst cv) (snd cv))
             (combine (columns t) row)
  then Raise IntegrityError
  else Ok (Some {| columns := columns t;
                   rows := rows t ++ [row];
                   sequence := sequence t + 1 |}).

(** [SELECT * FROM measurements]: every row as its fields by column name, in
    column order. *)
Definition read_row (t : table) (row : list value) : list (text * value) :=
  combine (names t) (row ++ repeat Null (length (columns t) - length row)).

Definition select_all (d : database) : list (list (text * value)) :=
  match d with
  | Some t => map (read_row t) (rows t)
  | None => []
  end.

(** A connection of Python's [sqlite3] in its default mode: an INSERT that
    compiles opens a transaction before it runs, which [commit] writes to
    the file; a schema statement outside a transaction goes to the file at
    once. *)
Record connection := {
  disk : database;
  transaction : option database
}.

Definition view (c : connection) : database :=
  match transaction c with
  | Some d => d
  | None => disk c
  end.

Definition connect (file : database) : connection :=
  {| disk := file; transaction := None |}.

End Sqlite.

(** Statements on a connection: the connection is threaded through, and an
    exception leaves it as it was when the statement failed. *)
Definition Db (A : Type) : Type :=
  Sqlite.connection -> result Sqlite.error A * Sqlite.connection.

Module Db.

Definition ret {A} (a : A) : Db A := fun c => (Ok a, c).

Definition bind {A B} (m : Db A) (f : A -> Db B) : Db B :=
  fun c =>
    match m c with
    | (Ok a, c') => f a c'
    | (Raise e, c') => (Raise e, c')
    end.

(** A statement that runs outside a transaction while another connection
    keeps the file locked fails and leaves the connection as it is. *)
Definition guard (fault : bool) : Db unit :=
  fun c => if fault then (Raise Sqlite.OperationalError, c) else (Ok tt, c).

(** [connection.execute] of a schema statement. *)
Definition execute_ddl (stmt : Sqlite.database -> result Sqlite.error Sqlite.database) : Db unit :=
  fun c =>
    match stmt (Sqlite.view c) with
    | Raise e => (Raise e, c)
    | Ok d =>
        match Sqlite.transaction c with
        | Some _ => (Ok tt, {| Sqlite.disk := Sqlite.disk c; Sqlite.transaction := Some d |})
        | None => (Ok tt, {| Sqlite.disk := d; Sqlite.transaction := None |})
        end
    end.

(** [connection.execute] of an INSERT.  The statement is compiled; an
    error there (no such table, no such column) is raised with the
    connection as it was.  Then the transaction is begun, which takes no
    lock, and the statement runs: with the file locked by another
    connection it fails, and so does a row that breaks a constraint, both
    inside the transaction that was begun. *)
Definition execute_insert (fault : bool) (assignments : list (Text.text * Sqlite.value)) : Db unit :=
  fun c =>
    match Sqlite.prepare_insert assignments (Sqlite.view c) with
    | Raise e => (Raise e, c)
    | Ok t =>
        let begun := {| Sqlite.disk := Sqlite.disk c;
                        Sqlite.transaction := Some (Sqlite.view c) |} in
        if fault then (Raise Sqlite.OperationalError, begun)
        else
          match Sqlite.step_insert assignments t with
          | Raise e => (Raise e, begun)
          | Ok d => (Ok tt, {| Sqlite.disk := Sqlite.disk c;
                               Sqlite.transaction := Some d |})
          end
    end.

(** [connection.execute("PRAGMA table_info(measurements)")] and
    [fetchall]. *)
Definition query_table_info : Db (list Text.text) :=
  fun c => (Ok (Sqlite.table_info (Sqlite.view c)), c).

(** [connection.commit()] *)
Definition commit : Db unit :=
  fun c => (Ok tt, {| Sqlite.disk := Sqlite.view c; Sqlite.transaction := None |}).

End Db.

Notation "x <~ m ;; k" := (Db.bind m (fun x => k))
  (at level 61, m at next level, right associativity).
Notation "m ;;; k" := (Db.bind m (fun _ => k))
  (at level 61, right associativity).

(** ** [MetricsRepository] *)

Module MetricsRepository.
Import Text.

Definition col (name type : string) (nn auto : bool) : Sqlite.column :=
  {| Sqlite.cname := str name; Sqlite.decltype := str type;
     Sqlite.notnull := nn; Sqlite.autoincrement := auto |}.

(** The column list of the [CREATE TABLE] statement. *)
Definition measurements_columns : list Sqlite.column :=
  [ col "id" "INTEGER" false true;
    col "captured_at" "TEXT" true false;
    col "cpu_percent" "REAL" true false;
    col "ram_percent" "REAL" true false;
    col "gpu_load_percent" "REAL" false false;
    col "gpu_temp_c" "REAL" false false;
    col "cpu_temp_c" "REAL" false false ].

(** [column in existing]: membership in a Python set of [str]. *)
Definition member (column : text) (existing : list text) : bool :=
  existsb (Sqlite.text_eqb column) existing.

(** [_ensure_column(table, column, column_type)]; the script only ever
    passes the table [measurements]. *)
Definition _ensure_column (fault : bool) (column column_type : text) : Db unit :=
  Db.guard fault ;;;
  existing <~ Db.query_table_info ;;
  if negb (member column existing)
  then Db.guard fault ;;; Db.execute_ddl (Sqlite.add_column column column_type)
  else Db.ret tt.

(** [create_schema] *)
Definition create_schema (fault : bool) : Db unit :=
  Db.guard fault ;;;
  Db.execute_ddl (fun d => Ok (Sqlite.create_table_if_not_exists measurements_columns d)) ;;;
  _ensure_column fault (str "gpu_load_percent") (str "REAL") ;;;
  _ensure_column fault (str "gpu_temp_c") (str "REAL") ;;;
  _ensure_column fault (str "cpu_temp_c") (str "REAL") ;;;
  Db.commit.

(** [insert_measurement] *)
Definition insert_measurement (fault : bool)
    (captured_at : text) (cpu_percent ram_percent : float)
    (gpu_load_percent gpu_temp_c cpu_temp_c : option float) : Db unit :=
  Db.execute_insert fault
    [ (str "captured_at", Sqlite.Str captured_at);
      (str "cpu_percent", Sqlite.bind_float cpu_percent);
      (str "ram_percent", Sqlite.bind_float ram_percent);
      (str "gpu_load_percent", Sqlite.bind_optional gpu_load_percent);
      (str "gpu_temp_c", Sqlite.bind_optional gpu_temp_c);
      (str "cpu_temp_c", Sqlite.bind_optional cpu_temp_c) ] ;;;
  Db.commit.

(** [__init__]: open the file and bring the schema up to date. *)
Definition init (fault : bool) (file : Sqlite.database) : result Sqlite.error unit * Sqlite.connection :=
  create_schema fault (Sqlite.connect file).

(** The table an earlier version of the script created: no [cpu_temp_c]. *)
Definition earlier_columns : list Sqlite.column :=
  [ col "id" "INTEGER" false true;
    col "captured_at" "TEXT" true false;
    col "cpu_percent" "REAL" true false;
    col "ram_percent" "REAL" true false;
    col "gpu_load_percent" "REAL" false false;
    col "gpu_temp_c" "REAL" false false ].

End MetricsRepository.
(** ** [PcMonitorApp]: one tick and the Tk timer loop *)

Module PcMonitorApp.
Import Text.

Record t := {
  repo : Sqlite.connection;
  cpu_chart : MetricChart.t;
  ram_chart : MetricChart.t;
  gpu_load_chart : MetricChart.t;
  gpu_temp_chart : MetricChart.t;
  cpu_temp_chart : MetricChart.t;
  scheduled : nat        (* [root.after] callbacks waiting for their timer *)
}.

(** An exception that leaves [update_all_metrics]. *)
Inductive tick_error :=
| FromSource (e : source_error)
| FromStore (e : Sqlite.error).

(** [update_all_metrics]: the state after the call and the exception that
    left it, if any.  All readings are taken before the first chart is
    touched, so an exception of [read_cpu_temperature] leaves the state as
    it was; the tick schedules its successor only when the insert
    returned. *)
Definition update_all_metrics (env : Env.t) (app : t) : t * option tick_error :=
  let captured_at := Env.now env in
  let cpu_percent := Env.cpu_percent env in
  let ram_percent := Env.ram_percent env in
  let '(gpu_load_percent, gpu_temp_c) :=
    value_of PcMonitorApp_sources.read_gpu_metrics env in
  match value_of PcMonitorApp_sources.read_cpu_temperature env with
  | Raise e => (app, Some (FromSource e))
  | Ok cpu_temp_c =>
      let cpu_chart' :=
        MetricChart.update_value (cpu_chart app) cpu_percent
          (Some (Fixed1 "Текущая загрузка CPU: " cpu_percent "%")) in
      let ram_chart' :=
        MetricChart.update_value (ram_chart app) ram_percent
          (Some (Fixed1 "Текущая загрузка RAM: " ram_percent "%")) in
      let gpu_load_chart' :=
        match gpu_load_percent with
        | None =>
            MetricChart.update_value (gpu_load_chart app) 0%float
              (Some (Plain "GPU load: N/A (видеокарта не обнаружена)"))
        | Some v =>
            MetricChart.update_value (gpu_load_chart app) v
              (Some (Fixed1 "Текущая загрузка GPU: " v "%"))
        end in
      let gpu_temp_chart' :=
        match gpu_temp_c with
        | None =>
            MetricChart.update_value (gpu_temp_chart app) 0%float
              (Some (Plain "GPU temp: N/A"))
        | Some v =>
            MetricChart.update_value (gpu_temp_chart app) v
              (Some (Fixed1 "Текущая температура GPU: " v "°C"))
        end in
      let cpu_temp_chart' :=
        match cpu_temp_c with
        | None =>
            MetricChart.update_value (cpu_temp_chart app) 0%float
              (Some (Plain "CPU temp: N/A (датчик недоступен)"))
        | Some v =>
            MetricChart.update_value (cpu_temp_chart app) v
              (Some (Fixed1 "Текущая температура CPU: " v "°C"))
        end in
      match MetricsRepository.insert_measurement (Env.store_fault env)
              captured_at cpu_percent ram_percent gpu_load_percent gpu_temp_c cpu_temp_c
              (repo app) with
      | (Ok _, repo') =>
          ({| repo := repo';
              cpu_chart := cpu_chart'; ram_chart := ram_chart';
              gpu_load_chart := gpu_load_chart'; gpu_temp_chart := gpu_temp_chart';
              cpu_temp_chart := cpu_temp_chart';
              scheduled := S (scheduled app) |}, None)
      | (Raise e, repo') =>
          ({| repo := repo';
              cpu_chart := cpu_chart'; ram_chart := ram_chart';
              gpu_load_chart := gpu_load_chart'; gpu_temp_chart := gpu_temp_chart';
              cpu_temp_chart := cpu_temp_chart';
              scheduled := scheduled app |}, Some (FromStore e))
      end
  end.

(** [__init__], up to the first tick: the repository is opened, the five
    charts are created with the default [max_points = 90]. *)
Definition create (conn : Sqlite.connection) : t :=
  {| repo := conn;
     cpu_chart := MetricChart.init 90 "%";
     ram_chart := MetricChart.init 90 "%";
     gpu_load_chart := MetricChart.init 90 "%";
     gpu_temp_chart := MetricChart.init 90 "°C";
     cpu_temp_chart := MetricChart.init 90 "°C";
     scheduled := 0 |}.

(** [__init__]: an exception of [create_schema] or of the first tick leaves
    the constructor. *)
Definition init (fault : bool) (file : Sqlite.database) (env : Env.t) : result tick_error t :=
  match MetricsRepository.init fault file with
  | (Raise e, _) => Raise (FromStore e)
  | (Ok _, conn) =>
      match update_all_metrics env (create conn) with
      | (app, None) => Ok app
      | (_, Some e) => Raise e
      end
  end.

(** One timer expiry in [root.mainloop()]: a waiting callback, if there is
    one, is taken off the timer list and run; an exception it raises goes to
    Tk's callback error report and the loop goes on. *)
Definition expire (env : Env.t) (state : t * list tick_error) : t * list tick_error :=
  let '(app, reported) := state in
  match scheduled app with
  | O => (app, reported)
  | S n =>
      let waiting :=
        {| repo := repo app;
           cpu_chart := cpu_chart app; ram_chart := ram_chart app;
           gpu_load_chart := gpu_load_chart app;
           gpu_temp_chart := gpu_temp_chart app;
           cpu_temp_chart := cpu_temp_chart app;
           scheduled := n |} in
      match update_all_metrics env waiting with
      | (app', None) => (app', reported)
      | (app', Some e) => (app', reported ++ [e])
      end
  end.

(** [root.mainloop()] over the machine states met at successive timer
    expiries. *)
Definition mainloop (envs : list Env.t) (app : t) : t * list tick_error :=
  fold_left (fun state env => expire env state) envs (app, []).

(** The five windows of an application state. *)
Definition histories (app : t) : list (list float) :=
  map MetricChart.snapshot
      [cpu_chart app; ram_chart app; gpu_load_chart app;
       gpu_temp_chart app; cpu_temp_chart app].

End PcMonitorApp.
(** ** Drawing: the geometry of [MetricChart] *)

(** Python's two-argument [min] and [max]: the first argument is kept unless
    the second compares strictly below (above) it; a NaN never does. *)
Definition py_min (a b : float) : float := if PrimFloat.ltb b a then b else a.
Definition py_max (a b : float) : float := if PrimFloat.ltb a b then b else a.

Inductive draw_error := ZeroDivisionError.

(** [a / b] on floats raises when [b] is zero. *)
Definition py_div (a b : float) : result draw_error float :=
  if PrimFloat.eqb b 0%float then Raise ZeroDivisionError
  else Ok (PrimFloat.div a b).

(** [a / n] for an int [n]: [n] is converted, and only the int 0 converts to
    zero. *)
Definition py_div_int (a : float) (n : Z) : result draw_error float :=
  if Z.eqb n 0 then Raise ZeroDivisionError
  else Ok (PrimFloat.div a (PyFloat.of_Z n)).

Module Drawing.

(** The layout attributes of a [MetricChart]; the ints among them ([width],
    [height], [padding]) enter float arithmetic only and are kept as the
    floats they convert to. *)
Record geometry := {
  width : float;
  height : float;
  padding : float;
  y_min : float;
  y_max : float
}.

(** The defaults of [MetricChart.__init__], and the two temperature charts
    of [PcMonitorApp]. *)
Definition percent_chart : geometry :=
  {| width := 520; height := 130; padding := 40; y_min := 0; y_max := 100 |}.

Definition temperature_chart : geometry :=
  {| width := 520; height := 130; padding := 40; y_min := 0; y_max := 120 |}.

Definition plot_left (g : geometry) : float := padding g.
Definition plot_top (g : geometry) : float := PrimFloat.div (padding g) 2.
Definition plot_right (g : geometry) : float :=
  PrimFloat.sub (width g) (PrimFloat.div (padding g) 2).
Definition plot_bottom (g : geometry) : float := PrimFloat.sub (height g) (padding g).

(** The clamped value of [value_to_y]. *)
Definition clamp (g : geometry) (value : float) : float :=
  py_max (y_min g) (py_min (y_max g) value).

(** [MetricChart.value_to_y] *)
Definition value_to_y (g : geometry) (value top bottom : float) : result draw_error float :=
  let value := clamp g value in
  match py_div (PrimFloat.sub value (y_min g)) (PrimFloat.sub (y_max g) (y_min g)) with
  | Raise e => Raise e
  | Ok normalized =>
      Ok (PrimFloat.sub bottom (PrimFloat.mul normalized (PrimFloat.sub bottom top)))
  end.

(** The loop of [draw_series] over [enumerate(self.history)], from index
    [i] on. *)
Fixpoint series_points (g : geometry) (step_x : float) (i : nat) (values : list float)
  : result draw_error (list (float * float)) :=
  match values with
  | [] => Ok []
  | value :: rest =>
      let x := PrimFloat.add (plot_left g) (PrimFloat.mul (PyFloat.of_nat i) step_x) in
      match value_to_y g value (plot_top g) (plot_bottom g) with
      | Raise e => Raise e
      | Ok y =>
          match series_points g step_x (S i) rest with
          | Raise e => Raise e
          | Ok points => Ok ((x, y) :: points)
          end
      end
  end.

(** [MetricChart.draw_series]: the points of the line it puts on the canvas
    (none when it returns early). *)
Definition draw_series (g : geometry) (c : MetricChart.t) : result draw_error (list (float * float)) :=
  if length (Deque.to_list (MetricChart.history c)) <? 2 then Ok []
  else
    match py_div_int (PrimFloat.sub (plot_right g) (plot_left g))
            (Z.of_nat (MetricChart.max_points c) - 1) with
    | Raise e => Raise e
    | Ok step_x =>
        series_points g step_x 0 (Deque.to_list (MetricChart.history c))
    end.

End Drawing.

(** ** The earlier version of the script (no CPU temperature) *)

Module Earlier.
Import Text.

(** [MetricsRepository.create_schema]: the table without [cpu_temp_c], no
    migration. *)
Definition create_schema (fault : bool) : Db unit :=
  Db.guard fault ;;;
  Db.execute_ddl
    (fun d => Ok (Sqlite.create_table_if_not_exists MetricsRepository.earlier_columns d)) ;;;
  Db.commit.

(** [MetricsRepository.insert_measurement], five fields. *)
Definition insert_measurement (fault : bool)
    (captured_at : text) (cpu_percent ram_percent : float)
    (gpu_load_percent gpu_temp_c : option float) : Db unit :=
  Db.execute_insert fault
    [ (str "captured_at", Sqlite.Str captured_at);
      (str "cpu_percent", Sqlite.bind_float cpu_percent);
      (str "ram_percent", Sqlite.bind_float ram_percent);
      (str "gpu_load_percent", Sqlite.bind_optional gpu_load_percent);
      (str "gpu_temp_c", Sqlite.bind_optional gpu_temp_c) ] ;;;
  Db.commit.

(** [MetricChart.update_value]: the default text is used only when
    [display_text is None]. *)
Definition update_value (c : MetricChart.t) (value : float) (display_text : option label)
  : MetricChart.t :=
  let shown :=
    match display_text with
    | Some d => d
    | None => Fixed1 "Текущее значение: " value (MetricChart.unit c)
    end in
  MetricChart.mk (MetricChart.max_points c) (MetricChart.unit c)
    (Deque.append (MetricChart.history c) value) shown.

End Earlier.

(** ** [CpuChartApp]: the first script, one chart of the CPU load *)

Module CpuChartApp.

Record t := {
  max_points : nat;
  history : Deque.deque float;
  value_var : label;
  scheduled : nat
}.

(** [__init__] up to the first [update_chart]. *)
Definition create : t :=
  {| max_points := 120;
     history := Deque.make (repeat 0%float 120) 120;
     value_var := Plain "Текущая загрузка: 0.0%";
     scheduled := 0 |}.

(** [update_chart], with the reading of [psutil.cpu_percent]. *)
Definition update_chart (cpu_value : float) (app : t) : t :=
  {| max_points := max_points app;
     history := Deque.append (history app) cpu_value;
     value_var := Fixed1 "Текущая загрузка: " cpu_value "%";
     scheduled := S (scheduled app) |}.

Definition init (cpu_value : float) : t := update_chart cpu_value create.

(** One timer expiry in [root.mainloop()]. *)
Definition expire (cpu_value : float) (app : t) : t :=
  match scheduled app with
  | O => app
  | S n =>
      update_chart cpu_value
        {| max_points := max_points app; history := history app;
           value_var := value_var app; scheduled := n |}
  end.

Definition mainloop (readings : list float) (app : t) : t :=
  fold_left (fun app cpu_value => expire cpu_value app) readings app.

(** [value_to_y]: the load is clamped to [0, 100]. *)
Definition value_to_y (value top bottom : float) : float :=
  let value := py_max 0%float (py_min 100%float value) in
  PrimFloat.sub bottom
    (PrimFloat.mul (PrimFloat.div value 100%float) (PrimFloat.sub bottom top)).

End CpuChartApp.
(** ** Vocabulary of the statements *)

(** The strings group 1 can hold: an optional sign, digits, and an optional
    fraction. *)
Definition digit_run (ds : Text.text) : Prop :=
  ds <> [] /\ forallb Text.is_digit ds = true.

Inductive sign_part : Text.text -> Prop :=
| sign_none : sign_part []
| sign_plus : sign_part ["+"%char]
| sign_minus : sign_part ["-"%char].

Inductive fraction_part : Text.text -> Prop :=
| fraction_none : fraction_part []
| fraction_some fs : digit_run fs -> fraction_part ("."%char :: fs).

Inductive decimal_number : Text.text -> Prop :=
| decimal_number_intro sign ds fr :
    sign_part sign -> digit_run ds -> fraction_part fr ->
    decimal_number (sign ++ ds ++ fr).

(** What may stand between the number and the input left over: blanks, at
    most one degree sign, and the letter C. *)
Inductive unit_part : Text.text -> Prop :=
| unit_plain ws :
    forallb Text.is_space ws = true -> unit_part (ws ++ ["C"%char])
| unit_degree ws :
    forallb Text.is_space ws = true ->
    unit_part (ws ++ [Text.degree_sign; "C"%char]).

(** [stops p s]: a greedy run of [p] cannot go on into [s]. *)
Definition stops (p : ascii -> bool) (s : Text.text) : bool :=
  match s with
  | [] => true
  | c :: _ => negb (p c)
  end.

(** The values [float] returns on the matches of [re.findall], before the
    range test. *)
Definition candidates (raw_text : Text.text) : list float :=
  flat_map (fun m => PcMonitorApp_sources.some_to_list (Decimal.float_of_text m))
           (Re.findall raw_text).

(** A machine on which no source answers: the starting point of the
    concrete scenarios. *)
Definition silent_machine : Env.t :=
  {| Env.python := PyFloat.Until311;
     Env.now := Text.str "2024-05-01 12:00:00";
     Env.cpu_percent := 12.5%float;
     Env.ram_percent := 40%float;
     Env.getGPUs := Env.GetGPUsRaise;
     Env.sensors_temperatures := Env.SensorsRaise;
     Env.sensors_tool := Env.RunFileNotFound;
     Env.thermal := None;
     Env.store_fault := false |}.

Definition with_tool (env : Env.t) (o : Env.run_outcome) : Env.t :=
  {| Env.python := Env.python env;
     Env.now := Env.now env;
     Env.cpu_percent := Env.cpu_percent env;
     Env.ram_percent := Env.ram_percent env;
     Env.getGPUs := Env.getGPUs env;
     Env.sensors_temperatures := Env.sensors_temperatures env;
     Env.sensors_tool := o;
     Env.thermal := Env.thermal env;
     Env.store_fault := Env.store_fault env |}.

Definition with_thermal (env : Env.t) (tree : option (list Env.dir_entry)) : Env.t :=
  {| Env.python := Env.python env;
     Env.now := Env.now env;
     Env.cpu_percent := Env.cpu_percent env;
     Env.ram_percent := Env.ram_percent env;
     Env.getGPUs := Env.getGPUs env;
     Env.sensors_temperatures := Env.sensors_temperatures env;
     Env.sensors_tool := Env.sensors_tool env;
     Env.thermal := tree;
     Env.store_fault := Env.store_fault env |}.

Definition with_sensors (env : Env.t) (o : Env.sensors_outcome) : Env.t :=
  {| Env.python := Env.python env;
     Env.now := Env.now env;
     Env.cpu_percent := Env.cpu_percent env;
     Env.ram_percent := Env.ram_percent env;
     Env.getGPUs := Env.getGPUs env;
     Env.sensors_temperatures := o;
     Env.sensors_tool := Env.sensors_tool env;
     Env.thermal := Env.thermal env;
     Env.store_fault := Env.store_fault env |}.

Definition with_gpus (env : Env.t) (o : Env.gpus_outcome) : Env.t :=
  {| Env.python := Env.python env;
     Env.now := Env.now env;
     Env.cpu_percent := Env.cpu_percent env;
     Env.ram_percent := Env.ram_percent env;
     Env.getGPUs := o;
     Env.sensors_temperatures := Env.sensors_temperatures env;
     Env.sensors_tool := Env.sensors_tool env;
     Env.thermal := Env.thermal env;
     Env.store_fault := Env.store_fault env |}.

Definition with_python (env : Env.t) (py : PyFloat.cpython) : Env.t :=
  {| Env.python := py;
     Env.now := Env.now env;
     Env.cpu_percent := Env.cpu_percent env;
     Env.ram_percent := Env.ram_percent env;
     Env.getGPUs := Env.getGPUs env;
     Env.sensors_temperatures := Env.sensors_temperatures env;
     Env.sensors_tool := Env.sensors_tool env;
     Env.thermal := Env.thermal env;
     Env.store_fault := Env.store_fault env |}.

Definition with_store_fault (env : Env.t) (b : bool) : Env.t :=
  {| Env.python := Env.python env;
     Env.now := Env.now env;
     Env.cpu_percent := Env.cpu_percent env;
     Env.ram_percent := Env.ram_percent env;
     Env.getGPUs := Env.getGPUs env;
     Env.sensors_temperatures := Env.sensors_temperatures env;
     Env.sensors_tool := Env.sensors_tool env;
     Env.thermal := Env.thermal env;
     Env.store_fault := b |}.

(** The output of [sensors] used in the scenarios:
    [temp1: +200.0°C (crit = +55.0°C)]. *)
Definition sensors_sample_output : Text.text :=
  Text.str "temp1: +200.0" ++ [Text.degree_sign]
  ++ Text.str "C (crit = +55.0" ++ [Text.degree_sign] ++ Text.str "C)".

(** A longer output of [sensors]: four readings in range (41, 80, 50 and
    30), one out of range, and a fan speed. *)
Definition sensors_listing : Text.text :=
  Text.str "Core 0: +41.0" ++ [Text.degree_sign] ++ Text.str "C (high = +80.0"
  ++ [Text.degree_sign] ++ Text.str "C)" ++ [ascii_of_nat 10]
  ++ Text.str "Core 1: +50 C" ++ [ascii_of_nat 10]
  ++ Text.str "fan1: 1200 RPM" ++ [ascii_of_nat 10]
  ++ Text.str "temp3: +200.0" ++ [Text.degree_sign] ++ Text.str "C" ++ [ascii_of_nat 10]
  ++ Text.str "Core 2: 30C".




Definition zone (name : string) (temp : Env.temp_file) (type : Env.type_file) : Env.dir_entry :=
  {| Env.name := Text.str name; Env.temp := temp; Env.type := type |}.

(** The [current] readings the sensor API yields; an exception yields
    none. *)
Definition sensor_values (env : Env.t) : list float :=
  PcMonitorApp_sources.current_values
    match Env.sensors_temperatures env with
    | Env.SensorsRaise => []
    | Env.SensorsDict groups => groups
    end.


(** Three sensor groups with the four readings 41, 50, 30 and 55; one
    entry has no [current]. *)
Definition three_sensor_groups : Env.sensors_outcome :=
  Env.SensorsDict
    [(Text.str "coretemp",
      [{| Env.current := Some 41%float |}; {| Env.current := Some 50%float |}]);
     (Text.str "acpitz",
      [{| Env.current := None |}; {| Env.current := Some 30%float |}]);
     (Text.str "nvme",
      [{| Env.current := Some 55%float |}])].



(** ** Vocabulary of the store statements *)

(** The columns that later versions of the script added. *)
Definition optional_columns : list Sqlite.column :=
  [ MetricsRepository.col "gpu_load_percent" "REAL" false false;
    MetricsRepository.col "gpu_temp_c" "REAL" false false;
    MetricsRepository.col "cpu_temp_c" "REAL" false false ].

(** The optional columns a table does not have yet. *)
Definition missing_columns (t : Sqlite.table) : list Sqlite.column :=
  filter (fun c => negb (MetricsRepository.member (Sqlite.cname c) (Sqlite.names t)))
         optional_columns.

(** What [_ensure_column] does to the content of the database. *)
Definition ensure (column : Text.text) (d : Sqlite.database) : result Sqlite.error Sqlite.database :=
  if MetricsRepository.member column (Sqlite.table_info d) then Ok d
  else Sqlite.add_column column (Text.str "REAL") d.

(** What [create_schema] does to the content of the database. *)
Definition migrate (d : Sqlite.database) : result Sqlite.error Sqlite.database :=
  match ensure (Text.str "gpu_load_percent")
          (Sqlite.create_table_if_not_exists MetricsRepository.measurements_columns d) with
  | Raise e => Raise e
  | Ok d1 =>
      match ensure (Text.str "gpu_temp_c") d1 with
      | Raise e => Raise e
      | Ok d2 => ensure (Text.str "cpu_temp_c") d2
      end
  end.

(** A connection with nothing pending. *)
Definition committed (d : Sqlite.database) : Sqlite.connection :=
  {| Sqlite.disk := d; Sqlite.transaction := None |}.

(** No two columns have the same name, in SQLite's sense of "same". *)
Definition distinct_names (t : Sqlite.table) : Prop :=
  NoDup (map (map Sqlite.fold_char) (Sqlite.names t)).

(** No stored row has more fields than the table has columns. *)
Definition rows_fit (t : Sqlite.table) : Prop :=
  Forall (fun row => length row <= length (Sqlite.columns t)) (Sqlite.rows t).

Definition null_fields (cols : list Sqlite.column) : list (Text.text * Sqlite.value) :=
  map (fun c => (Sqlite.cname c, Sqlite.Null)) cols.

Definition extended (t : Sqlite.table) (added : list Sqlite.column) : Sqlite.table :=
  {| Sqlite.columns := Sqlite.columns t ++ added;
     Sqlite.rows := Sqlite.rows t;
     Sqlite.sequence := Sqlite.sequence t |}.

(** What a REAL column of the table holds after a float was bound to it. *)
Definition stored (v : float) : Sqlite.value :=
  if PrimFloat.is_nan v then Sqlite.Null
  else if PrimFloat.eqb 0%float v then Sqlite.Real 0%float
  else Sqlite.Real v.

Definition stored_optional (o : option float) : Sqlite.value :=
  match o with
  | Some v => stored v
  | None => Sqlite.Null
  end.

(** The row [insert_measurement] adds, as [SELECT *] reads it back. *)
Definition measurement_row (id : Z) (captured_at : Text.text)
    (cpu_percent ram_percent : float)
    (gpu_load_percent gpu_temp_c cpu_temp_c : option float) : list (Text.text * Sqlite.value) :=
  [ (Text.str "id", Sqlite.Integer id);
    (Text.str "captured_at", Sqlite.Str captured_at);
    (Text.str "cpu_percent", stored cpu_percent);
    (Text.str "ram_percent", stored ram_percent);
    (Text.str "gpu_load_percent", stored_optional gpu_load_percent);
    (Text.str "gpu_temp_c", stored_optional gpu_temp_c);
    (Text.str "cpu_temp_c", stored_optional cpu_temp_c) ].

(** Python's [==] between a field read from the store and a field of the
    sample: [None] is NULL, floats compare as floats. *)
Definition field_equal (read : Sqlite.value) (field : option float) : bool :=
  match read, field with
  | Sqlite.Null, None => true
  | Sqlite.Real r, Some v => PrimFloat.eqb r v
  | _, _ => false
  end.

Definition not_nan (o : option float) : bool :=
  match o with
  | Some v => negb (PrimFloat.is_nan v)
  | None => true
  end.

(** The row read last. *)
Definition last_row (d : Sqlite.database) : list (Text.text * Sqlite.value) :=
  last (Sqlite.select_all d) [].

(** The field of a row that was read, by column name. *)
Definition field (name : string) (row : list (Text.text * Sqlite.value)) : option Sqlite.value :=
  Sqlite.lookup (Text.str name) row.

(** The fields of that row as they are stored. *)
Definition inserted_fields (t : Sqlite.table) (captured_at : Text.text)
    (cpu_percent ram_percent : float)
    (gpu_load_percent gpu_temp_c cpu_temp_c : option float) : list Sqlite.value :=
  map snd (measurement_row (Sqlite.sequence t + 1) captured_at cpu_percent
             ram_percent gpu_load_percent gpu_temp_c cpu_temp_c).

(** A row that was read holds the sample: the time stamp is the same text
    and every figure is equal to the sample's, [None] being NULL. *)
Definition row_matches (row : list (Text.text * Sqlite.value))
    (captured_at : Text.text) (cpu_percent ram_percent : float)
    (gpu_load_percent gpu_temp_c cpu_temp_c : option float) : bool :=
  match field "captured_at" row with
  | Some (Sqlite.Str s) => Sqlite.text_eqb s captured_at
  | _ => false
  end
  && match field "cpu_percent" row with
     | Some v => field_equal v (Some cpu_percent)
     | None => false
     end
  && match field "ram_percent" row with
     | Some v => field_equal v (Some ram_percent)
     | None => false
     end
  && match field "gpu_load_percent" row with
     | Some v => field_equal v gpu_load_percent
     | None => false
     end
  && match field "gpu_temp_c" row with
     | Some v => field_equal v gpu_temp_c
     | None => false
     end
  && match field "cpu_temp_c" row with
     | Some v => field_equal v cpu_temp_c
     | None => false
     end.

(** ** Vocabulary of the tick statements *)

(** The five charts of an application state. *)
Definition charts (app : PcMonitorApp.t) : list MetricChart.t :=
  [PcMonitorApp.cpu_chart app; PcMonitorApp.ram_chart app;
   PcMonitorApp.gpu_load_chart app; PcMonitorApp.gpu_temp_chart app;
   PcMonitorApp.cpu_temp_chart app].

(** The five charts after the [update_value] calls of a tick on [env] whose
    temperature chain returned [cpu_temp_c]. *)
Definition charts_after (env : Env.t) (cpu_temp_c : option float) (app : PcMonitorApp.t)
  : list MetricChart.t :=
  let gpu := value_of PcMonitorApp_sources.read_gpu_metrics env in
  [ MetricChart.update_value (PcMonitorApp.cpu_chart app) (Env.cpu_percent env)
      (Some (Fixed1 "Текущая загрузка CPU: " (Env.cpu_percent env) "%"));
    MetricChart.update_value (PcMonitorApp.ram_chart app) (Env.ram_percent env)
      (Some (Fixed1 "Текущая загрузка RAM: " (Env.ram_percent env) "%"));
    match fst gpu with
    | None =>
        MetricChart.update_value (PcMonitorApp.gpu_load_chart app) 0%float
          (Some (Plain "GPU load: N/A (видеокарта не обнаружена)"))
    | Some v =>
        MetricChart.update_value (PcMonitorApp.gpu_load_chart app) v
          (Some (Fixed1 "Текущая загрузка GPU: " v "%"))
    end;
    match snd gpu with
    | None =>
        MetricChart.update_value (PcMonitorApp.gpu_temp_chart app) 0%float
          (Some (Plain "GPU temp: N/A"))
    | Some v =>
        MetricChart.update_value (PcMonitorApp.gpu_temp_chart app) v
          (Some (Fixed1 "Текущая температура GPU: " v "°C"))
    end;
    match cpu_temp_c with
    | None =>
        MetricChart.update_value (PcMonitorApp.cpu_temp_chart app) 0%float
          (Some (Plain "CPU temp: N/A (датчик недоступен)"))
    | Some v =>
        MetricChart.update_value (PcMonitorApp.cpu_temp_chart app) v
          (Some (Fixed1 "Текущая температура CPU: " v "°C"))
    end ].

(** The call of [insert_measurement] a tick on [env] makes once the
    temperature chain returned [cpu_temp_c]. *)
Definition tick_insert (env : Env.t) (cpu_temp_c : option float) : Db unit :=
  MetricsRepository.insert_measurement (Env.store_fault env) (Env.now env)
    (Env.cpu_percent env) (Env.ram_percent env)
    (fst (value_of PcMonitorApp_sources.read_gpu_metrics env))
    (snd (value_of PcMonitorApp_sources.read_gpu_metrics env))
    cpu_temp_c.


(** A machine whose store is locked, a machine whose CPU load is not a
    number, a machine on which the [sensors] tool may not be executed, and a
    later, busier state of the machine on which everything works. *)
Definition faulty_machine : Env.t := with_store_fault silent_machine true.

Definition nan_machine : Env.t :=
  {| Env.python := PyFloat.Until311;
     Env.now := Text.str "2024-05-01 12:00:01";
     Env.cpu_percent := PrimFloat.nan;
     Env.ram_percent := 40%float;
     Env.getGPUs := Env.GetGPUsRaise;
     Env.sensors_temperatures := Env.SensorsRaise;
     Env.sensors_tool := Env.RunFileNotFound;
     Env.thermal := None;
     Env.store_fault := false |}.

Definition denied_machine : Env.t := with_tool silent_machine Env.RunOtherError.

Definition busy_machine : Env.t :=
  {| Env.python := PyFloat.Until311;
     Env.now := Text.str "2024-05-01 12:00:02";
     Env.cpu_percent := 99%float;
     Env.ram_percent := 41%float;
     Env.getGPUs := Env.GetGPUsRaise;
     Env.sensors_temperatures := Env.SensorsRaise;
     Env.sensors_tool := Env.RunFileNotFound;
     Env.thermal := None;
     Env.store_fault := false |}.

(** The last value of a chart's window. *)
Definition latest (c : MetricChart.t) : float :=
  last (MetricChart.snapshot c) 0%float.

(** ** Vocabulary of the further statements *)


(** The temperature chain gets as far as the [sensors] tool and the tool
    call raises an exception that is not handled. *)
Definition tool_error_reached (env : Env.t) : bool :=
  PcMonitorApp_sources.is_empty (sensor_values env)
  && match Env.sensors_tool env with
     | Env.RunOtherError => true
     | _ => false
     end.

(** A machine state on which a tick can persist its sample: the store
    works, the two load figures are numbers and the temperature chain
    returns. *)
Definition healthy (env : Env.t) : bool :=
  negb (Env.store_fault env)
  && negb (PrimFloat.is_nan (Env.cpu_percent env))
  && negb (PrimFloat.is_nan (Env.ram_percent env))
  && negb (tool_error_reached env).

(** What the temperature chain returns, when it returns. *)
Definition cpu_temperature (env : Env.t) : option float :=
  match value_of PcMonitorApp_sources.read_cpu_temperature env with
  | Ok reading => reading
  | Raise _ => None
  end.

(** The row a tick on [env] persists under row id [id]. *)
Definition tick_row_of (id : Z) (env : Env.t) : list (Text.text * Sqlite.value) :=
  measurement_row id (Env.now env) (Env.cpu_percent env) (Env.ram_percent env)
    (fst (value_of PcMonitorApp_sources.read_gpu_metrics env))
    (snd (value_of PcMonitorApp_sources.read_gpu_metrics env))
    (cpu_temperature env).

(** The rows a run of ticks persists, the first under row id [seq + 1]. *)
Fixpoint tick_rows (seq : Z) (envs : list Env.t) : list (list (Text.text * Sqlite.value)) :=
  match envs with
  | [] => []
  | env :: rest => tick_row_of (seq + 1) env :: tick_rows (seq + 1) rest
  end.




(** An entry of the thermal directory that [_read_cpu_temp_from_sysfs]
    passes over before it looks at any value. *)
Definition passed_over (e : Env.dir_entry) : bool :=
  negb (Text.startswith (Env.name e) (Text.str "thermal_zone"))
  || match Env.temp e with
     | Env.TempContent _ => false
     | Env.TempAbsent | Env.TempUnreadable => true
     end.

(** The three words by which [_read_cpu_temp_from_sysfs] recognises a CPU
    zone. *)
Definition cpu_words : list Text.text :=
  [Text.str "cpu"; Text.str "x86"; Text.str "package"].
(** * Properties *)

(** ** The rolling window *)

Section DequeFacts.
Variable A : Type.
Implicit Types (d : Deque.deque A) (v : A) (vs : list A).

Lemma append_maxlen d v : Deque.maxlen (Deque.append d v) = Deque.maxlen d.
Proof. reflexivity. Qed.

Lemma extend_maxlen vs : forall d,
  Deque.maxlen (Deque.extend d vs) = Deque.maxlen d.
Proof.
  induction vs as [|v vs IH]; intros d; [reflexivity|].
  unfold Deque.extend in *. simpl. now rewrite IH.
Qed.

(** A full deque stays full, and the append is "drop the head, add at the
    tail". *)
Lemma append_full d v :
  length (Deque.items d) = Deque.maxlen d ->
  Deque.items (Deque.append d v) = tl (Deque.items d ++ [v]) /\
  length (Deque.items (Deque.append d v)) = Deque.maxlen d.
Proof.
  intros Hfull. unfold Deque.append. simpl.
  assert (Hlen : length (Deque.items d ++ [v]) = S (Deque.maxlen d))
    by (rewrite length_app; simpl; lia).
  rewrite Hlen.
  destruct (Nat.ltb_spec (Deque.maxlen d) (S (Deque.maxlen d))) as [_|Hbad]; [|lia].
  split; [reflexivity|].
  destruct (Deque.items d ++ [v]) as [|x xs] eqn:E; simpl in *; lia.
Qed.

(** A deque that is not yet full only grows. *)
Lemma append_room d v :
  length (Deque.items d) < Deque.maxlen d ->
  Deque.items (Deque.append d v) = Deque.items d ++ [v].
Proof.
  intros Hroom. unfold Deque.append. simpl.
  rewrite length_app. simpl.
  destruct (Nat.ltb_spec (Deque.maxlen d) (length (Deque.items d) + 1)); [lia|reflexivity].
Qed.

Lemma extend_full vs : forall d,
  length (Deque.items d) = Deque.maxlen d ->
  Deque.items (Deque.extend d vs) = skipn (length vs) (Deque.items d ++ vs) /\
  length (Deque.items (Deque.extend d vs)) = Deque.maxlen d.
Proof.
  induction vs as [|v vs IH]; intros d Hfull.
  - simpl. rewrite app_nil_r. now split.
  - destruct (append_full d v Hfull) as [Hitems Hlen].
    change (Deque.extend d (v :: vs)) with (Deque.extend (Deque.append d v) vs).
    destruct (IH (Deque.append d v)) as [IHitems IHlen].
    { now rewrite append_maxlen. }
    rewrite append_maxlen in IHlen. split; [|exact IHlen].
    rewrite IHitems, Hitems.
    destruct (Deque.items d) as [|x xs]; simpl.
    + now destruct vs.
    + now rewrite <- app_assoc.
Qed.

(** Building a deque of capacity [n] from exactly [n] elements keeps all
    of them. *)
Lemma make_exact vs :
  Deque.items (Deque.make vs (length vs)) = vs.
Proof.
  unfold Deque.make.
  enough (H : forall done rest n,
             length done + length rest <= n ->
             Deque.items (fold_left (@Deque.append A) rest (Deque.mk done n))
             = done ++ rest).
  { apply (H [] vs (length vs)). simpl. lia. }
  intros done rest. revert done.
  induction rest as [|v rest IH]; intros done n Hle; simpl.
  - now rewrite app_nil_r.
  - unfold Deque.append at 2. simpl.
    rewrite length_app. simpl in *.
    destruct (Nat.ltb_spec n (length done + 1)); [lia|].
    rewrite IH; [now rewrite <- app_assoc|].
    rewrite length_app. simpl. lia.
Qed.
End DequeFacts.

Lemma pushes_history (c : MetricChart.t) (vs : list float) :
  MetricChart.history (MetricChart.pushes c vs)
  = Deque.extend (MetricChart.history c) vs.
Proof.
  revert c. induction vs as [|v vs IH]; intros c; [reflexivity|].
  unfold MetricChart.pushes, Deque.extend in *. simpl. now rewrite IH.
Qed.

Lemma init_full (N : nat) (u : string) :
  Deque.items (MetricChart.history (MetricChart.init N u)) = repeat 0%float N /\
  Deque.maxlen (MetricChart.history (MetricChart.init N u)) = N.
Proof.
  unfold MetricChart.init. simpl. split.
  - pose proof (make_exact (repeat 0%float N)) as H.
    now rewrite repeat_length in H.
  - unfold Deque.make. apply (extend_maxlen (repeat 0%float N) (Deque.mk [] N)).
Qed.

(** After [vs] has been pushed into a fresh chart of capacity [N], the window
    is the last [N] elements of "N zeros followed by vs". *)
Lemma snapshot_after_pushes (N : nat) (u : string) (vs : list float) :
  MetricChart.snapshot (MetricChart.pushes (MetricChart.init N u) vs)
  = skipn (length vs) (repeat 0%float N ++ vs) /\
  length (MetricChart.snapshot (MetricChart.pushes (MetricChart.init N u) vs)) = N.
Proof.
  destruct (init_full N u) as [Hitems Hmax].
  unfold MetricChart.snapshot, Deque.to_list. rewrite pushes_history.
  destruct (extend_full vs (MetricChart.history (MetricChart.init N u))) as [H1 H2].
  { rewrite Hitems, Hmax. apply repeat_length. }
  rewrite H1, Hitems. split; [reflexivity|].
  rewrite <- Hitems, <- H1, H2. exact Hmax.
Qed.

Lemma skipn_app_exact (A : Type) (xs ys : list A) (n : nat) :
  n = length xs -> skipn n (xs ++ ys) = ys.
Proof.
  intros ->. rewrite skipn_app, skipn_all, Nat.sub_diag. reflexivity.
Qed.

(** C1.  A chart's history of capacity [N]: the window always has exactly
    [N] elements; before [N] values have been pushed it is the pushed values
    behind a padding of zeros; after at least [N] pushes it is exactly the
    last [N] pushed values, in push order; and every further push removes
    the oldest element and nothing else. *)
Theorem rolling_series_window (N : nat) (u : string) (vs : list float) :
  let c := MetricChart.pushes (MetricChart.init N u) vs in
  length (MetricChart.snapshot c) = N /\
  (length vs <= N ->
   MetricChart.snapshot c = repeat 0%float (N - length vs) ++ vs) /\
  (N <= length vs ->
   MetricChart.snapshot c = skipn (length vs - N) vs) /\
  (forall v d,
   MetricChart.snapshot (MetricChart.update_value c v d)
   = tl (MetricChart.snapshot c ++ [v])).
Proof.
  intros c. subst c.
  destruct (snapshot_after_pushes N u vs) as [Hsnap Hlen].
  split; [exact Hlen|]. split; [|split].
  - intros Hle. rewrite Hsnap.
    replace N with (length vs + (N - length vs)) at 1 by lia.
    rewrite repeat_app, <- app_assoc.
    apply skipn_app_exact. now rewrite repeat_length.
  - intros Hge. rewrite Hsnap.
    rewrite skipn_app, repeat_length.
    rewrite skipn_all2 by (rewrite repeat_length; lia). reflexivity.
  - intros v d. unfold MetricChart.snapshot, Deque.to_list in *.
    unfold MetricChart.update_value. simpl.
    apply append_full.
    rewrite Hlen, pushes_history, extend_maxlen.
    symmetry. apply init_full.
Qed.

Lemma rolling_series_window_witness :
  let c := MetricChart.pushes (MetricChart.init 3 "%")
             [1%float; 2%float; 3%float; 4%float] in
  MetricChart.snapshot c = [2%float; 3%float; 4%float] /\
  MetricChart.snapshot (MetricChart.update_value c 5%float None)
  = [3%float; 4%float; 5%float].
Proof.
  destruct (rolling_series_window 3 "%" [1%float; 2%float; 3%float; 4%float])
    as (_ & _ & Hlast & Hpush).
  split.
  - rewrite Hlast by (simpl; lia). reflexivity.
  - rewrite Hpush, Hlast by (simpl; lia). reflexivity.
Defined.

(** ** The pattern of the external-tool fallback *)

Section StarFacts.
Variable R : Type.
Variable p : ascii -> bool.

Lemma star_sound (k : Text.text -> option R) (x : R) : forall s,
  Re.star p s k = Some x ->
  exists w rest, s = w ++ rest /\ forallb p w = true /\ k rest = Some x.
Proof.
  induction s as [|c s IH]; simpl; intros H.
  - exists [], []. auto.
  - destruct (p c) eqn:Hc.
    + destruct (Re.star p s k) as [r|] eqn:Hs.
      * destruct (IH H) as (w & rest & -> & Hw & Hk).
        exists (c :: w), rest. simpl. rewrite Hc, Hw. auto.
      * exists [], (c :: s). auto.
    + exists [], (c :: s). auto.
Qed.

Lemma star_greedy (k : Text.text -> option R) (x : R) (rest : Text.text) :
  stops p rest = true -> k rest = Some x ->
  forall w, forallb p w = true -> Re.star p (w ++ rest) k = Some x.
Proof.
  intros Hstop Hk. induction w as [|c w IH]; simpl; intros Hw.
  - destruct rest as [|c rest']; simpl in *; [exact Hk|].
    destruct (p c); [discriminate|exact Hk].
  - apply andb_true_iff in Hw as [Hc Hw]. now rewrite Hc, (IH Hw).
Qed.

Lemma plus_sound (k : Text.text -> option R) (x : R) (s : Text.text) :
  Re.run (Re.Plus p) s k = Some x ->
  exists w rest, s = w ++ rest /\ w <> [] /\ forallb p w = true /\ k rest = Some x.
Proof.
  simpl. destruct s as [|c s]; [discriminate|].
  destruct (p c) eqn:Hc; [|discriminate]. intros H.
  destruct (star_sound _ _ H) as (w & rest & -> & Hw & Hk).
  exists (c :: w), rest. simpl. rewrite Hc, Hw. repeat split; auto. discriminate.
Qed.

Lemma plus_greedy (k : Text.text -> option R) (x : R) (w rest : Text.text) :
  w <> [] -> forallb p w = true -> stops p rest = true -> k rest = Some x ->
  Re.run (Re.Plus p) (w ++ rest) k = Some x.
Proof.
  intros Hne Hw Hstop Hk. destruct w as [|c w]; [contradiction|].
  simpl in *. apply andb_true_iff in Hw as [Hc Hw]. rewrite Hc.
  now apply star_greedy.
Qed.
End StarFacts.

Lemma class_sound (R : Type) (p : ascii -> bool) (k : Text.text -> option R) x s :
  Re.run (Re.Class p) s k = Some x ->
  exists c rest, s = c :: rest /\ p c = true /\ k rest = Some x.
Proof.
  simpl. destruct s as [|c s]; [discriminate|].
  destruct (p c) eqn:Hc; [|discriminate]. intros H. eauto.
Qed.

Lemma is_char_true (c d : ascii) : Re.is_char c d = true -> d = c.
Proof. unfold Re.is_char. intros H. apply Ascii.eqb_eq in H. auto. Qed.

Lemma is_sign_true (c : ascii) :
  Re.is_sign c = true -> c = "+"%char \/ c = "-"%char.
Proof.
  unfold Re.is_sign. intros H. apply orb_true_iff in H as [H|H];
    apply Ascii.eqb_eq in H; auto.
Qed.

(** The three stages of group 1, read off a successful run. *)
Lemma number_sound (R : Type) (k : Text.text -> option R) x s :
  Re.run Re.number s k = Some x ->
  exists g rest, s = g ++ rest /\ decimal_number g /\ k rest = Some x.
Proof.
  unfold Re.number.
  change (Re.run (Re.Seq ?a ?b) s k) with (Re.run a s (fun s1 => Re.run b s1 k)).
  set (after_sign := fun s1 : Text.text => _).
  assert (Hbody : forall s1, after_sign s1 = Some x ->
            exists ds fr rest, s1 = ds ++ fr ++ rest /\ digit_run ds /\
                               fraction_part fr /\ k rest = Some x).
  { subst after_sign. cbv beta. intros s1 H.
    change (Re.run (Re.Seq ?a ?b) s1 k)
      with (Re.run a s1 (fun s2 => Re.run b s2 k)) in H.
    destruct (plus_sound _ _ _ H) as (ds & s2 & -> & Hne & Hds & Hfr).
    change (Re.run (Re.Opt ?a) s2 k)
      with (match Re.run a s2 k with Some r => Some r | None => k s2 end) in Hfr.
    destruct (Re.run _ s2 k) as [r|] eqn:Hopt.
    - injection Hfr as ->.
      change (Re.run (Re.Seq ?a ?b) s2 k)
        with (Re.run a s2 (fun s3 => Re.run b s3 k)) in Hopt.
      destruct (class_sound _ _ _ Hopt) as (c & s3 & -> & Hc & Hfs).
      apply is_char_true in Hc. subst c.
      destruct (plus_sound _ _ _ Hfs) as (fs & rest & -> & Hfne & Hfd & Hk).
      exists ds, ("."%char :: fs), rest. repeat split; auto.
      constructor. now split.
    - exists ds, [], s2. repeat split; auto. constructor. }
  change (Re.run (Re.Opt ?a) s after_sign)
    with (match Re.run a s after_sign with Some r => Some r | None => after_sign s end).
  intros H. destruct (Re.run _ s after_sign) as [r|] eqn:Hsign.
  - injection H as ->.
    destruct (class_sound _ _ _ Hsign) as (c & s1 & -> & Hc & Hrest).
    destruct (Hbody _ Hrest) as (ds & fr & rest & -> & Hds & Hfr & Hk).
    exists (c :: ds ++ fr), rest.
    split; [simpl; now rewrite <- app_assoc|]. split; auto.
    apply is_sign_true in Hc as [-> | ->].
    + apply (decimal_number_intro sign_plus Hds Hfr).
    + apply (decimal_number_intro sign_minus Hds Hfr).
  - destruct (Hbody _ H) as (ds & fr & rest & -> & Hds & Hfr & Hk).
    exists (ds ++ fr), rest. split; [now rewrite <- app_assoc|]. split; auto.
    apply (decimal_number_intro sign_none Hds Hfr).
Qed.

Lemma unit_suffix_sound (R : Type) (k : Text.text -> option R) x s :
  Re.run Re.unit_suffix s k = Some x ->
  exists u rest, s = u ++ rest /\ unit_part u /\ k rest = Some x.
Proof.
  unfold Re.unit_suffix.
  change (Re.run (Re.Seq ?a ?b) s k) with (Re.run a s (fun s1 => Re.run b s1 k)).
  intros H. destruct (star_sound _ _ _ H) as (ws & s1 & -> & Hws & H1).
  change (Re.run (Re.Seq ?a ?b) s1 k)
    with (Re.run a s1 (fun s2 => Re.run b s2 k)) in H1.
  set (letter := fun s2 : Text.text => _) in H1.
  change (Re.run (Re.Opt ?a) s1 letter)
    with (match Re.run a s1 letter with Some r => Some r | None => letter s1 end) in H1.
  destruct (Re.run _ s1 letter) as [r|] eqn:Hdeg.
  - injection H1 as ->.
    destruct (class_sound _ _ _ Hdeg) as (c & s2 & -> & Hc & H2).
    apply is_char_true in Hc. subst c.
    destruct (class_sound _ _ _ H2) as (c & rest & -> & Hc & Hk).
    apply is_char_true in Hc. subst c.
    exists (ws ++ [Text.degree_sign; "C"%char]), rest.
    split; [now rewrite <- app_assoc|]. split; auto. now constructor.
  - destruct (class_sound _ _ _ H1) as (c & rest & -> & Hc & Hk).
    apply is_char_true in Hc. subst c.
    exists (ws ++ ["C"%char]), rest.
    split; [now rewrite <- app_assoc|]. split; auto. now constructor.
Qed.

Lemma firstn_prefix (A : Type) (g rest : list A) :
  firstn (length (g ++ rest) - length rest) (g ++ rest) = g.
Proof.
  rewrite length_app, Nat.add_sub.
  rewrite firstn_app, Nat.sub_diag, firstn_all. simpl. apply app_nil_r.
Qed.

(** Soundness of one match: the group is a decimal number and the input is
    the group, the unit part, and what is left. *)
Lemma match_here_sound (s g rest : Text.text) :
  Re.match_here s = Some (g, rest) ->
  decimal_number g /\ exists u, unit_part u /\ s = g ++ u ++ rest.
Proof.
  unfold Re.match_here. intros H.
  apply number_sound in H as (g' & s1 & Hs & Hnum & H1).
  apply unit_suffix_sound in H1 as (u & rest' & -> & Hu & Hk).
  injection Hk as Hg ->. subst s.
  rewrite firstn_prefix in Hg. subst g'. eauto.
Qed.

(** Facts about single characters, by inspection of the 256 code points. *)
Ltac by_cases_on_char c :=
  destruct c as [[] [] [] [] [] [] [] []]; vm_compute; intuition congruence.

Lemma digit_not_sign (c : ascii) : Text.is_digit c = true -> Re.is_sign c = false.
Proof. by_cases_on_char c. Qed.

Lemma digit_not_dot (c : ascii) : Text.is_digit c = true -> Ascii.eqb c "." = false.
Proof. by_cases_on_char c. Qed.

Lemma space_not_digit (c : ascii) : Text.is_space c = true -> Text.is_digit c = false.
Proof. by_cases_on_char c. Qed.

Lemma space_not_dot (c : ascii) :
  Text.is_space c = true -> Re.is_char "." c = false.
Proof. by_cases_on_char c. Qed.

(** A unit part starts with a blank, a degree sign or the letter C. *)
Lemma unit_part_head (u rest : Text.text) :
  unit_part u ->
  stops Text.is_digit (u ++ rest) = true /\
  stops (Re.is_char ".") (u ++ rest) = true.
Proof.
  intros [ws Hws | ws Hws]; (destruct ws as [|w ws]; [now vm_compute|]);
    simpl in Hws; apply andb_true_iff in Hws as [Hw _];
    unfold stops; cbn [app];
    now rewrite (space_not_digit _ Hw), (space_not_dot _ Hw).
Qed.

Lemma unit_suffix_complete (R : Type) (k : Text.text -> option R) x u rest :
  unit_part u -> k rest = Some x ->
  Re.run Re.unit_suffix (u ++ rest) k = Some x.
Proof.
  intros Hu Hk. unfold Re.unit_suffix.
  change (Re.run (Re.Seq ?a ?b) ?s k) with (Re.run a s (fun s1 => Re.run b s1 k)).
  destruct Hu as [ws Hws | ws Hws]; rewrite <- app_assoc;
    apply star_greedy; auto; simpl; unfold Re.is_char; simpl; now rewrite Hk.
Qed.

Lemma number_complete (R : Type) (k : Text.text -> option R) x g tail :
  decimal_number g ->
  stops Text.is_digit tail = true -> stops (Re.is_char ".") tail = true ->
  k tail = Some x ->
  Re.run Re.number (g ++ tail) k = Some x.
Proof.
  intros [sign ds fr Hsign [Hne Hds] Hfr] Hdigit Hdot Hk.
  rewrite <- !app_assoc.
  set (fraction := Re.Opt (Re.Seq (Re.Class (Re.is_char ".")) (Re.Plus Text.is_digit))).
  assert (Hfraction : Re.run fraction (fr ++ tail) k = Some x).
  { subst fraction.
    change (Re.run (Re.Opt ?a) ?s k)
      with (match Re.run a s k with Some r => Some r | None => k s end).
    destruct Hfr as [|fs [Hfne Hfs]].
    - cbn [app Re.run]. destruct tail as [|c tail]; [exact Hk|].
      unfold stops in Hdot. apply negb_true_iff in Hdot. now rewrite Hdot.
    - change (Re.run (Re.Seq ?a ?b) ?s k)
        with (Re.run a s (fun s1 => Re.run b s1 k)).
      change (Re.run (Re.Class ?p) (("."%char :: fs) ++ tail) ?k')
        with (k' (fs ++ tail)).
      cbv beta. rewrite plus_greedy with (x := x); auto. }
  assert (Hdigits : Re.run (Re.Seq (Re.Plus Text.is_digit) fraction)
                      (ds ++ fr ++ tail) k = Some x).
  { change (Re.run (Re.Seq ?a ?b) ?s k)
      with (Re.run a s (fun s1 => Re.run b s1 k)).
    apply plus_greedy; auto.
    destruct Hfr as [|fs _]; [exact Hdigit|reflexivity]. }
  unfold Re.number. fold fraction.
  change (Re.run (Re.Seq ?a ?b) ?s k) with (Re.run a s (fun s1 => Re.run b s1 k)).
  change (Re.run (Re.Opt ?a) ?s ?k')
    with (match Re.run a s k' with Some r => Some r | None => k' s end).
  destruct Hsign; simpl app.
  - destruct ds as [|d ds]; [contradiction|].
    simpl in Hds. apply andb_true_iff in Hds as [Hd _].
    change (Re.run (Re.Class ?p) ((d :: ds) ++ ?t) ?k')
      with (if p d then k' (ds ++ t) else None).
    rewrite (digit_not_sign _ Hd). exact Hdigits.
  - change (Re.run (Re.Class ?p) ("+"%char :: ?t) ?k') with (k' t).
    cbv beta. now rewrite Hdigits.
  - change (Re.run (Re.Class ?p) ("-"%char :: ?t) ?k') with (k' t).
    cbv beta. now rewrite Hdigits.
Qed.

(** Completeness of one match: a decimal number followed by a unit part is
    matched, with exactly that number in the group. *)
Lemma match_here_complete (g u rest : Text.text) :
  decimal_number g -> unit_part u ->
  Re.match_here (g ++ u ++ rest) = Some (g, rest).
Proof.
  intros Hg Hu. unfold Re.match_here.
  destruct (unit_part_head rest Hu) as [Hdigit Hdot].
  apply number_complete; auto.
  apply unit_suffix_complete; auto.
  now rewrite firstn_prefix.
Qed.

(** [float] accepts every string group 1 can hold: the [ValueError] branch
    of the extraction loop is never taken. *)
Lemma split_dot_digits (ds rest : Text.text) :
  forallb Text.is_digit ds = true ->
  Decimal.split_dot (ds ++ rest)
  = (ds ++ fst (Decimal.split_dot rest), snd (Decimal.split_dot rest)).
Proof.
  induction ds as [|d ds IH]; simpl; intros H.
  - now destruct (Decimal.split_dot rest).
  - apply andb_true_iff in H as [Hd Hds].
    rewrite (digit_not_dot _ Hd), (IH Hds). reflexivity.
Qed.

Lemma all_digits_run (ds : Text.text) : digit_run ds -> Decimal.all_digits ds = true.
Proof.
  intros [Hne Hds]. unfold Decimal.all_digits. rewrite Hds.
  destruct ds; [contradiction|reflexivity].
Qed.

Lemma unsigned_float_total (neg : bool) (ds fr : Text.text) :
  digit_run ds -> fraction_part fr ->
  exists v, Decimal.unsigned_float neg (ds ++ fr) = Some v.
Proof.
  intros Hds Hfr. unfold Decimal.unsigned_float.
  rewrite split_dot_digits by apply Hds.
  destruct Hfr as [|fs Hfs]; simpl.
  - rewrite app_nil_r, (all_digits_run Hds). eauto.
  - rewrite app_nil_r, (all_digits_run Hds), (all_digits_run Hfs). simpl. eauto.
Qed.

Lemma float_of_text_total (g : Text.text) :
  decimal_number g -> exists v, Decimal.float_of_text g = Some v.
Proof.
  intros [sign ds fr Hsign Hds Hfr].
  destruct Hsign;
    [|simpl; now apply unsigned_float_total|simpl; now apply unsigned_float_total].
  destruct Hds as [Hne Hall]. destruct ds as [|d ds]; [contradiction|].
  pose proof Hall as Hd. simpl in Hd. apply andb_true_iff in Hd as [Hd _].
  pose proof (digit_not_sign _ Hd) as Hs. unfold Re.is_sign in Hs.
  apply orb_false_iff in Hs as [Hplus Hminus].
  cbn [app]. unfold Decimal.float_of_text. rewrite Hplus, Hminus.
  apply (@unsigned_float_total false (d :: ds) fr); [split; auto|auto].
Qed.

(** Every string [re.findall] returns was captured by a match somewhere in
    the text. *)
Lemma scan_matches (g : Text.text) : forall s skip,
  In g (Re.scan s skip) -> exists s' rest, Re.match_here s' = Some (g, rest).
Proof.
  induction s as [|c s IH]; simpl; intros skip Hin; [contradiction|].
  destruct skip as [|n]; [|eauto].
  destruct (Re.match_here (c :: s)) as [[g' rest]|] eqn:Hm; [|eauto].
  destruct Hin as [<- | Hin]; eauto.
Qed.

Lemma findall_decimal (raw_text g : Text.text) :
  In g (Re.findall raw_text) -> decimal_number g.
Proof.
  intros Hin. apply scan_matches in Hin as (s' & rest & Hm).
  now apply match_here_sound in Hm.
Qed.

Lemma candidates_length (raw_text : Text.text) :
  length (candidates raw_text) = length (Re.findall raw_text).
Proof.
  unfold candidates.
  pose proof (findall_decimal raw_text) as Hall.
  induction (Re.findall raw_text) as [|g gs IH]; [reflexivity|].
  destruct (float_of_text_total (Hall g (or_introl eq_refl))) as [v Hv].
  simpl. rewrite Hv. simpl. f_equal. apply IH. intros g' Hg'. apply Hall. now right.
Qed.

Lemma extract_is_filter (raw_text : Text.text) :
  PcMonitorApp_sources._extract_temp_values_from_text raw_text
  = filter PcMonitorApp_sources.plausible (candidates raw_text).
Proof.
  unfold PcMonitorApp_sources._extract_temp_values_from_text, candidates.
  induction (Re.findall raw_text) as [|g gs IH]; [reflexivity|].
  simpl. rewrite IH, filter_app.
  destruct (Decimal.float_of_text g) as [v|]; simpl; [|reflexivity].
  now destruct (PcMonitorApp_sources.plausible v).
Qed.
(** ** The external-tool fallback *)

Lemma lm_sensors_value (env : Env.t) :
  value_of PcMonitorApp_sources._read_cpu_temp_from_lm_sensors env
  = match Env.sensors_tool env with
    | Env.RunCompleted returncode stdout =>
        if Z.eqb returncode 0 then
          match stdout with
          | [] => Ok None
          | _ =>
              match PcMonitorApp_sources._extract_temp_values_from_text stdout with
              | [] => Ok None
              | values => Ok (Some (PyFloat.mean (Env.python env) values))
              end
          end
        else Ok None
    | Env.RunOtherError => Raise ToolError
    | Env.RunFileNotFound | Env.RunSubprocessError => Ok None
    end.
Proof.
  unfold value_of, PcMonitorApp_sources._read_cpu_temp_from_lm_sensors, bind, ask,
    ret, interpreter.
  simpl. destruct (Env.sensors_tool env) as [| | |rc out]; try reflexivity.
  destruct (Z.eqb rc 0); simpl; [|reflexivity].
  destruct out as [|c out]; simpl; [reflexivity|].
  now destruct (PcMonitorApp_sources._extract_temp_values_from_text (c :: out)).
Qed.

(** C6, counterexample.  The script's pattern wants the letter C and treats
    the degree sign as optional; the specification words it the other way
    round.  On the output [55C] the script reads 55.0 where the worded
    pattern finds no token, and on [55.0°] the script finds nothing where
    the worded pattern reads 55.0. *)
Lemma tool_pattern_differs_from_wording :
  value_of PcMonitorApp_sources._read_cpu_temp_from_lm_sensors
    (with_tool silent_machine (Env.RunCompleted 0 (Text.str "55C")))
  = Ok (Some 55%float) /\
  SpecWords.tool_reading PyFloat.Until311 (Text.str "55C") = None /\
  value_of PcMonitorApp_sources._read_cpu_temp_from_lm_sensors
    (with_tool silent_machine
       (Env.RunCompleted 0 (Text.str "55.0" ++ [Text.degree_sign])))
  = Ok None /\
  SpecWords.tool_reading PyFloat.Until311 (Text.str "55.0" ++ [Text.degree_sign])
  = Some 55%float.
Proof. repeat split; vm_compute; reflexivity. Qed.

(** C6, as amended.  A token is a signed or unsigned decimal number followed
    by optional blanks, an optional degree sign and the letter C: every
    match has this shape and every text of this shape is matched with the
    number as its group.  [float] accepts every group; of the parsed
    candidates exactly those [v] with [-20 <= v] and [v <= 150] are kept, in
    order (200.0 is dropped, 55.0 is kept).  When the tool is not found,
    fails as a subprocess, exits non-zero or prints nothing, and when no
    value is kept, the fallback returns no data; otherwise it returns the
    sum of the kept values divided by their number: 50.25 for the kept
    values 41, 80, 50 and 30, on either interpreter. *)
Theorem sensors_tool_fallback :
  (forall s g rest,
     Re.match_here s = Some (g, rest) ->
     decimal_number g /\ exists u, unit_part u /\ s = g ++ u ++ rest) /\
  (forall g u rest,
     decimal_number g -> unit_part u ->
     Re.match_here (g ++ u ++ rest) = Some (g, rest)) /\
  (forall raw_text,
     length (candidates raw_text) = length (Re.findall raw_text) /\
     PcMonitorApp_sources._extract_temp_values_from_text raw_text
     = filter (fun v => PrimFloat.leb (-20)%float v && PrimFloat.leb v 150%float)
              (candidates raw_text)) /\
  candidates sensors_sample_output = [200%float; 55%float] /\
  PcMonitorApp_sources._extract_temp_values_from_text sensors_sample_output
  = [55%float] /\
  (forall env,
     Env.sensors_tool env <> Env.RunOtherError ->
     value_of PcMonitorApp_sources._read_cpu_temp_from_lm_sensors env
     = Ok match Env.sensors_tool env with
          | Env.RunCompleted returncode stdout =>
              if Z.eqb returncode 0 then
                match stdout with
                | [] => None
                | _ =>
                    match PcMonitorApp_sources._extract_temp_values_from_text stdout with
                    | [] => None
                    | values =>
                        Some (PrimFloat.div (PyFloat.sum (Env.python env) values)
                                            (PyFloat.of_nat (length values)))
                    end
                end
              else None
          | _ => None
          end) /\
  candidates sensors_listing = [41%float; 80%float; 50%float; 200%float; 30%float] /\
  PcMonitorApp_sources._extract_temp_values_from_text sensors_listing
  = [41%float; 80%float; 50%float; 30%float] /\
  (forall py,
     value_of PcMonitorApp_sources._read_cpu_temp_from_lm_sensors
       (with_python (with_tool silent_machine (Env.RunCompleted 0 sensors_listing)) py)
     = Ok (Some 50.25%float)) /\
  value_of PcMonitorApp_sources._read_cpu_temp_from_lm_sensors
    (with_tool silent_machine (Env.RunCompleted 0 sensors_sample_output))
  = Ok (Some 55%float) /\
  value_of PcMonitorApp_sources._read_cpu_temp_from_lm_sensors
    (with_tool silent_machine (Env.RunCompleted 1 sensors_listing))
  = Ok None.
Proof.
  split; [exact match_here_sound|].
  split; [exact match_here_complete|].
  split; [intros raw_text; split;
          [apply candidates_length|apply extract_is_filter]|].
  split; [vm_compute; reflexivity|].
  split; [vm_compute; reflexivity|].
  split.
  { intros env Hhandled. rewrite lm_sensors_value.
    destruct (Env.sensors_tool env) as [| | |rc out]; try reflexivity;
      [contradiction|].
    destruct (Z.eqb rc 0); [|reflexivity].
    destruct out as [|c out]; [reflexivity|].
    now destruct (PcMonitorApp_sources._extract_temp_values_from_text (c :: out)). }
  split; [vm_compute; reflexivity|].
  split; [vm_compute; reflexivity|].
  split; [intros [|]; vm_compute; reflexivity|].
  split; vm_compute; reflexivity.
Qed.

Lemma sensors_tool_fallback_witness :
  Re.match_here (Text.str "+55.0" ++ [Text.degree_sign; "C"%char] ++ Text.str " ok")
  = Some (Text.str "+55.0", Text.str " ok") /\
  value_of PcMonitorApp_sources._read_cpu_temp_from_lm_sensors
    (with_tool silent_machine (Env.RunCompleted 0 sensors_listing))
  = Ok (Some 50.25%float).
Proof.
  destruct sensors_tool_fallback as (_ & Hcomplete & _ & _ & _ & Hvalue & _).
  split.
  - apply (Hcomplete (Text.str "+55.0") [Text.degree_sign; "C"%char] (Text.str " ok")).
    + apply (@decimal_number_intro ["+"%char] (Text.str "55") (Text.str ".0")).
      * constructor.
      * split; [discriminate|reflexivity].
      * apply fraction_some. split; [discriminate|reflexivity].
    + apply (unit_degree []). reflexivity.
  - rewrite Hvalue; [vm_compute; reflexivity|discriminate].
Defined.

(** ** The thermal-zone fallback *)





(** What the fallback returns, in terms of the loop body. *)
Lemma sysfs_value (env : Env.t) :
  value_of PcMonitorApp_sources._read_cpu_temp_from_sysfs env
  = match Env.thermal env with
    | None => None
    | Some entries =>
        match flat_map (fun e => PcMonitorApp_sources.some_to_list
                                   (PcMonitorApp_sources.zone_reading e)) entries with
        | [] => None
        | values => Some (PyFloat.mean (Env.python env) values)
        end
    end.
Proof.
  unfold value_of, PcMonitorApp_sources._read_cpu_temp_from_sysfs, bind, ask, ret,
    interpreter.
  simpl. destruct (Env.thermal env) as [entries|]; [|reflexivity].
  now destruct (flat_map _ entries).
Qed.

(** A CPU zone that reports -5000 (five degrees below zero, in
    millidegrees): the worded algorithm rescales by magnitude and returns
    -5.0; the script compares [value > 1000], leaves -5000 as it is and
    drops it as implausible. *)
Lemma thermal_zone_negative_millidegrees :
  let tree := Some [zone "thermal_zone0"
                      (Env.TempContent (PyFloat.of_Z (-5000)))
                      (Env.TypeContent (Text.str "x86_pkg_temp"))] in
  value_of PcMonitorApp_sources._read_cpu_temp_from_sysfs
    (with_thermal silent_machine tree) = None /\
  SpecWords.thermal_reading PyFloat.Until311 tree = Some (-5)%float.
Proof. split; vm_compute; reflexivity. Qed.




(** ** The temperature chain *)

(** The interpreter shows in the last bits only: for the values 1e16, 1 and
    1 the additions of CPython 3.11 lose both ones, the compensated sum of
    CPython 3.12 keeps them. *)
Lemma sum_by_interpreter :
  PyFloat.sum PyFloat.Until311 [1e16; 1; 1]%float = 1e16%float /\
  PyFloat.sum PyFloat.From312 [1e16; 1; 1]%float = 10000000000000002%float.
Proof. split; vm_compute; reflexivity. Qed.

Lemma read_cpu_temperature_cases (env : Env.t) :
  let values :=
    PcMonitorApp_sources.current_values
      match Env.sensors_temperatures env with
      | Env.SensorsRaise => []
      | Env.SensorsDict groups => groups
      end in
  PcMonitorApp_sources.read_cpu_temperature env []
  = match values with
    | _ :: _ => (Ok (Some (PyFloat.mean (Env.python env) values)), [SensorApi])
    | [] =>
        match value_of PcMonitorApp_sources._read_cpu_temp_from_lm_sensors env with
        | Raise e => (Raise e, [SensorApi; SensorsTool])
        | Ok (Some v) => (Ok (Some v), [SensorApi; SensorsTool])
        | Ok None =>
            (Ok (value_of PcMonitorApp_sources._read_cpu_temp_from_sysfs env),
             [SensorApi; SensorsTool; ThermalZones])
        end
    end.
Proof.
  intros values. subst values.
  unfold PcMonitorApp_sources.read_cpu_temperature, bind, ask. cbn [List.app].
  destruct (PcMonitorApp_sources.current_values _) as [|v vs]; [|reflexivity].
  cbn [PcMonitorApp_sources.is_empty negb].
  unfold value_of, PcMonitorApp_sources._read_cpu_temp_from_lm_sensors,
    PcMonitorApp_sources._read_cpu_temp_from_sysfs, bind, ask, ret, interpreter.
  cbn [List.app fst].
  destruct (Env.sensors_tool env) as [| | |rc out]; cbn [fst snd].
  - now destruct (Env.thermal env) as [entries|];
      [destruct (PcMonitorApp_sources.is_empty _)|].
  - now destruct (Env.thermal env) as [entries|];
      [destruct (PcMonitorApp_sources.is_empty _)|].
  - reflexivity.
  - destruct (negb (Z.eqb rc 0) || PcMonitorApp_sources.is_empty out); cbn [fst snd].
    + now destruct (Env.thermal env) as [entries|];
        [destruct (PcMonitorApp_sources.is_empty _)|].
    + destruct (PcMonitorApp_sources.is_empty
                  (PcMonitorApp_sources._extract_temp_values_from_text out));
        cbn [fst snd]; [|reflexivity].
      now destruct (Env.thermal env) as [entries|];
        [destruct (PcMonitorApp_sources.is_empty _)|].
Qed.



(** ** The GPU reader *)

(** C8.  [read_gpu_metrics] returns a pair for every outcome of the GPU
    enumeration: [(None, None)] when the enumeration raises or finds no
    GPU; otherwise the load of the first GPU times 100 and that GPU's
    temperature, which is [None] exactly when the GPU reports none. *)
Theorem gpu_reader_never_raises (env : Env.t) :
  value_of PcMonitorApp_sources.read_gpu_metrics env
  = match Env.getGPUs env with
    | Env.GetGPUsRaise => (None, None)
    | Env.GetGPUsList [] => (None, None)
    | Env.GetGPUsList (gpu :: _) =>
        (Some (PrimFloat.mul (Env.load gpu) 100%float), Env.temperature gpu)
    end
  /\ value_of PcMonitorApp_sources.read_gpu_metrics
       (with_gpus env (Env.GetGPUsList
          [{| Env.load := 0.25%float; Env.temperature := None |};
           {| Env.load := 0.5%float; Env.temperature := Some 70%float |}]))
     = (Some 25%float, None).
Proof.
  split; [|reflexivity].
  unfold value_of, PcMonitorApp_sources.read_gpu_metrics, bind, ask, ret. simpl.
  destruct (Env.getGPUs env) as [|[|gpu gpus]]; reflexivity.
Qed.

(** ** The store *)

Lemma text_eqb_refl (a : Text.text) : Sqlite.text_eqb a a = true.
Proof. induction a as [|c a IH]; simpl; [reflexivity|]. now rewrite Ascii.eqb_refl. Qed.

Lemma text_eqb_eq (a b : Text.text) : Sqlite.text_eqb a b = true <-> a = b.
Proof.
  split; [|intros ->; apply text_eqb_refl].
  revert b. induction a as [|x a IH]; destruct b as [|y b]; simpl; try discriminate; auto.
  intros H. apply andb_true_iff in H as [Hxy Hab].
  apply Ascii.eqb_eq in Hxy. subst y. f_equal. auto.
Qed.

Lemma member_app (c : Text.text) (l l' : list Text.text) :
  MetricsRepository.member c (l ++ l') = MetricsRepository.member c l || MetricsRepository.member c l'.
Proof. apply existsb_app. Qed.

(** [create_schema] on a connection is [migrate] on its content, followed by
    the commit. *)
Lemma create_schema_migrate (c : Sqlite.connection) :
  match migrate (Sqlite.view c) with
  | Ok d => MetricsRepository.create_schema false c = (Ok tt, committed d)
  | Raise e => fst (MetricsRepository.create_schema false c) = Raise e
  end.
Proof.
  unfold migrate, ensure, MetricsRepository.create_schema,
    MetricsRepository._ensure_column, Db.bind, Db.guard, Db.execute_ddl,
    Db.query_table_info, Db.commit, Db.ret, committed.
  destruct c as [dk [tr|]]; cbn [Sqlite.view Sqlite.transaction Sqlite.disk];
  repeat
    (match goal with
     | |- context [MetricsRepository.member ?a ?b] =>
         destruct (MetricsRepository.member a b) eqn:?;
         cbn [negb Sqlite.view Sqlite.transaction Sqlite.disk fst snd]
     | |- context [Sqlite.add_column ?a ?b ?c] =>
         destruct (Sqlite.add_column a b c) eqn:?;
         cbn [negb Sqlite.view Sqlite.transaction Sqlite.disk fst snd]
     end); try reflexivity.
Qed.

Lemma extended_nil (t : Sqlite.table) : extended t [] = t.
Proof. destruct t. unfold extended. simpl. now rewrite app_nil_r. Qed.

Lemma extended_twice (t : Sqlite.table) (a b : list Sqlite.column) :
  extended (extended t a) b = extended t (a ++ b).
Proof. unfold extended. simpl. now rewrite app_assoc. Qed.

Lemma names_extended (t : Sqlite.table) (added : list Sqlite.column) :
  Sqlite.names (extended t added) = Sqlite.names t ++ map Sqlite.cname added.
Proof. unfold Sqlite.names, extended. simpl. apply map_app. Qed.

Lemma same_name_false (a b : Text.text) :
  Sqlite.same_name a b = false -> map Sqlite.fold_char a <> map Sqlite.fold_char b.
Proof.
  unfold Sqlite.same_name. intros H Heq. apply text_eqb_eq in Heq. congruence.
Qed.

Lemma existsb_same_name_false (name : Text.text) (l : list Text.text) :
  existsb (Sqlite.same_name name) l = false ->
  ~ In (map Sqlite.fold_char name) (map (map Sqlite.fold_char) l).
Proof.
  induction l as [|x l IH]; simpl; [auto|]. intros H.
  apply orb_false_iff in H as [Hx Hl].
  intros [Heq | Hin]; [|now apply IH].
  apply same_name_false in Hx. congruence.
Qed.

(** One [_ensure_column] on an existing table: the column is appended
    unless a column of exactly that name is there; rows and names stay. *)
Lemma ensure_spec (name : string) (t : Sqlite.table) (d' : Sqlite.database) :
  ensure (Text.str name) (Some t) = Ok d' ->
  let added :=
    if MetricsRepository.member (Text.str name) (Sqlite.names t) then []
    else [MetricsRepository.col name "REAL" false false] in
  d' = Some (extended t added) /\
  (distinct_names t -> distinct_names (extended t added)) /\
  MetricsRepository.member (Text.str name) (Sqlite.names (extended t added)) = true.
Proof.
  unfold ensure, Sqlite.add_column. cbn [Sqlite.table_info].
  destruct (MetricsRepository.member (Text.str name) (Sqlite.names t)) eqn:Hmem;
    cbv zeta.
  - intros H. injection H as <-. rewrite extended_nil. auto.
  - destruct (existsb (Sqlite.same_name (Text.str name)) (Sqlite.names t)) eqn:Hdup;
      [discriminate|].
    intros H. injection H as <-. split; [reflexivity|]. split.
    + unfold distinct_names. rewrite names_extended, map_app. intros Hnd.
      apply NoDup_app; auto.
      * simpl. constructor; [auto|constructor].
      * intros a Ha [<-|[]]. revert Ha. now apply existsb_same_name_false.
    + rewrite names_extended, member_app. apply orb_true_iff. right.
      unfold MetricsRepository.member.
      cbn [map existsb Sqlite.cname MetricsRepository.col].
      now rewrite text_eqb_refl.
Qed.

Ltac decide_members :=
  repeat
    match goal with
    | |- context [MetricsRepository.member ?a (Sqlite.names ?t)] =>
        destruct (MetricsRepository.member a (Sqlite.names t)) eqn:?;
        cbn [negb orb andb app map filter]
    end.

(** [create_schema] on an existing table appends the optional columns that
    are missing, in the order of the script, and nothing else. *)
Lemma migrate_table (t : Sqlite.table) (d1 : Sqlite.database) :
  migrate (Some t) = Ok d1 ->
  d1 = Some (extended t (missing_columns t)) /\
  (distinct_names t -> distinct_names (extended t (missing_columns t))) /\
  forallb (fun c => MetricsRepository.member (Sqlite.cname c)
                      (Sqlite.names (extended t (missing_columns t))))
          optional_columns = true.
Proof.
  unfold migrate. cbn [Sqlite.create_table_if_not_exists].
  destruct (ensure (Text.str "gpu_load_percent") (Some t)) as [d|e] eqn:H1;
    [|discriminate].
  apply ensure_spec in H1 as (-> & Hd1 & Hm1).
  set (a1 := if MetricsRepository.member (Text.str "gpu_load_percent") (Sqlite.names t)
             then [] else _) in *.
  destruct (ensure (Text.str "gpu_temp_c") (Some (extended t a1))) as [d|e] eqn:H2;
    [|discriminate].
  apply ensure_spec in H2 as (-> & Hd2 & Hm2).
  set (a2 := if MetricsRepository.member (Text.str "gpu_temp_c") _ then [] else _) in *.
  intros H3. apply ensure_spec in H3 as (-> & Hd3 & Hm3).
  set (a3 := if MetricsRepository.member (Text.str "cpu_temp_c") _ then [] else _) in *.
  rewrite !extended_twice in *.
  assert (Hmissing : a1 ++ a2 ++ a3 = missing_columns t).
  { subst a1 a2 a3. rewrite !names_extended, !member_app.
    unfold missing_columns, optional_columns. cbn [filter Sqlite.cname MetricsRepository.col].
    decide_members; reflexivity. }
  rewrite <- app_assoc in *. rewrite Hmissing in *.
  split; [reflexivity|]. split; [auto|].
  rewrite names_extended in *. rewrite member_app in *.
  unfold optional_columns. cbn [forallb Sqlite.cname MetricsRepository.col].
  rewrite !member_app, Hm3.
  rewrite <- Hmissing in *.
  subst a1 a2 a3. rewrite ?names_extended, ?member_app in *.
  revert Hm1 Hm2 Hm3. decide_members; intros; reflexivity || discriminate.
Qed.

(** A table that has the three optional columns is left as it is. *)
Lemma migrate_complete_table (t : Sqlite.table) :
  forallb (fun c => MetricsRepository.member (Sqlite.cname c) (Sqlite.names t))
          optional_columns = true ->
  migrate (Some t) = Ok (Some t).
Proof.
  unfold optional_columns. cbn [forallb Sqlite.cname MetricsRepository.col].
  intros H. apply andb_true_iff in H as [H1 H].
  apply andb_true_iff in H as [H2 H]. apply andb_true_iff in H as [H3 _].
  assert (Hkeep : forall name,
            MetricsRepository.member name (Sqlite.names t) = true ->
            ensure name (Some t) = Ok (Some t)).
  { intros name Hm. unfold ensure. cbn [Sqlite.table_info]. now rewrite Hm. }
  unfold migrate. cbn [Sqlite.create_table_if_not_exists].
  now rewrite (Hkeep _ H1), (Hkeep _ H2), (Hkeep _ H3).
Qed.

Lemma migrate_idempotent (d d1 : Sqlite.database) :
  migrate d = Ok d1 -> migrate d1 = Ok d1.
Proof.
  destruct d as [t|].
  - intros H. apply migrate_table in H as (-> & _ & Hall).
    now apply migrate_complete_table.
  - vm_compute. intros H. injection H as <-. reflexivity.
Qed.

Lemma combine_app (A B : Type) (l1 l2 : list A) (k1 k2 : list B) :
  length l1 = length k1 ->
  combine (l1 ++ l2) (k1 ++ k2) = combine l1 k1 ++ combine l2 k2.
Proof.
  revert k1. induction l1 as [|x l1 IH]; destruct k1 as [|y k1]; simpl;
    try discriminate; auto.
  intros H. injection H as H. now rewrite IH.
Qed.

Lemma combine_nulls (cols : list Sqlite.column) :
  combine (map Sqlite.cname cols) (repeat Sqlite.Null (length cols)) = null_fields cols.
Proof. induction cols as [|c cols IH]; simpl; [reflexivity|]. now rewrite IH. Qed.

(** Reading an old row after the migration: the old fields, then NULL in
    every added column. *)
Lemma read_row_extended (t : Sqlite.table) (added : list Sqlite.column) (row : list Sqlite.value) :
  length row <= length (Sqlite.columns t) ->
  Sqlite.read_row (extended t added) row = Sqlite.read_row t row ++ null_fields added.
Proof.
  intros Hfit. unfold Sqlite.read_row. rewrite names_extended.
  unfold extended. cbn [Sqlite.columns]. rewrite length_app.
  replace (length (Sqlite.columns t) + length added - length row)
    with ((length (Sqlite.columns t) - length row) + length added) by lia.
  rewrite repeat_app, app_assoc, combine_app, combine_nulls; [reflexivity|].
  unfold Sqlite.names. rewrite length_map, length_app, repeat_length. lia.
Qed.

(** C4.  [create_schema] is idempotent and only ever adds: a second run
    right after a successful one changes nothing; on an existing table it
    appends exactly the optional columns that are missing, keeps the stored
    rows and the row-id counter as they are, and introduces no duplicate
    column name; every old row then reads as before, with NULL in the
    added columns.  A store of the earlier version gets [cpu_temp_c], and
    a new store gets the full table. *)
Theorem create_schema_idempotent_additive :
  (forall c c1,
     MetricsRepository.create_schema false c = (Ok tt, c1) ->
     MetricsRepository.create_schema false c1 = (Ok tt, c1)) /\
  (forall c c1 t,
     Sqlite.view c = Some t ->
     MetricsRepository.create_schema false c = (Ok tt, c1) ->
     c1 = committed (Some (extended t (missing_columns t))) /\
     (distinct_names t -> distinct_names (extended t (missing_columns t))) /\
     (rows_fit t ->
      Sqlite.select_all (Sqlite.disk c1)
      = map (fun r => r ++ null_fields (missing_columns t))
            (Sqlite.select_all (Some t)))) /\
  (forall rows seq,
     MetricsRepository.init false
       (Some {| Sqlite.columns := MetricsRepository.earlier_columns;
                Sqlite.rows := rows; Sqlite.sequence := seq |})
     = (Ok tt,
        committed
          (Some {| Sqlite.columns := MetricsRepository.measurements_columns;
                   Sqlite.rows := rows; Sqlite.sequence := seq |}))) /\
  MetricsRepository.init false None
  = (Ok tt,
     committed
       (Some {| Sqlite.columns := MetricsRepository.measurements_columns;
                Sqlite.rows := []; Sqlite.sequence := 0 |})).
Proof.
  split; [|split; [|split]].
  - intros c c1 H. pose proof (create_schema_migrate c) as Hc.
    destruct (migrate (Sqlite.view c)) as [d|e] eqn:Hm.
    + rewrite Hc in H. injection H as <-.
      pose proof (create_schema_migrate (committed d)) as Hd.
      cbn [Sqlite.view committed Sqlite.transaction Sqlite.disk] in Hd.
      now rewrite (migrate_idempotent _ Hm) in Hd.
    + rewrite H in Hc. discriminate.
  - intros c c1 t Hview H. pose proof (create_schema_migrate c) as Hc.
    rewrite Hview in Hc.
    destruct (migrate (Some t)) as [d|e] eqn:Hm; [|rewrite H in Hc; discriminate].
    rewrite Hc in H. injection H as <-.
    apply migrate_table in Hm as (-> & Hdistinct & _).
    split; [reflexivity|]. split; [exact Hdistinct|].
    intros Hfit. cbn [committed Sqlite.disk Sqlite.select_all extended Sqlite.rows].
    rewrite map_map. apply map_ext_in. intros row Hin.
    apply read_row_extended.
    unfold rows_fit in Hfit. rewrite Forall_forall in Hfit. now apply Hfit.
  - intros rows seq. reflexivity.
  - reflexivity.
Qed.

Lemma create_schema_idempotent_additive_witness :
  let old :=
    {| Sqlite.columns := MetricsRepository.earlier_columns;
       Sqlite.rows :=
         [[Sqlite.Integer 1; Sqlite.Str (Text.str "2024-04-30 08:00:00");
           Sqlite.Real 7.5%float; Sqlite.Real 31%float;
           Sqlite.Null; Sqlite.Real 48%float]];
       Sqlite.sequence := 1 |} in
  let c1 := snd (MetricsRepository.init false (Some old)) in
  MetricsRepository.create_schema false c1 = (Ok tt, c1) /\
  Sqlite.select_all (Sqlite.disk c1)
  = [[(Text.str "id", Sqlite.Integer 1);
      (Text.str "captured_at", Sqlite.Str (Text.str "2024-04-30 08:00:00"));
      (Text.str "cpu_percent", Sqlite.Real 7.5%float);
      (Text.str "ram_percent", Sqlite.Real 31%float);
      (Text.str "gpu_load_percent", Sqlite.Null);
      (Text.str "gpu_temp_c", Sqlite.Real 48%float);
      (Text.str "cpu_temp_c", Sqlite.Null)]].
Proof.
  intros old c1.
  destruct create_schema_idempotent_additive as (Hidem & Hadd & _).
  split.
  - apply (Hidem (Sqlite.connect (Some old))). reflexivity.
  - destruct (Hadd (Sqlite.connect (Some old)) c1 old) as (_ & _ & Hread);
      [reflexivity|reflexivity|].
    rewrite Hread; [reflexivity|].
    repeat constructor.
Defined.

(** *** One insert *)

Lemma keep_bound_float (name : string) (nn : bool) (v : float) :
  Sqlite.keep (MetricsRepository.col name "REAL" nn false) (Sqlite.bind_float v)
  = stored v.
Proof.
  unfold Sqlite.bind_float, stored. destruct (PrimFloat.is_nan v); [reflexivity|].
  cbn. now destruct (PrimFloat.eqb 0 v).
Qed.

Lemma keep_bound_optional (name : string) (nn : bool) (o : option float) :
  Sqlite.keep (MetricsRepository.col name "REAL" nn false) (Sqlite.bind_optional o)
  = stored_optional o.
Proof. destruct o as [v|]; [apply keep_bound_float|reflexivity]. Qed.

Lemma stored_null (v : float) :
  match stored v with Sqlite.Null => true | _ => false end = PrimFloat.is_nan v.
Proof.
  unfold stored. destruct (PrimFloat.is_nan v); [reflexivity|].
  now destruct (PrimFloat.eqb 0 v).
Qed.

(** A float that is not a NaN is read back equal to itself. *)
Lemma stored_equal (v : float) :
  PrimFloat.is_nan v = false -> field_equal (stored v) (Some v) = true.
Proof.
  intros Hnan. unfold stored. rewrite Hnan.
  destruct (PrimFloat.eqb 0 v) eqn:Hzero; simpl; [exact Hzero|].
  unfold PrimFloat.is_nan in Hnan. now apply negb_false_iff in Hnan.
Qed.

Lemma stored_optional_equal (o : option float) :
  not_nan o = true -> field_equal (stored_optional o) o = true.
Proof.
  destruct o as [v|]; simpl; [|reflexivity].
  intros H. apply stored_equal. now apply negb_true_iff in H.
Qed.

(** The effect of [insert_measurement] on a store that has the table of
    [create_schema]: with finite or infinite load figures one row is added
    and committed; a NaN load figure violates NOT NULL and nothing is
    written. *)
Lemma insert_measurement_effect (c : Sqlite.connection) (t : Sqlite.table)
    (captured_at : Text.text) (cpu_percent ram_percent : float)
    (gpu_load_percent gpu_temp_c cpu_temp_c : option float) :
  Sqlite.view c = Some t ->
  Sqlite.columns t = MetricsRepository.measurements_columns ->
  MetricsRepository.insert_measurement false captured_at cpu_percent ram_percent
    gpu_load_percent gpu_temp_c cpu_temp_c c
  = if PrimFloat.is_nan cpu_percent || PrimFloat.is_nan ram_percent
    then (Raise Sqlite.IntegrityError,
          {| Sqlite.disk := Sqlite.disk c; Sqlite.transaction := Some (Some t) |})
    else (Ok tt,
          committed
            (Some {| Sqlite.columns := Sqlite.columns t;
                     Sqlite.rows :=
                       Sqlite.rows t
                       ++ [inserted_fields t captured_at cpu_percent ram_percent
                             gpu_load_percent gpu_temp_c cpu_temp_c];
                     Sqlite.sequence := Sqlite.sequence t + 1 |})).
Proof.
  intros Hview Hcols.
  unfold MetricsRepository.insert_measurement, Db.bind, Db.execute_insert,
    Db.commit, Sqlite.prepare_insert, Sqlite.step_insert.
  rewrite Hview.
  set (assignments := [(Text.str "captured_at", _); _; _; _; _; _]).
  assert (Hknown :
    forallb (fun a => existsb (Sqlite.same_name (fst a)) (Sqlite.names t)) assignments
    = true).
  { unfold Sqlite.names. rewrite Hcols. reflexivity. }
  rewrite Hknown. cbn [negb].
  assert (Hrow :
    map (Sqlite.new_field t assignments) (Sqlite.columns t)
    = inserted_fields t captured_at cpu_percent ram_percent
        gpu_load_percent gpu_temp_c cpu_temp_c).
  { rewrite Hcols. unfold inserted_fields, measurement_row. cbn [map snd].
    rewrite <- (keep_bound_float "cpu_percent" true cpu_percent).
    rewrite <- (keep_bound_float "ram_percent" true ram_percent).
    rewrite <- (keep_bound_optional "gpu_load_percent" false gpu_load_percent).
    rewrite <- (keep_bound_optional "gpu_temp_c" false gpu_temp_c).
    rewrite <- (keep_bound_optional "cpu_temp_c" false cpu_temp_c).
    reflexivity. }
  rewrite Hrow.
  assert (Hcheck :
    existsb (fun cv => Sqlite.violates_notnull (fst cv) (snd cv))
      (combine (Sqlite.columns t)
         (inserted_fields t captured_at cpu_percent ram_percent
            gpu_load_percent gpu_temp_c cpu_temp_c))
    = PrimFloat.is_nan cpu_percent || PrimFloat.is_nan ram_percent).
  { rewrite Hcols. unfold inserted_fields, measurement_row.
    cbn [map snd combine MetricsRepository.measurements_columns existsb fst
         Sqlite.violates_notnull Sqlite.notnull MetricsRepository.col andb orb].
    rewrite !stored_null. now rewrite orb_false_r. }
  rewrite Hcheck.
  destruct (PrimFloat.is_nan cpu_percent || PrimFloat.is_nan ram_percent);
    reflexivity.
Qed.

(** With the file locked, the insert on a store that has the table of
    [create_schema] fails inside the transaction it has opened. *)
Lemma insert_measurement_locked (c : Sqlite.connection) (t : Sqlite.table)
    (captured_at : Text.text) (cpu_percent ram_percent : float)
    (gpu_load_percent gpu_temp_c cpu_temp_c : option float) :
  Sqlite.view c = Some t ->
  Sqlite.columns t = MetricsRepository.measurements_columns ->
  MetricsRepository.insert_measurement true captured_at cpu_percent ram_percent
    gpu_load_percent gpu_temp_c cpu_temp_c c
  = (Raise Sqlite.OperationalError,
     {| Sqlite.disk := Sqlite.disk c; Sqlite.transaction := Some (Some t) |}).
Proof.
  intros Hview Hcols.
  unfold MetricsRepository.insert_measurement, Db.bind, Db.execute_insert,
    Sqlite.prepare_insert.
  rewrite Hview.
  set (assignments := [(Text.str "captured_at", _); _; _; _; _; _]).
  assert (Hknown :
    forallb (fun a => existsb (Sqlite.same_name (fst a)) (Sqlite.names t)) assignments
    = true).
  { unfold Sqlite.names. rewrite Hcols. reflexivity. }
  rewrite Hknown. reflexivity.
Qed.

(** A call of [insert_measurement] that raises has written nothing: the
    file and the visible rows are what they were. *)
Lemma insert_measurement_raise (fault : bool) (c c' : Sqlite.connection)
    (e : Sqlite.error) (captured_at : Text.text) (cpu_percent ram_percent : float)
    (gpu_load_percent gpu_temp_c cpu_temp_c : option float) :
  MetricsRepository.insert_measurement fault captured_at cpu_percent ram_percent
    gpu_load_percent gpu_temp_c cpu_temp_c c = (Raise e, c') ->
  Sqlite.disk c' = Sqlite.disk c /\ Sqlite.view c' = Sqlite.view c.
Proof.
  unfold MetricsRepository.insert_measurement, Db.bind, Db.execute_insert, Db.commit.
  destruct (Sqlite.prepare_insert _ _) as [t|e0].
  - destruct fault.
    + intros H. injection H as <- <-. split; reflexivity.
    + destruct (Sqlite.step_insert _ t) as [d|e1]; intros H; [discriminate|].
      injection H as <- <-. split; reflexivity.
  - intros H. injection H as <- <-. split; reflexivity.
Qed.

Lemma select_all_after_insert (t : Sqlite.table) (row : list Sqlite.value) (seq : Z) :
  length row = length (Sqlite.columns t) ->
  Sqlite.select_all
    (Some {| Sqlite.columns := Sqlite.columns t;
             Sqlite.rows := Sqlite.rows t ++ [row];
             Sqlite.sequence := seq |})
  = Sqlite.select_all (Some t) ++ [combine (Sqlite.names t) row].
Proof.
  intros Hlen. cbn [Sqlite.select_all Sqlite.rows]. rewrite map_app. f_equal.
  cbn [map]. unfold Sqlite.read_row at 1. cbn [Sqlite.columns Sqlite.names].
  unfold Sqlite.names. cbn [Sqlite.columns].
  now rewrite Hlen, Nat.sub_diag, app_nil_r.
Qed.

Lemma measurement_row_matches (id : Z) (captured_at : Text.text)
    (cpu_percent ram_percent : float)
    (gpu_load_percent gpu_temp_c cpu_temp_c : option float) :
  PrimFloat.is_nan cpu_percent = false -> PrimFloat.is_nan ram_percent = false ->
  not_nan gpu_load_percent = true -> not_nan gpu_temp_c = true ->
  not_nan cpu_temp_c = true ->
  row_matches
    (measurement_row id captured_at cpu_percent ram_percent
       gpu_load_percent gpu_temp_c cpu_temp_c)
    captured_at cpu_percent ram_percent gpu_load_percent gpu_temp_c cpu_temp_c
  = true.
Proof.
  intros Hcpu Hram Hgl Hgt Hct. unfold row_matches, measurement_row, field.
  change (Sqlite.lookup (Text.str "captured_at") ?l) with (Some (Sqlite.Str captured_at)).
  change (Sqlite.lookup (Text.str "cpu_percent") ?l) with (Some (stored cpu_percent)).
  change (Sqlite.lookup (Text.str "ram_percent") ?l) with (Some (stored ram_percent)).
  change (Sqlite.lookup (Text.str "gpu_load_percent") ?l)
    with (Some (stored_optional gpu_load_percent)).
  change (Sqlite.lookup (Text.str "gpu_temp_c") ?l)
    with (Some (stored_optional gpu_temp_c)).
  change (Sqlite.lookup (Text.str "cpu_temp_c") ?l)
    with (Some (stored_optional cpu_temp_c)).
  cbv beta iota.
  now rewrite text_eqb_refl, !stored_equal, !stored_optional_equal.
Qed.

(** The row a successful insert leaves as the last row of the file. *)
Lemma insert_measurement_read_back (c : Sqlite.connection) (t : Sqlite.table)
    (captured_at : Text.text) (cpu_percent ram_percent : float)
    (gpu_load_percent gpu_temp_c cpu_temp_c : option float) :
  Sqlite.view c = Some t ->
  Sqlite.columns t = MetricsRepository.measurements_columns ->
  PrimFloat.is_nan cpu_percent = false -> PrimFloat.is_nan ram_percent = false ->
  exists c',
    MetricsRepository.insert_measurement false captured_at cpu_percent ram_percent
      gpu_load_percent gpu_temp_c cpu_temp_c c = (Ok tt, c') /\
    Sqlite.transaction c' = None /\
    Sqlite.select_all (Sqlite.disk c')
    = Sqlite.select_all (Some t)
      ++ [measurement_row (Sqlite.sequence t + 1) captured_at cpu_percent
            ram_percent gpu_load_percent gpu_temp_c cpu_temp_c].
Proof.
  intros Hview Hcols Hcpu Hram.
  rewrite (insert_measurement_effect _ _ _ _ _ _ _ Hview Hcols), Hcpu, Hram.
  cbn [orb]. eexists. split; [reflexivity|]. split; [reflexivity|].
  cbn [committed Sqlite.disk]. rewrite select_all_after_insert.
  - f_equal. unfold Sqlite.names. rewrite Hcols. reflexivity.
  - rewrite Hcols. reflexivity.
Qed.

(** C7, counterexample.  A sample whose GPU temperature is a NaN (what
    GPUtil reports for a sensor it cannot parse): the insert succeeds, and
    the row read back holds NULL in [gpu_temp_c], which is not the sample's
    field. *)
Lemma insert_nan_reads_back_null :
  let c := snd (MetricsRepository.init false None) in
  let r :=
    MetricsRepository.insert_measurement false (Text.str "2024-05-01 12:00:00")
      12.5%float 40%float (Some 30%float) (Some PrimFloat.nan) None c in
  fst r = Ok tt /\
  field "gpu_temp_c" (last_row (Sqlite.disk (snd r))) = Some Sqlite.Null /\
  row_matches (last_row (Sqlite.disk (snd r))) (Text.str "2024-05-01 12:00:00")
    12.5%float 40%float (Some 30%float) (Some PrimFloat.nan) None = false.
Proof. repeat split; vm_compute; reflexivity. Qed.

(** C7, as amended.  On a store that has the table of [create_schema], for
    every sample none of whose figures is a NaN, [insert_measurement] adds
    exactly one row and commits it in the same call; a fresh read of the
    file then returns the earlier rows followed by a row whose time stamp
    and figures equal those of the sample, with NULL for every absent
    optional figure. *)
Theorem insert_measurement_roundtrip (c : Sqlite.connection) (t : Sqlite.table)
    (captured_at : Text.text) (cpu_percent ram_percent : float)
    (gpu_load_percent gpu_temp_c cpu_temp_c : option float) :
  Sqlite.view c = Some t ->
  Sqlite.columns t = MetricsRepository.measurements_columns ->
  PrimFloat.is_nan cpu_percent = false -> PrimFloat.is_nan ram_percent = false ->
  not_nan gpu_load_percent = true -> not_nan gpu_temp_c = true ->
  not_nan cpu_temp_c = true ->
  exists c' row,
    MetricsRepository.insert_measurement false captured_at cpu_percent ram_percent
      gpu_load_percent gpu_temp_c cpu_temp_c c = (Ok tt, c') /\
    Sqlite.transaction c' = None /\
    Sqlite.select_all (Sqlite.disk c') = Sqlite.select_all (Some t) ++ [row] /\
    last_row (Sqlite.disk c') = row /\
    row_matches row captured_at cpu_percent ram_percent
      gpu_load_percent gpu_temp_c cpu_temp_c = true /\
    (gpu_load_percent = None -> field "gpu_load_percent" row = Some Sqlite.Null) /\
    (gpu_temp_c = None -> field "gpu_temp_c" row = Some Sqlite.Null) /\
    (cpu_temp_c = None -> field "cpu_temp_c" row = Some Sqlite.Null).
Proof.
  intros Hview Hcols Hcpu Hram Hgl Hgt Hct.
  destruct (@insert_measurement_read_back c t captured_at cpu_percent ram_percent
              gpu_load_percent gpu_temp_c cpu_temp_c Hview Hcols Hcpu Hram)
    as (c' & Hins & Htr & Hsel).
  exists c', (measurement_row (Sqlite.sequence t + 1) captured_at cpu_percent
                ram_percent gpu_load_percent gpu_temp_c cpu_temp_c).
  split; [exact Hins|]. split; [exact Htr|]. split; [exact Hsel|].
  split; [unfold last_row; rewrite Hsel; apply last_last|].
  split; [now apply measurement_row_matches|].
  repeat split; intros ->; reflexivity.
Qed.

Lemma insert_measurement_roundtrip_witness :
  let c := snd (MetricsRepository.init false None) in
  exists c',
    MetricsRepository.insert_measurement false (Text.str "2024-05-01 12:00:00")
      12.5%float 40%float None None (Some 51%float) c = (Ok tt, c') /\
    Sqlite.select_all (Sqlite.disk c')
    = [measurement_row 1 (Text.str "2024-05-01 12:00:00")
         12.5%float 40%float None None (Some 51%float)].
Proof.
  intros c.
  destruct (@insert_measurement_roundtrip c
              {| Sqlite.columns := MetricsRepository.measurements_columns;
                 Sqlite.rows := []; Sqlite.sequence := 0 |}
              (Text.str "2024-05-01 12:00:00") 12.5%float 40%float
              None None (Some 51%float))
    as (c' & row & Hins & _ & Hsel & Hlast & _); try reflexivity.
  exists c'. split; [exact Hins|].
  rewrite Hsel. cbn [Sqlite.select_all Sqlite.rows map app]. f_equal.
  rewrite <- Hlast.
  replace c' with
    (snd (MetricsRepository.insert_measurement false
            (Text.str "2024-05-01 12:00:00") 12.5%float 40%float
            None None (Some 51%float) c))
    by (rewrite Hins; reflexivity).
  reflexivity.
Defined.
(** ** One tick *)

(** A tick whose temperature chain raises ends there: no chart is touched,
    nothing is written and nothing is scheduled. *)
Lemma tick_source_error (env : Env.t) (app : PcMonitorApp.t) (e : source_error) :
  value_of PcMonitorApp_sources.read_cpu_temperature env = Raise e ->
  PcMonitorApp.update_all_metrics env app = (app, Some (PcMonitorApp.FromSource e)).
Proof.
  intros Hchain. unfold PcMonitorApp.update_all_metrics.
  destruct (value_of PcMonitorApp_sources.read_gpu_metrics env) as [gl gt].
  now rewrite Hchain.
Qed.

(** The charts after a tick whose temperature chain returned do not depend
    on what the store does. *)
Lemma tick_charts (env : Env.t) (app : PcMonitorApp.t) (cpu_temp_c : option float) :
  value_of PcMonitorApp_sources.read_cpu_temperature env = Ok cpu_temp_c ->
  let app' := fst (PcMonitorApp.update_all_metrics env app) in
  let gpu := value_of PcMonitorApp_sources.read_gpu_metrics env in
  PcMonitorApp.cpu_chart app'
  = MetricChart.update_value (PcMonitorApp.cpu_chart app) (Env.cpu_percent env)
      (Some (Fixed1 "Текущая загрузка CPU: " (Env.cpu_percent env) "%")) /\
  PcMonitorApp.ram_chart app'
  = MetricChart.update_value (PcMonitorApp.ram_chart app) (Env.ram_percent env)
      (Some (Fixed1 "Текущая загрузка RAM: " (Env.ram_percent env) "%")) /\
  PcMonitorApp.gpu_load_chart app'
  = match fst gpu with
    | None =>
        MetricChart.update_value (PcMonitorApp.gpu_load_chart app) 0%float
          (Some (Plain "GPU load: N/A (видеокарта не обнаружена)"))
    | Some v =>
        MetricChart.update_value (PcMonitorApp.gpu_load_chart app) v
          (Some (Fixed1 "Текущая загрузка GPU: " v "%"))
    end /\
  PcMonitorApp.gpu_temp_chart app'
  = match snd gpu with
    | None =>
        MetricChart.update_value (PcMonitorApp.gpu_temp_chart app) 0%float
          (Some (Plain "GPU temp: N/A"))
    | Some v =>
        MetricChart.update_value (PcMonitorApp.gpu_temp_chart app) v
          (Some (Fixed1 "Текущая температура GPU: " v "°C"))
    end /\
  PcMonitorApp.cpu_temp_chart app'
  = match cpu_temp_c with
    | None =>
        MetricChart.update_value (PcMonitorApp.cpu_temp_chart app) 0%float
          (Some (Plain "CPU temp: N/A (датчик недоступен)"))
    | Some v =>
        MetricChart.update_value (PcMonitorApp.cpu_temp_chart app) v
          (Some (Fixed1 "Текущая температура CPU: " v "°C"))
    end.
Proof.
  intros Hchain. cbv zeta. unfold PcMonitorApp.update_all_metrics.
  destruct (value_of PcMonitorApp_sources.read_gpu_metrics env) as [gl gt].
  rewrite Hchain.
  destruct (MetricsRepository.insert_measurement _ _ _ _ _ _ _ _) as [[u|e] repo'];
    cbn [fst snd PcMonitorApp.cpu_chart PcMonitorApp.ram_chart
         PcMonitorApp.gpu_load_chart PcMonitorApp.gpu_temp_chart
         PcMonitorApp.cpu_temp_chart]; auto.
Qed.

Lemma tick_charts_after (env : Env.t) (app : PcMonitorApp.t) (cpu_temp_c : option float) :
  value_of PcMonitorApp_sources.read_cpu_temperature env = Ok cpu_temp_c ->
  charts (fst (PcMonitorApp.update_all_metrics env app))
  = charts_after env cpu_temp_c app.
Proof.
  intros Hchain.
  destruct (tick_charts env app Hchain) as (H1 & H2 & H3 & H4 & H5).
  unfold charts, charts_after. now rewrite H1, H2, H3, H4, H5.
Qed.

(** The store, the outcome and the timer list after a tick follow the
    insert. *)
Lemma tick_outcome (env : Env.t) (app : PcMonitorApp.t) (cpu_temp_c : option float) :
  value_of PcMonitorApp_sources.read_cpu_temperature env = Ok cpu_temp_c ->
  let r := tick_insert env cpu_temp_c (PcMonitorApp.repo app) in
  PcMonitorApp.repo (fst (PcMonitorApp.update_all_metrics env app)) = snd r /\
  snd (PcMonitorApp.update_all_metrics env app)
  = match fst r with Ok _ => None | Raise e => Some (PcMonitorApp.FromStore e) end /\
  PcMonitorApp.scheduled (fst (PcMonitorApp.update_all_metrics env app))
  = match fst r with
    | Ok _ => S (PcMonitorApp.scheduled app)
    | Raise _ => PcMonitorApp.scheduled app
    end.
Proof.
  intros Hchain. cbv zeta. unfold PcMonitorApp.update_all_metrics, tick_insert.
  destruct (value_of PcMonitorApp_sources.read_gpu_metrics env) as [gl gt].
  rewrite Hchain. cbn [fst snd].
  destruct (MetricsRepository.insert_measurement _ _ _ _ _ _ _ _) as [[u|e] repo'];
    cbn [fst snd PcMonitorApp.repo PcMonitorApp.scheduled]; auto.
Qed.

(** Once no callback is waiting, timer expiries change nothing. *)
Lemma mainloop_idle (envs : list Env.t) (app : PcMonitorApp.t)
    (reported : list PcMonitorApp.tick_error) :
  PcMonitorApp.scheduled app = 0 ->
  fold_left (fun state env => PcMonitorApp.expire env state) envs (app, reported)
  = (app, reported).
Proof.
  intros Hidle. induction envs as [|env envs IH]; [reflexivity|].
  cbn [fold_left]. unfold PcMonitorApp.expire at 2. now rewrite Hidle.
Qed.

(** A tick whose insert raises. *)
Lemma tick_store_error (env : Env.t) (app : PcMonitorApp.t) (cpu_temp_c : option float)
    (e : Sqlite.error) (c' : Sqlite.connection) :
  value_of PcMonitorApp_sources.read_cpu_temperature env = Ok cpu_temp_c ->
  tick_insert env cpu_temp_c (PcMonitorApp.repo app) = (Raise e, c') ->
  snd (PcMonitorApp.update_all_metrics env app) = Some (PcMonitorApp.FromStore e) /\
  PcMonitorApp.repo (fst (PcMonitorApp.update_all_metrics env app)) = c' /\
  PcMonitorApp.scheduled (fst (PcMonitorApp.update_all_metrics env app))
  = PcMonitorApp.scheduled app.
Proof.
  intros Hchain Hinsert.
  destruct (tick_outcome env app Hchain) as (Hrepo & Hout & Hsched).
  rewrite Hinsert in *. cbn [fst snd] in *. auto.
Qed.

(** The expiry of the only waiting callback when the insert raises. *)
Lemma expire_store_error (env : Env.t) (app : PcMonitorApp.t) (cpu_temp_c : option float)
    (e : Sqlite.error) (c' : Sqlite.connection)
    (reported : list PcMonitorApp.tick_error) :
  value_of PcMonitorApp_sources.read_cpu_temperature env = Ok cpu_temp_c ->
  tick_insert env cpu_temp_c (PcMonitorApp.repo app) = (Raise e, c') ->
  PcMonitorApp.scheduled app = 1 ->
  exists app1,
    PcMonitorApp.expire env (app, reported)
    = (app1, reported ++ [PcMonitorApp.FromStore e]) /\
    PcMonitorApp.scheduled app1 = 0 /\
    charts app1 = charts (fst (PcMonitorApp.update_all_metrics env app)).
Proof.
  intros Hchain Hinsert Hone. unfold PcMonitorApp.expire. rewrite Hone.
  set (waiting := {| PcMonitorApp.repo := PcMonitorApp.repo app;
                     PcMonitorApp.scheduled := 0 |}).
  destruct (@tick_store_error env waiting cpu_temp_c e c' Hchain Hinsert)
    as (Wout & _ & Wsched).
  pose proof (tick_charts_after env app Hchain) as Hcharts.
  pose proof (tick_charts_after env waiting Hchain) as Wcharts.
  destruct (PcMonitorApp.update_all_metrics env waiting) as [app1 out].
  cbn [fst snd] in *. subst out. exists app1.
  split; [reflexivity|]. split; [exact Wsched|].
  rewrite Hcharts, Wcharts. reflexivity.
Qed.

(** C3, counterexample.  The application starts on a new store; at the
    next timer expiry the store is locked; a further expiry follows on a
    busier machine.  The failed tick is reported, no callback is waiting
    after it, and the further expiry runs nothing: the CPU chart still ends
    with the 12.5 of the failed tick, not the 99.0 of the later state, and
    the store holds the one row of the start-up tick. *)
Lemma store_fault_stops_the_ticks :
  exists app0,
    PcMonitorApp.init false None silent_machine = Ok app0 /\
    PcMonitorApp.scheduled app0 = 1 /\
    let after := PcMonitorApp.mainloop [faulty_machine; busy_machine] app0 in
    snd after = [PcMonitorApp.FromStore Sqlite.OperationalError] /\
    PcMonitorApp.scheduled (fst after) = 0 /\
    latest (PcMonitorApp.cpu_chart (fst after)) = 12.5%float /\
    length (Sqlite.select_all (Sqlite.disk (PcMonitorApp.repo (fst after)))) = 1 /\
    after = PcMonitorApp.mainloop [faulty_machine] app0.
Proof.
  eexists. split; [vm_compute; reflexivity|].
  repeat split; vm_compute; reflexivity.
Qed.

(** C3, as amended.  In a tick whose store append raises, whatever the
    exception (a locked file, a constraint, a missing table or column), the
    five series have been updated before the append, each with the reading
    of this tick; the exception leaves [update_all_metrics]; the file and
    the rows visible on the connection are what they were before the tick
    (with a locked file the connection stays inside the transaction the
    INSERT has opened); the call that schedules the next tick is not
    reached, so a loop in which this tick was the only waiting callback
    reports the error once and runs no further tick. *)
Theorem store_fault_in_tick (env : Env.t) (app : PcMonitorApp.t)
    (cpu_temp_c : option float) (e : Sqlite.error) (c' : Sqlite.connection) :
  value_of PcMonitorApp_sources.read_cpu_temperature env = Ok cpu_temp_c ->
  MetricsRepository.insert_measurement (Env.store_fault env) (Env.now env)
    (Env.cpu_percent env) (Env.ram_percent env)
    (fst (value_of PcMonitorApp_sources.read_gpu_metrics env))
    (snd (value_of PcMonitorApp_sources.read_gpu_metrics env))
    cpu_temp_c (PcMonitorApp.repo app) = (Raise e, c') ->
  let app' := fst (PcMonitorApp.update_all_metrics env app) in
  charts app' = charts_after env cpu_temp_c app /\
  snd (PcMonitorApp.update_all_metrics env app) = Some (PcMonitorApp.FromStore e) /\
  PcMonitorApp.repo app' = c' /\
  Sqlite.disk (PcMonitorApp.repo app') = Sqlite.disk (PcMonitorApp.repo app) /\
  Sqlite.view (PcMonitorApp.repo app') = Sqlite.view (PcMonitorApp.repo app) /\
  PcMonitorApp.scheduled app' = PcMonitorApp.scheduled app /\
  (Env.store_fault env = true ->
   forall t,
     Sqlite.view (PcMonitorApp.repo app) = Some t ->
     Sqlite.columns t = MetricsRepository.measurements_columns ->
     e = Sqlite.OperationalError /\
     Sqlite.transaction (PcMonitorApp.repo app') = Some (Some t)) /\
  (PcMonitorApp.scheduled app = 1 ->
   forall later,
     PcMonitorApp.mainloop (env :: later) app = PcMonitorApp.mainloop [env] app /\
     snd (PcMonitorApp.mainloop [env] app) = [PcMonitorApp.FromStore e] /\
     PcMonitorApp.scheduled (fst (PcMonitorApp.mainloop [env] app)) = 0 /\
     charts (fst (PcMonitorApp.mainloop [env] app)) = charts app').
Proof.
  intros Hchain Hinsert app'. subst app'.
  destruct (@tick_store_error env app cpu_temp_c e c' Hchain Hinsert)
    as (Hout & Hrepo & Hsched).
  destruct (insert_measurement_raise _ _ _ _ _ _ _ _ Hinsert) as [Hdisk Hview].
  split; [now apply tick_charts_after|].
  split; [exact Hout|]. split; [exact Hrepo|].
  split; [now rewrite Hrepo|]. split; [now rewrite Hrepo|].
  split; [exact Hsched|].
  split.
  { intros Hfault t Htable Hcols. rewrite Hrepo. rewrite Hfault in Hinsert.
    rewrite (@insert_measurement_locked (PcMonitorApp.repo app) t (Env.now env)
               (Env.cpu_percent env) (Env.ram_percent env) _ _ _ Htable Hcols)
      in Hinsert.
    injection Hinsert as <- <-. split; reflexivity. }
  intros Hone later.
  destruct (@expire_store_error env app cpu_temp_c e c' [] Hchain Hinsert Hone)
    as (app1 & Hexp & Hidle & Hcharts).
  unfold PcMonitorApp.mainloop. cbn [fold_left]. rewrite Hexp. cbn [fst snd].
  split; [apply mainloop_idle; exact Hidle|]. auto.
Qed.

Lemma store_fault_in_tick_witness :
  exists app0,
    PcMonitorApp.init false None silent_machine = Ok app0 /\
    PcMonitorApp.mainloop [faulty_machine; busy_machine; busy_machine] app0
    = PcMonitorApp.mainloop [faulty_machine] app0 /\
    snd (PcMonitorApp.mainloop [nan_machine; busy_machine] app0)
    = [PcMonitorApp.FromStore Sqlite.IntegrityError].
Proof.
  eexists. split; [vm_compute; reflexivity|].
  match goal with
  | |- PcMonitorApp.mainloop _ ?a = _ /\ _ =>
      destruct (@store_fault_in_tick faulty_machine a None Sqlite.OperationalError
                  (snd (tick_insert faulty_machine None (PcMonitorApp.repo a)))
                  eq_refl eq_refl) as (_ & _ & _ & _ & _ & _ & _ & Hlocked);
      destruct (@store_fault_in_tick nan_machine a None Sqlite.IntegrityError
                  (snd (tick_insert nan_machine None (PcMonitorApp.repo a)))
                  eq_refl eq_refl) as (_ & _ & _ & _ & _ & _ & _ & Hnan)
  end.
  split.
  - apply Hlocked. reflexivity.
  - destruct (Hnan eq_refl [busy_machine]) as (Hsame & Hreported & _).
    rewrite Hsame. exact Hreported.
Defined.

(** The row a tick persists when the store works. *)
Lemma tick_row (env : Env.t) (app : PcMonitorApp.t) (t : Sqlite.table)
    (cpu_temp_c : option float) :
  value_of PcMonitorApp_sources.read_cpu_temperature env = Ok cpu_temp_c ->
  Sqlite.view (PcMonitorApp.repo app) = Some t ->
  Sqlite.columns t = MetricsRepository.measurements_columns ->
  Env.store_fault env = false ->
  PrimFloat.is_nan (Env.cpu_percent env) = false ->
  PrimFloat.is_nan (Env.ram_percent env) = false ->
  snd (PcMonitorApp.update_all_metrics env app) = None /\
  PcMonitorApp.scheduled (fst (PcMonitorApp.update_all_metrics env app))
  = S (PcMonitorApp.scheduled app) /\
  last_row (Sqlite.disk (PcMonitorApp.repo (fst (PcMonitorApp.update_all_metrics env app))))
  = measurement_row (Sqlite.sequence t + 1) (Env.now env)
      (Env.cpu_percent env) (Env.ram_percent env)
      (fst (value_of PcMonitorApp_sources.read_gpu_metrics env))
      (snd (value_of PcMonitorApp_sources.read_gpu_metrics env))
      cpu_temp_c.
Proof.
  intros Hchain Hview Hcols Hfault Hcpu Hram.
  destruct (tick_outcome env app Hchain) as (Hrepo & Hout & Hsched).
  unfold tick_insert in *. rewrite Hfault in *.
  destruct (@insert_measurement_read_back (PcMonitorApp.repo app) t (Env.now env)
              (Env.cpu_percent env) (Env.ram_percent env)
              (fst (value_of PcMonitorApp_sources.read_gpu_metrics env))
              (snd (value_of PcMonitorApp_sources.read_gpu_metrics env))
              cpu_temp_c
              Hview Hcols Hcpu Hram) as (c' & Hins & _ & Hsel).
  rewrite Hins in *. cbn [fst snd] in *.
  split; [exact Hout|]. split; [exact Hsched|].
  unfold last_row. rewrite Hrepo, Hsel. apply last_last.
Qed.

(** When the sensor API yields no reading and both fallbacks return no
    data, [read_cpu_temperature] returns [None]; the tick then shows the
    fixed text "CPU temp: N/A (...)" on the CPU temperature chart, which is
    not a formatted reading of any value, and the row it persists holds
    NULL in [cpu_temp_c]. *)
Lemma handled_failures_show_unavailable (env : Env.t) (app : PcMonitorApp.t) :
  sensor_values env = [] ->
  value_of PcMonitorApp_sources._read_cpu_temp_from_lm_sensors env = Ok None ->
  value_of PcMonitorApp_sources._read_cpu_temp_from_sysfs env = None ->
  let app' := fst (PcMonitorApp.update_all_metrics env app) in
  value_of PcMonitorApp_sources.read_cpu_temperature env = Ok None /\
  MetricChart.value_var (PcMonitorApp.cpu_temp_chart app')
  = Plain "CPU temp: N/A (датчик недоступен)" /\
  (forall pre v post,
     MetricChart.value_var (PcMonitorApp.cpu_temp_chart app') <> Fixed1 pre v post) /\
  (forall t,
     Sqlite.view (PcMonitorApp.repo app) = Some t ->
     Sqlite.columns t = MetricsRepository.measurements_columns ->
     Env.store_fault env = false ->
     PrimFloat.is_nan (Env.cpu_percent env) = false ->
     PrimFloat.is_nan (Env.ram_percent env) = false ->
     snd (PcMonitorApp.update_all_metrics env app) = None /\
     field "cpu_temp_c" (last_row (Sqlite.disk (PcMonitorApp.repo app')))
     = Some Sqlite.Null).
Proof.
  intros Hapi Htool Hzones app'. subst app'.
  assert (Hnone : value_of PcMonitorApp_sources.read_cpu_temperature env = Ok None).
  { unfold value_of in *. pose proof (read_cpu_temperature_cases env) as H.
    cbv zeta in H. fold (sensor_values env) in H.
    rewrite H, Hapi. unfold value_of. now rewrite Htool, Hzones. }
  destruct (tick_charts env app Hnone) as (_ & _ & _ & _ & Hchart).
  split; [exact Hnone|]. split; [now rewrite Hchart|].
  split; [intros pre v post; rewrite Hchart; discriminate|].
  intros t Hview Hcols Hfault Hcpu Hram.
  destruct (tick_row env app Hnone Hview Hcols Hfault Hcpu Hram) as (Hout & _ & Hrow).
  split; [exact Hout|]. rewrite Hrow. reflexivity.
Qed.

(** C9.  The application runs on a machine whose sensor API reports 44.0
    degrees.  At the next timer expiry all three sources fail: the sensor
    API raises, the [sensors] tool may not be executed ([PermissionError])
    and there is no thermal directory.  The tool's exception is not among
    those [_read_cpu_temp_from_lm_sensors] catches: it leaves the
    fallback, [read_cpu_temperature] (which never gets to the thermal
    zones) and the tick.  The chart keeps the label of the reading before,
    no row is written, no tick is scheduled, and later expiries run
    nothing; started on such a machine, the application does not come up.
    With the tool not found instead, the same machine gets the "N/A" label
    and a row with NULL. *)
Theorem tool_error_escapes_the_tick :
  sensor_values denied_machine = [] /\
  Env.sensors_tool denied_machine = Env.RunOtherError /\
  Env.thermal denied_machine = None /\
  value_of PcMonitorApp_sources._read_cpu_temp_from_lm_sensors denied_machine
  = Raise ToolError /\
  PcMonitorApp_sources.read_cpu_temperature denied_machine []
  = (Raise ToolError, [SensorApi; SensorsTool]) /\
  PcMonitorApp.init false None denied_machine
  = Raise (PcMonitorApp.FromSource ToolError) /\
  exists app0,
    PcMonitorApp.init false None (with_sensors silent_machine three_sensor_groups)
    = Ok app0 /\
    PcMonitorApp.update_all_metrics denied_machine app0
    = (app0, Some (PcMonitorApp.FromSource ToolError)) /\
    (let after := PcMonitorApp.mainloop [denied_machine; busy_machine] app0 in
     snd after = [PcMonitorApp.FromSource ToolError] /\
     PcMonitorApp.scheduled (fst after) = 0 /\
     MetricChart.value_var (PcMonitorApp.cpu_temp_chart (fst after))
     = Fixed1 "Текущая температура CPU: " 44%float "°C" /\
     latest (PcMonitorApp.cpu_temp_chart (fst after)) = 44%float /\
     length (Sqlite.select_all (Sqlite.disk (PcMonitorApp.repo (fst after)))) = 1) /\
    (let after := PcMonitorApp.mainloop [silent_machine] app0 in
     snd after = [] /\
     PcMonitorApp.scheduled (fst after) = 1 /\
     MetricChart.value_var (PcMonitorApp.cpu_temp_chart (fst after))
     = Plain "CPU temp: N/A (датчик недоступен)" /\
     field "cpu_temp_c" (last_row (Sqlite.disk (PcMonitorApp.repo (fst after))))
     = Some Sqlite.Null).
Proof.
  do 6 (split; [vm_compute; reflexivity|]).
  eexists. split; [vm_compute; reflexivity|].
  split; [apply tick_source_error; vm_compute; reflexivity|].
  split; repeat split; vm_compute; reflexivity.
Qed.



(** * Further properties of the code *)

(** ** The store *)

Lemma prepare_insert_table (assignments : list (Text.text * Sqlite.value))
    (d : Sqlite.database) (t : Sqlite.table) :
  Sqlite.prepare_insert assignments d = Ok t -> d = Some t.
Proof.
  unfold Sqlite.prepare_insert. destruct d as [t0|]; [|discriminate].
  destruct (negb (forallb _ assignments)); [discriminate|].
  intros H. now injection H as <-.
Qed.

Lemma step_insert_shape (assignments : list (Text.text * Sqlite.value))
    (t : Sqlite.table) (d' : Sqlite.database) :
  Sqlite.step_insert assignments t = Ok d' ->
  exists row,
    length row = length (Sqlite.columns t) /\
    d' = Some {| Sqlite.columns := Sqlite.columns t;
                 Sqlite.rows := Sqlite.rows t ++ [row];
                 Sqlite.sequence := (Sqlite.sequence t + 1)%Z |}.
Proof.
  unfold Sqlite.step_insert. cbv zeta.
  destruct (existsb _ _); [discriminate|].
  intros H. injection H as <-.
  exists (map (Sqlite.new_field t assignments) (Sqlite.columns t)).
  split; [apply length_map|reflexivity].
Qed.

(** X1.  [insert_measurement] only ever appends: whatever the state of the
    connection, the sample and the fault, a call that returns has committed
    the rows that were visible before followed by exactly one new row, and a
    call that raises leaves the file as it was. *)
Theorem insert_measurement_append_only (fault : bool) (c : Sqlite.connection)
    (captured_at : Text.text) (cpu_percent ram_percent : float)
    (gpu_load_percent gpu_temp_c cpu_temp_c : option float) :
  let r := MetricsRepository.insert_measurement fault captured_at cpu_percent
             ram_percent gpu_load_percent gpu_temp_c cpu_temp_c c in
  match fst r with
  | Ok _ =>
      Sqlite.transaction (snd r) = None /\
      exists row,
        Sqlite.select_all (Sqlite.disk (snd r))
        = Sqlite.select_all (Sqlite.view c) ++ [row]
  | Raise _ => Sqlite.disk (snd r) = Sqlite.disk c
  end.
Proof.
  cbv zeta.
  unfold MetricsRepository.insert_measurement, Db.bind, Db.execute_insert, Db.commit.
  destruct (Sqlite.prepare_insert _ (Sqlite.view c)) as [t|e] eqn:Hprep; [|reflexivity].
  destruct fault; [reflexivity|].
  destruct (Sqlite.step_insert _ t) as [d'|e] eqn:Hins; [|reflexivity].
  apply prepare_insert_table in Hprep as Hview.
  apply step_insert_shape in Hins as (row & Hlen & ->).
  cbn [fst snd Sqlite.transaction Sqlite.disk Sqlite.view].
  split; [reflexivity|]. rewrite Hview.
  exists (combine (Sqlite.names t) row). now apply select_all_after_insert.
Qed.

(** X2.  A sample whose CPU or RAM figure is a NaN is rejected by the NOT
    NULL constraint: the call raises [IntegrityError], the file and the
    visible rows are unchanged, and the next sample with proper figures is
    inserted and committed as usual. *)
Theorem nan_load_is_rejected (c : Sqlite.connection) (t : Sqlite.table)
    (captured_at : Text.text) (cpu_percent ram_percent : float)
    (gpu_load_percent gpu_temp_c cpu_temp_c : option float) :
  Sqlite.view c = Some t ->
  Sqlite.columns t = MetricsRepository.measurements_columns ->
  PrimFloat.is_nan cpu_percent || PrimFloat.is_nan ram_percent = true ->
  let r := MetricsRepository.insert_measurement false captured_at cpu_percent
             ram_percent gpu_load_percent gpu_temp_c cpu_temp_c c in
  fst r = Raise Sqlite.IntegrityError /\
  Sqlite.disk (snd r) = Sqlite.disk c /\
  Sqlite.view (snd r) = Sqlite.view c /\
  forall at' cpu' ram' gl' gt' ct',
    PrimFloat.is_nan cpu' = false -> PrimFloat.is_nan ram' = false ->
    exists c',
      MetricsRepository.insert_measurement false at' cpu' ram' gl' gt' ct' (snd r)
      = (Ok tt, c') /\
      Sqlite.transaction c' = None /\
      Sqlite.select_all (Sqlite.disk c')
      = Sqlite.select_all (Some t)
        ++ [measurement_row (Sqlite.sequence t + 1) at' cpu' ram' gl' gt' ct'].
Proof.
  intros Hview Hcols Hnan. cbv zeta.
  rewrite (@insert_measurement_effect c t captured_at cpu_percent ram_percent
             gpu_load_percent gpu_temp_c cpu_temp_c Hview Hcols), Hnan.
  cbn [fst snd Sqlite.disk].
  split; [reflexivity|]. split; [reflexivity|]. split; [now rewrite Hview|].
  intros at' cpu' ram' gl' gt' ct' Hcpu Hram.
  now apply insert_measurement_read_back.
Qed.

Lemma nan_load_is_rejected_witness :
  let c := snd (MetricsRepository.init false None) in
  let r := MetricsRepository.insert_measurement false (Text.str "2024-05-01 12:00:00")
             PrimFloat.nan 40%float None None None c in
  fst r = Raise Sqlite.IntegrityError /\ Sqlite.disk (snd r) = Sqlite.disk c.
Proof.
  intros c r.
  destruct (@nan_load_is_rejected c
              {| Sqlite.columns := MetricsRepository.measurements_columns;
                 Sqlite.rows := []; Sqlite.sequence := 0 |}
              (Text.str "2024-05-01 12:00:00") PrimFloat.nan 40%float None None None
              eq_refl eq_refl eq_refl) as (Hraise & Hdisk & _).
  split; [exact Hraise|exact Hdisk].
Defined.







(** X4.  The earlier version of the script keeps working on a store the
    current version has migrated: its five-field insert appends and commits
    one row, which reads back with NULL in [cpu_temp_c]. *)
Theorem earlier_insert_on_current_store (c : Sqlite.connection) (t : Sqlite.table)
    (captured_at : Text.text) (cpu_percent ram_percent : float)
    (gpu_load_percent gpu_temp_c : option float) :
  Sqlite.view c = Some t ->
  Sqlite.columns t = MetricsRepository.measurements_columns ->
  PrimFloat.is_nan cpu_percent = false -> PrimFloat.is_nan ram_percent = false ->
  exists c',
    Earlier.insert_measurement false captured_at cpu_percent ram_percent
      gpu_load_percent gpu_temp_c c = (Ok tt, c') /\
    Sqlite.transaction c' = None /\
    Sqlite.select_all (Sqlite.disk c')
    = Sqlite.select_all (Some t)
      ++ [measurement_row (Sqlite.sequence t + 1) captured_at cpu_percent
            ram_percent gpu_load_percent gpu_temp_c None].
Proof.
  intros Hview Hcols Hcpu Hram.
  unfold Earlier.insert_measurement, Db.bind, Db.execute_insert, Db.commit,
    Sqlite.prepare_insert, Sqlite.step_insert.
  rewrite Hview.
  set (assignments := [(Text.str "captured_at", _); _; _; _; _]).
  assert (Hknown :
    forallb (fun a => existsb (Sqlite.same_name (fst a)) (Sqlite.names t)) assignments
    = true).
  { unfold Sqlite.names. rewrite Hcols. reflexivity. }
  rewrite Hknown. cbn [negb].
  assert (Hrow :
    map (Sqlite.new_field t assignments) (Sqlite.columns t)
    = inserted_fields t captured_at cpu_percent ram_percent
        gpu_load_percent gpu_temp_c None).
  { rewrite Hcols. unfold inserted_fields, measurement_row. cbn [map snd].
    rewrite <- (keep_bound_float "cpu_percent" true cpu_percent).
    rewrite <- (keep_bound_float "ram_percent" true ram_percent).
    rewrite <- (keep_bound_optional "gpu_load_percent" false gpu_load_percent).
    rewrite <- (keep_bound_optional "gpu_temp_c" false gpu_temp_c).
    reflexivity. }
  rewrite Hrow.
  assert (Hcheck :
    existsb (fun cv => Sqlite.violates_notnull (fst cv) (snd cv))
      (combine (Sqlite.columns t)
         (inserted_fields t captured_at cpu_percent ram_percent
            gpu_load_percent gpu_temp_c None))
    = false).
  { rewrite Hcols. unfold inserted_fields, measurement_row.
    cbn [map snd combine MetricsRepository.measurements_columns existsb fst
         Sqlite.violates_notnull Sqlite.notnull MetricsRepository.col andb orb].
    now rewrite !stored_null, Hcpu, Hram. }
  rewrite Hcheck. eexists. split; [reflexivity|]. split; [reflexivity|].
  cbn [Sqlite.disk Sqlite.view Sqlite.transaction].
  rewrite select_all_after_insert.
  - f_equal. unfold Sqlite.names. rewrite Hcols. reflexivity.
  - rewrite Hcols. reflexivity.
Qed.

Lemma earlier_insert_on_current_store_witness :
  exists c',
    Earlier.insert_measurement false (Text.str "2024-05-01 12:00:00")
      12.5%float 40%float None (Some 48%float)
      (snd (MetricsRepository.init false None)) = (Ok tt, c') /\
    field "cpu_temp_c" (last_row (Sqlite.disk c')) = Some Sqlite.Null.
Proof.
  destruct (@earlier_insert_on_current_store
              (snd (MetricsRepository.init false None))
              {| Sqlite.columns := MetricsRepository.measurements_columns;
                 Sqlite.rows := []; Sqlite.sequence := 0 |}
              (Text.str "2024-05-01 12:00:00") 12.5%float 40%float
              None (Some 48%float) eq_refl eq_refl eq_refl eq_refl)
    as (c' & Hins & _ & Hsel).
  exists c'. split; [exact Hins|].
  unfold last_row. rewrite Hsel. reflexivity.
Defined.

(** X5.  The migration is what makes the current insert possible on a store
    of the earlier version: before [create_schema] the six-field insert
    raises [OperationalError] (no column [cpu_temp_c]) when the statement is
    compiled, so the connection is left as it was, with no transaction
    open; after [create_schema] the same insert appends its row behind the
    old ones. *)
Theorem current_insert_needs_migration (t : Sqlite.table)
    (captured_at : Text.text) (cpu_percent ram_percent : float)
    (gpu_load_percent gpu_temp_c cpu_temp_c : option float) :
  Sqlite.columns t = MetricsRepository.earlier_columns ->
  PrimFloat.is_nan cpu_percent = false -> PrimFloat.is_nan ram_percent = false ->
  let old := Sqlite.connect (Some t) in
  MetricsRepository.insert_measurement false captured_at cpu_percent ram_percent
    gpu_load_percent gpu_temp_c cpu_temp_c old
  = (Raise Sqlite.OperationalError, old) /\
  Sqlite.transaction old = None /\
  exists migrated c',
    MetricsRepository.create_schema false old = (Ok tt, migrated) /\
    MetricsRepository.insert_measurement false captured_at cpu_percent ram_percent
      gpu_load_percent gpu_temp_c cpu_temp_c migrated = (Ok tt, c') /\
    Sqlite.select_all (Sqlite.disk c')
    = Sqlite.select_all (Sqlite.disk migrated)
      ++ [measurement_row (Sqlite.sequence t + 1) captured_at cpu_percent
            ram_percent gpu_load_percent gpu_temp_c cpu_temp_c].
Proof.
  intros Hcols Hcpu Hram old. subst old. split; [|split; [reflexivity|]].
  - unfold MetricsRepository.insert_measurement, Db.bind, Db.execute_insert,
      Db.commit, Sqlite.prepare_insert.
    cbn [Sqlite.view Sqlite.connect Sqlite.transaction Sqlite.disk].
    unfold Sqlite.names. rewrite Hcols. reflexivity.
  - destruct t as [cols rows seq]. cbn [Sqlite.columns] in Hcols. subst cols.
    eexists. 
    destruct (@insert_measurement_read_back
                (committed (Some {| Sqlite.columns := MetricsRepository.measurements_columns;
                                    Sqlite.rows := rows; Sqlite.sequence := seq |}))
                {| Sqlite.columns := MetricsRepository.measurements_columns;
                   Sqlite.rows := rows; Sqlite.sequence := seq |}
                captured_at cpu_percent ram_percent gpu_load_percent gpu_temp_c
                cpu_temp_c eq_refl eq_refl Hcpu Hram) as (c' & Hins & _ & Hsel).
    exists c'. split; [reflexivity|]. split; [exact Hins|].
    exact Hsel.
Qed.

Lemma current_insert_needs_migration_witness :
  let t :=
    {| Sqlite.columns := MetricsRepository.earlier_columns;
       Sqlite.rows :=
         [[Sqlite.Integer 1; Sqlite.Str (Text.str "2024-04-30 08:00:00");
           Sqlite.Real 7.5%float; Sqlite.Real 31%float;
           Sqlite.Null; Sqlite.Real 48%float]];
       Sqlite.sequence := 1 |} in
  MetricsRepository.insert_measurement false (Text.str "2024-05-01 12:00:00")
    12.5%float 40%float None None (Some 51%float) (Sqlite.connect (Some t))
  = (Raise Sqlite.OperationalError, Sqlite.connect (Some t)).
Proof.
  intros t.
  destruct (@current_insert_needs_migration t (Text.str "2024-05-01 12:00:00")
              12.5%float 40%float None None (Some 51%float)
              eq_refl eq_refl eq_refl) as [Hraise _].
  exact Hraise.
Defined.

(** ** The tick loop *)

(** The temperature chain raises exactly when it gets as far as the tool
    and the tool call raises an exception that is not handled. *)
Lemma chain_outcome (env : Env.t) :
  value_of PcMonitorApp_sources.read_cpu_temperature env
  = if tool_error_reached env then Raise ToolError else Ok (cpu_temperature env).
Proof.
  unfold cpu_temperature, tool_error_reached, value_of.
  pose proof (read_cpu_temperature_cases env) as Hcases. cbv zeta in Hcases.
  fold (sensor_values env) in Hcases. rewrite Hcases.
  destruct (sensor_values env) as [|v vs]; [|reflexivity].
  cbn [PcMonitorApp_sources.is_empty andb].
  rewrite lm_sensors_value.
  destruct (Env.sensors_tool env) as [| | |rc out]; try reflexivity.
  destruct (Z.eqb rc 0); [|reflexivity].
  destruct out as [|c out]; [reflexivity|].
  now destruct (PcMonitorApp_sources._extract_temp_values_from_text (c :: out)).
Qed.

Lemma healthy_parts (env : Env.t) :
  healthy env = true ->
  Env.store_fault env = false /\
  PrimFloat.is_nan (Env.cpu_percent env) = false /\
  PrimFloat.is_nan (Env.ram_percent env) = false /\
  value_of PcMonitorApp_sources.read_cpu_temperature env = Ok (cpu_temperature env).
Proof.
  unfold healthy. intros H.
  apply andb_true_iff in H as [H Htool].
  apply andb_true_iff in H as [H Hram].
  apply andb_true_iff in H as [Hfault Hcpu].
  apply negb_true_iff in Hfault, Hcpu, Hram, Htool.
  rewrite chain_outcome, Htool. auto.
Qed.

(** A tick on a healthy machine: the sample is committed as one new row, the
    next tick is scheduled. *)
Lemma tick_healthy (env : Env.t) (app : PcMonitorApp.t) (t : Sqlite.table) :
  Sqlite.view (PcMonitorApp.repo app) = Some t ->
  Sqlite.columns t = MetricsRepository.measurements_columns ->
  healthy env = true ->
  snd (PcMonitorApp.update_all_metrics env app) = None /\
  PcMonitorApp.scheduled (fst (PcMonitorApp.update_all_metrics env app))
  = S (PcMonitorApp.scheduled app) /\
  exists t1,
    PcMonitorApp.repo (fst (PcMonitorApp.update_all_metrics env app))
    = committed (Some t1) /\
    Sqlite.columns t1 = Sqlite.columns t /\
    Sqlite.rows t1
    = Sqlite.rows t
      ++ [map snd (tick_row_of (Sqlite.sequence t + 1) env)] /\
    Sqlite.sequence t1 = (Sqlite.sequence t + 1)%Z /\
    Sqlite.select_all (Some t1)
    = Sqlite.select_all (Some t) ++ [tick_row_of (Sqlite.sequence t + 1) env].
Proof.
  intros Hview Hcols Hhealthy.
  destruct (healthy_parts env Hhealthy) as (Hfault & Hcpu & Hram & Hchain).
  destruct (tick_outcome env app Hchain) as (Hrepo & Hout & Hsched).
  unfold tick_insert in *. rewrite Hfault in *.
  rewrite (@insert_measurement_effect (PcMonitorApp.repo app) t (Env.now env)
             (Env.cpu_percent env) (Env.ram_percent env) _ _ _ Hview Hcols),
    Hcpu, Hram in *.
  cbn [orb fst snd] in *.
  split; [exact Hout|]. split; [exact Hsched|].
  eexists. split; [exact Hrepo|]. cbn [Sqlite.columns Sqlite.rows Sqlite.sequence].
  split; [reflexivity|]. split; [reflexivity|]. split; [reflexivity|].
  rewrite select_all_after_insert.
  - f_equal. unfold Sqlite.names. rewrite Hcols. reflexivity.
  - rewrite Hcols. reflexivity.
Qed.

Lemma healthy_ticks (envs : list Env.t) :
  forall (app : PcMonitorApp.t) (t : Sqlite.table)
         (reported : list PcMonitorApp.tick_error),
  Sqlite.view (PcMonitorApp.repo app) = Some t ->
  Sqlite.columns t = MetricsRepository.measurements_columns ->
  PcMonitorApp.scheduled app = 1 ->
  forallb healthy envs = true ->
  exists app',
    fold_left (fun state env => PcMonitorApp.expire env state) envs (app, reported)
    = (app', reported) /\
    PcMonitorApp.scheduled app' = 1 /\
    Sqlite.select_all (Sqlite.view (PcMonitorApp.repo app'))
    = Sqlite.select_all (Some t) ++ tick_rows (Sqlite.sequence t) envs /\
    MetricChart.history (PcMonitorApp.cpu_chart app')
    = Deque.extend (MetricChart.history (PcMonitorApp.cpu_chart app))
        (map Env.cpu_percent envs) /\
    MetricChart.history (PcMonitorApp.ram_chart app')
    = Deque.extend (MetricChart.history (PcMonitorApp.ram_chart app))
        (map Env.ram_percent envs).
Proof.
  induction envs as [|env envs IH]; intros app t reported Hview Hcols Hone Hall.
  - exists app. cbn [fold_left tick_rows map]. rewrite Hview, app_nil_r. auto.
  - cbn [forallb] in Hall. apply andb_true_iff in Hall as [Hhealthy Hall].
    cbn [fold_left]. unfold PcMonitorApp.expire at 2. rewrite Hone.
    set (waiting := {| PcMonitorApp.repo := PcMonitorApp.repo app;
                       PcMonitorApp.scheduled := 0 |}).
    destruct (@tick_healthy env waiting t Hview Hcols Hhealthy)
      as (Hout & Hsched & t1 & Hrepo & Hc1 & Hrows & Hseq & Hsel).
    destruct (healthy_parts env Hhealthy) as (_ & _ & _ & Hchain).
    destruct (tick_charts env waiting Hchain) as (Hcpu & Hram & _).
    destruct (PcMonitorApp.update_all_metrics env waiting) as [app1 out].
    cbn [fst snd] in *. subst out.
    destruct (IH app1 t1 reported) as (app' & Hloop & Hs & Hsel' & Hcpu' & Hram'); auto.
    { now rewrite Hrepo. }
    { now rewrite Hc1. }
    exists app'. split; [exact Hloop|]. split; [exact Hs|].
    split; [|split].
    + rewrite Hsel', Hsel, Hseq, <- app_assoc. reflexivity.
    + rewrite Hcpu', Hcpu. reflexivity.
    + rewrite Hram', Hram. reflexivity.
Qed.

(** X6.  A run of ticks on healthy machine states (the store works, the
    load figures are numbers, the temperature chain returns) keeps the loop
    going:
    nothing is reported, exactly one callback is waiting after every tick,
    the store holds the earlier rows followed by one row per tick, in tick
    order and with consecutive row ids, and the CPU and RAM histories have
    received the readings of the ticks in order. *)
Theorem healthy_loop (envs : list Env.t) (app : PcMonitorApp.t) (t : Sqlite.table) :
  PcMonitorApp.repo app = committed (Some t) ->
  Sqlite.columns t = MetricsRepository.measurements_columns ->
  PcMonitorApp.scheduled app = 1 ->
  forallb healthy envs = true ->
  let after := PcMonitorApp.mainloop envs app in
  snd after = [] /\
  PcMonitorApp.scheduled (fst after) = 1 /\
  Sqlite.select_all (Sqlite.view (PcMonitorApp.repo (fst after)))
  = Sqlite.select_all (Some t) ++ tick_rows (Sqlite.sequence t) envs /\
  MetricChart.history (PcMonitorApp.cpu_chart (fst after))
  = Deque.extend (MetricChart.history (PcMonitorApp.cpu_chart app))
      (map Env.cpu_percent envs) /\
  MetricChart.history (PcMonitorApp.ram_chart (fst after))
  = Deque.extend (MetricChart.history (PcMonitorApp.ram_chart app))
      (map Env.ram_percent envs).
Proof.
  intros Hrepo Hcols Hone Hall after. subst after.
  destruct (@healthy_ticks envs app t [] ) as (app' & Hloop & H); auto.
  { now rewrite Hrepo. }
  unfold PcMonitorApp.mainloop. rewrite Hloop. cbn [fst snd]. auto.
Qed.



Lemma healthy_loop_witness :
  exists app,
    PcMonitorApp.init false None silent_machine = Ok app /\
    snd (PcMonitorApp.mainloop [busy_machine; silent_machine] app) = [] /\
    length (Sqlite.select_all
              (Sqlite.view (PcMonitorApp.repo
                 (fst (PcMonitorApp.mainloop [busy_machine; silent_machine] app)))))
    = 3.
Proof.
  eexists. split; [vm_compute; reflexivity|].
  match goal with
  | |- snd (PcMonitorApp.mainloop ?envs ?a) = _ /\ _ =>
      destruct (@healthy_loop envs a
                  {| Sqlite.columns := MetricsRepository.measurements_columns;
                     Sqlite.rows :=
                       [map snd (tick_row_of 1 silent_machine)];
                     Sqlite.sequence := 1 |})
        as (Hrep & _ & Hsel & _)
  end; try reflexivity.
  split; [exact Hrep|]. rewrite Hsel. reflexivity.
Defined.

(** X16.  A GPU temperature that is a NaN (GPUtil's value for a reading it
    cannot parse) is not treated as missing: the tick charts the NaN and
    labels the chart with the formatted value rather than "N/A", while the
    row it persists holds NULL in [gpu_temp_c]. *)
Theorem nan_gpu_temperature (env : Env.t) (app : PcMonitorApp.t) (t : Sqlite.table)
    (v : float) :
  Sqlite.view (PcMonitorApp.repo app) = Some t ->
  Sqlite.columns t = MetricsRepository.measurements_columns ->
  healthy env = true ->
  snd (value_of PcMonitorApp_sources.read_gpu_metrics env) = Some v ->
  PrimFloat.is_nan v = true ->
  let app' := fst (PcMonitorApp.update_all_metrics env app) in
  MetricChart.history (PcMonitorApp.gpu_temp_chart app')
  = Deque.append (MetricChart.history (PcMonitorApp.gpu_temp_chart app)) v /\
  MetricChart.value_var (PcMonitorApp.gpu_temp_chart app')
  = Fixed1 "Текущая температура GPU: " v "°C" /\
  field "gpu_temp_c" (last_row (Sqlite.disk (PcMonitorApp.repo app')))
  = Some Sqlite.Null.
Proof.
  intros Hview Hcols Hhealthy Hgpu Hnan. cbv zeta.
  destruct (healthy_parts env Hhealthy) as (_ & _ & _ & Hchain).
  destruct (tick_charts env app Hchain) as (_ & _ & _ & Hchart & _).
  destruct (@tick_healthy env app t Hview Hcols Hhealthy)
    as (_ & _ & t1 & Hrepo & _ & _ & _ & Hsel).
  rewrite Hchart, Hgpu, Hrepo.
  split; [reflexivity|]. split; [reflexivity|].
  unfold last_row. cbn [committed Sqlite.disk]. rewrite Hsel, last_last.
  unfold tick_row_of, measurement_row, field. rewrite Hgpu.
  change (Sqlite.lookup (Text.str "gpu_temp_c") ?l)
    with (Some (stored_optional (Some v))).
  cbn [stored_optional]. unfold stored. now rewrite Hnan.
Qed.

Lemma nan_gpu_temperature_witness :
  let env :=
    with_gpus silent_machine
      (Env.GetGPUsList
         [{| Env.load := 0.25%float; Env.temperature := Some PrimFloat.nan |}]) in
  let app := PcMonitorApp.create (snd (MetricsRepository.init false None)) in
  MetricChart.value_var
    (PcMonitorApp.gpu_temp_chart (fst (PcMonitorApp.update_all_metrics env app)))
  = Fixed1 "Текущая температура GPU: " PrimFloat.nan "°C" /\
  field "gpu_temp_c"
    (last_row (Sqlite.disk (PcMonitorApp.repo
       (fst (PcMonitorApp.update_all_metrics env app)))))
  = Some Sqlite.Null.
Proof.
  intros env app.
  destruct (@nan_gpu_temperature env app
              {| Sqlite.columns := MetricsRepository.measurements_columns;
                 Sqlite.rows := []; Sqlite.sequence := 0 |} PrimFloat.nan
              eq_refl eq_refl eq_refl eq_refl eq_refl) as (_ & Hlabel & Hrow).
  split; [exact Hlabel|exact Hrow].
Defined.

(** ** Drawing *)

(** X8.  [value_to_y] clamps on both sides: a value that is not below
    [y_max] (a NaN included, for which every comparison is false) is drawn
    where [y_max] is drawn, and a value below [y_max] that is not above
    [y_min] is drawn where [y_min] is drawn. *)
Theorem value_to_y_clamps (g : Drawing.geometry) (value top bottom : float) :
  (PrimFloat.ltb value (Drawing.y_max g) = false ->
   Drawing.value_to_y g value top bottom
   = Drawing.value_to_y g (Drawing.y_max g) top bottom) /\
  (PrimFloat.ltb value (Drawing.y_max g) = true ->
   PrimFloat.ltb (Drawing.y_min g) value = false ->
   PrimFloat.ltb (Drawing.y_min g) (Drawing.y_max g) = true ->
   Drawing.value_to_y g value top bottom
   = Drawing.value_to_y g (Drawing.y_min g) top bottom).
Proof.
  unfold Drawing.value_to_y, Drawing.clamp, py_max, py_min. split.
  - intros Habove. rewrite Habove.
    now destruct (PrimFloat.ltb (Drawing.y_max g) (Drawing.y_max g)).
  - intros Hbelow Hlow Hrange. rewrite Hbelow, Hlow, Hrange.
    now destruct (PrimFloat.ltb (Drawing.y_min g) (Drawing.y_min g)).
Qed.

Lemma value_to_y_clamps_witness :
  Drawing.value_to_y Drawing.percent_chart PrimFloat.nan
    (Drawing.plot_top Drawing.percent_chart) (Drawing.plot_bottom Drawing.percent_chart)
  = Ok 20%float /\
  Drawing.value_to_y Drawing.temperature_chart (-5)%float
    (Drawing.plot_top Drawing.temperature_chart)
    (Drawing.plot_bottom Drawing.temperature_chart)
  = Ok 90%float.
Proof.
  split.
  - destruct (value_to_y_clamps Drawing.percent_chart PrimFloat.nan
                (Drawing.plot_top Drawing.percent_chart)
                (Drawing.plot_bottom Drawing.percent_chart)) as [Habove _].
    rewrite Habove; reflexivity.
  - destruct (value_to_y_clamps Drawing.temperature_chart (-5)%float
                (Drawing.plot_top Drawing.temperature_chart)
                (Drawing.plot_bottom Drawing.temperature_chart)) as [_ Hbelow].
    rewrite Hbelow; reflexivity.
Defined.

Lemma pushes_max_points (c : MetricChart.t) (vs : list float) :
  MetricChart.max_points (MetricChart.pushes c vs) = MetricChart.max_points c.
Proof.
  revert c. induction vs as [|v vs IH]; intros c; [reflexivity|].
  unfold MetricChart.pushes in *. cbn [fold_left]. now rewrite IH.
Qed.

Lemma series_points_ok (g : Drawing.geometry) (step_x : float) (values : list float) :
  PrimFloat.eqb (PrimFloat.sub (Drawing.y_max g) (Drawing.y_min g)) 0%float = false ->
  forall i, exists points,
    Drawing.series_points g step_x i values = Ok points /\
    length points = length values.
Proof.
  intros Hrange. induction values as [|v values IH]; intros i.
  - exists []. auto.
  - cbn [Drawing.series_points]. unfold Drawing.value_to_y, py_div.
    rewrite Hrange. destruct (IH (S i)) as (points & -> & Hlen).
    eexists. split; [reflexivity|]. cbn [length]. now rewrite Hlen.
Qed.

(** X9.  [draw_series] does not divide by zero on a chart made by
    [__init__] and updated any number of times, whatever [max_points] is,
    as long as the value range is not empty: with fewer than two points it
    returns before the division by [max_points - 1], otherwise it draws
    exactly [max_points] points. *)
Theorem draw_series_draws_the_window (g : Drawing.geometry) (N : nat) (u : string)
    (vs : list float) :
  PrimFloat.eqb (PrimFloat.sub (Drawing.y_max g) (Drawing.y_min g)) 0%float = false ->
  exists points,
    Drawing.draw_series g (MetricChart.pushes (MetricChart.init N u) vs) = Ok points /\
    length points = if N <? 2 then 0 else N.
Proof.
  intros Hrange. unfold Drawing.draw_series.
  destruct (snapshot_after_pushes N u vs) as [_ Hlen].
  unfold MetricChart.snapshot in Hlen. rewrite Hlen, pushes_max_points.
  destruct (Nat.ltb_spec N 2) as [Hsmall|Hbig]; [exists []; auto|].
  unfold py_div_int. cbn [MetricChart.max_points MetricChart.init].
  destruct (Z.eqb_spec (Z.of_nat N - 1) 0) as [Hzero|_]; [lia|].
  destruct (series_points_ok g
              (PrimFloat.div (PrimFloat.sub (Drawing.plot_right g) (Drawing.plot_left g))
                 (PyFloat.of_Z (Z.of_nat N - 1)))
              (Deque.to_list (MetricChart.history
                 (MetricChart.pushes (MetricChart.init N u) vs))) Hrange 0)
    as (points & Hpoints & Hcount).
  exists points. split; [exact Hpoints|]. now rewrite Hcount.
Qed.

Lemma draw_series_draws_the_window_witness :
  Drawing.draw_series Drawing.percent_chart
    (MetricChart.pushes (MetricChart.init 1 "%") [50%float]) = Ok [] /\
  exists points,
    Drawing.draw_series Drawing.percent_chart
      (MetricChart.pushes (MetricChart.init 3 "%") [50%float]) = Ok points /\
    length points = 3.
Proof.
  split.
  - destruct (@draw_series_draws_the_window Drawing.percent_chart 1 "%" [50%float] eq_refl)
      as (points & Hdraw & Hcount).
    rewrite Hdraw. destruct points; [reflexivity|discriminate].
  - exact (@draw_series_draws_the_window Drawing.percent_chart 3 "%" [50%float] eq_refl).
Defined.

(** ** The label of a chart *)

(** X10.  The two versions of [update_value] push the same value and show
    the same text for every [display_text] but the empty string: the
    current version ([display_text or ...]) replaces an empty text by the
    default text, the earlier one ([if display_text is None]) shows it. *)
Theorem update_value_versions (c : MetricChart.t) (value : float) (display_text : option label) :
  (display_text <> Some (Plain "") ->
   MetricChart.update_value c value display_text
   = Earlier.update_value c value display_text) /\
  MetricChart.history (MetricChart.update_value c value display_text)
  = MetricChart.history (Earlier.update_value c value display_text) /\
  MetricChart.value_var (MetricChart.update_value c value (Some (Plain "")))
  = Fixed1 "Текущее значение: " value (MetricChart.unit c) /\
  MetricChart.value_var (Earlier.update_value c value (Some (Plain ""))) = Plain "".
Proof.
  split; [|repeat split].
  intros Hnonempty. unfold MetricChart.update_value, Earlier.update_value.
  destruct display_text as [[s| pre v post]|]; try reflexivity.
  cbn [label_truthy]. destruct (String.eqb_spec s "") as [->|_]; [|reflexivity].
  now contradiction Hnonempty.
Qed.

Lemma update_value_versions_witness :
  MetricChart.update_value (MetricChart.init 3 "%") 7%float (Some (Plain "GPU temp: N/A"))
  = Earlier.update_value (MetricChart.init 3 "%") 7%float (Some (Plain "GPU temp: N/A")).
Proof.
  apply update_value_versions. discriminate.
Defined.

(** ** The temperature sources *)

(** Every string [re.findall] returns was matched at some position of the
    text. *)
Lemma scan_matches_within (g : Text.text) : forall s skip,
  In g (Re.scan s skip) ->
  exists before s' rest, s = before ++ s' /\ Re.match_here s' = Some (g, rest).
Proof.
  induction s as [|c s IH]; cbn [Re.scan]; intros skip Hin; [contradiction|].
  assert (Hlater : forall n, In g (Re.scan s n) ->
            exists before s' rest,
              c :: s = before ++ s' /\ Re.match_here s' = Some (g, rest)).
  { intros n Hn. destruct (IH n Hn) as (before & s' & rest & -> & Hm).
    exists (c :: before), s', rest. auto. }
  destruct skip as [|n]; [|eauto].
  destruct (Re.match_here (c :: s)) as [[g' rest]|] eqn:Hm; [|eauto].
  destruct Hin as [<- | Hin]; [|eauto].
  exists [], (c :: s), rest. auto.
Qed.

Lemma unit_part_has_C (u : Text.text) : unit_part u -> In "C"%char u.
Proof.
  intros [ws _ | ws _]; apply in_or_app; right; simpl; auto.
Qed.

Lemma findall_needs_C (raw_text : Text.text) :
  forallb (fun c => negb (Ascii.eqb c "C")) raw_text = true ->
  Re.findall raw_text = [].
Proof.
  intros Hno. destruct (Re.findall raw_text) as [|g gs] eqn:Hfind; [reflexivity|].
  exfalso.
  assert (Hin : In g (Re.findall raw_text)) by (rewrite Hfind; now left).
  apply scan_matches_within in Hin as (before & s' & rest & -> & Hm).
  apply match_here_sound in Hm as (_ & u & Hu & ->).
  rewrite forallb_forall in Hno.
  specialize (Hno "C"%char). rewrite Ascii.eqb_refl in Hno.
  enough (In "C"%char (before ++ g ++ u ++ rest)) by (specialize (Hno H); discriminate).
  apply in_or_app. right. apply in_or_app. right. apply in_or_app. left.
  now apply unit_part_has_C.
Qed.

(** X11.  Output of the tool that holds no capital letter C gives no data,
    whatever numbers it holds: a reading in degrees Fahrenheit ([°F]) or a
    bare number is never taken for a temperature. *)
Theorem tool_output_without_C (env : Env.t) (returncode : Z) (stdout : Text.text) :
  Env.sensors_tool env = Env.RunCompleted returncode stdout ->
  forallb (fun c => negb (Ascii.eqb c "C")) stdout = true ->
  PcMonitorApp_sources._extract_temp_values_from_text stdout = [] /\
  value_of PcMonitorApp_sources._read_cpu_temp_from_lm_sensors env = Ok None.
Proof.
  intros Htool Hno.
  assert (Hnone : PcMonitorApp_sources._extract_temp_values_from_text stdout = []).
  { unfold PcMonitorApp_sources._extract_temp_values_from_text.
    now rewrite (findall_needs_C _ Hno). }
  split; [exact Hnone|].
  rewrite lm_sensors_value, Htool, Hnone.
  destruct (Z.eqb returncode 0); [|reflexivity]. now destruct stdout.
Qed.

Lemma tool_output_without_C_witness :
  value_of PcMonitorApp_sources._read_cpu_temp_from_lm_sensors
    (with_tool silent_machine
       (Env.RunCompleted 0
          (Text.str "temp1: +131.0" ++ [Text.degree_sign] ++ Text.str "F")))
  = Ok None.
Proof.
  eapply tool_output_without_C; reflexivity.
Defined.

Lemma passed_over_reading (e : Env.dir_entry) :
  passed_over e = true -> PcMonitorApp_sources.zone_reading e = None.
Proof.
  unfold passed_over, PcMonitorApp_sources.zone_reading.
  destruct (negb (Text.startswith (Env.name e) (Text.str "thermal_zone")));
    [reflexivity|].
  destruct (Env.temp e); [reflexivity|reflexivity|discriminate].
Qed.

(** X12.  Entries of the thermal directory that are not thermal zones
    ([cooling_device0] and the like), or whose [temp] file is missing or
    unreadable, have no influence: the result is the same as without
    them. *)
Theorem thermal_listing_noise (env : Env.t) (before after : list Env.dir_entry)
    (e : Env.dir_entry) :
  Env.thermal env = Some (before ++ e :: after) ->
  passed_over e = true ->
  value_of PcMonitorApp_sources._read_cpu_temp_from_sysfs env
  = value_of PcMonitorApp_sources._read_cpu_temp_from_sysfs
      (with_thermal env (Some (before ++ after))).
Proof.
  intros Htree Hnoise. rewrite !sysfs_value, Htree.
  cbn [with_thermal Env.thermal Env.python].
  rewrite !flat_map_app. cbn [flat_map].
  rewrite (passed_over_reading _ Hnoise). reflexivity.
Qed.

Lemma thermal_listing_noise_witness :
  let cpu := zone "thermal_zone0" (Env.TempContent (PyFloat.of_Z 45000))
                  (Env.TypeContent (Text.str "x86_pkg_temp")) in
  let fan := zone "cooling_device0" (Env.TempContent (PyFloat.of_Z 3)) Env.TypeAbsent in
  value_of PcMonitorApp_sources._read_cpu_temp_from_sysfs
    (with_thermal silent_machine (Some [fan; cpu]))
  = Some 45%float.
Proof.
  intros cpu fan.
  rewrite (@thermal_listing_noise (with_thermal silent_machine (Some [fan; cpu]))
             [] [cpu] fan eq_refl eq_refl).
  reflexivity.
Defined.

(** X13.  The chain reports no data only if every source did: the sensor
    API gave no reading, the external tool gave no data and the thermal
    zones gave no data; and in that case it does. *)
Theorem no_data_iff_all_sources_fail (env : Env.t) :
  value_of PcMonitorApp_sources.read_cpu_temperature env = Ok None
  <-> sensor_values env = [] /\
      value_of PcMonitorApp_sources._read_cpu_temp_from_lm_sensors env = Ok None /\
      value_of PcMonitorApp_sources._read_cpu_temp_from_sysfs env = None.
Proof.
  pose proof (read_cpu_temperature_cases env) as H. cbv zeta in H.
  fold (sensor_values env) in H. unfold value_of in *. rewrite H.
  destruct (sensor_values env) as [|v vs].
  - destruct (fst (PcMonitorApp_sources._read_cpu_temp_from_lm_sensors env []))
      as [[w|]|e]; cbn [fst]; split.
    + discriminate.
    + intros (_ & Hbad & _). discriminate.
    + intros Hnone. injection Hnone as Hzones. auto.
    + now intros (_ & _ & ->).
    + discriminate.
    + intros (_ & Hbad & _). discriminate.
  - cbn [fst]. split; [discriminate|]. intros (Hbad & _). discriminate.
Qed.

(** ** [CpuChartApp] *)

Lemma cpu_chart_loop (readings : list float) : forall app : CpuChartApp.t,
  CpuChartApp.scheduled app = 1 ->
  CpuChartApp.scheduled (CpuChartApp.mainloop readings app) = 1 /\
  CpuChartApp.history (CpuChartApp.mainloop readings app)
  = Deque.extend (CpuChartApp.history app) readings /\
  CpuChartApp.value_var (CpuChartApp.mainloop readings app)
  = match readings with
    | [] => CpuChartApp.value_var app
    | _ => Fixed1 "Текущая загрузка: " (last readings 0%float) "%"
    end.
Proof.
  induction readings as [|r readings IH]; intros app Hone; [auto|].
  unfold CpuChartApp.mainloop in *. cbn [fold_left].
  unfold CpuChartApp.expire at 2 4 6. rewrite Hone.
  set (app1 := CpuChartApp.update_chart r _).
  destruct (IH app1 eq_refl) as (Hs & Hh & Hv).
  split; [exact Hs|]. split; [exact Hh|].
  rewrite Hv. destruct readings; reflexivity.
Qed.

(** X14.  [CpuChartApp] never stops ticking: after the start and any number
    of timer expiries exactly one callback is waiting; the window has 120
    elements, the readings so far behind a padding of zeros or, from 120
    readings on, the last 120 of them; the label shows the last reading. *)
Theorem cpu_chart_app_keeps_ticking (first : float) (readings : list float) :
  let app := CpuChartApp.mainloop readings (CpuChartApp.init first) in
  let seen := first :: readings in
  CpuChartApp.scheduled app = 1 /\
  Deque.to_list (CpuChartApp.history app)
  = skipn (length seen) (repeat 0%float 120 ++ seen) /\
  length (Deque.to_list (CpuChartApp.history app)) = 120 /\
  CpuChartApp.value_var app = Fixed1 "Текущая загрузка: " (last seen 0%float) "%".
Proof.
  cbv zeta.
  destruct (cpu_chart_loop readings (CpuChartApp.init first) eq_refl) as (Hs & Hh & Hv).
  split; [exact Hs|].
  assert (Hhist : CpuChartApp.history (CpuChartApp.mainloop readings (CpuChartApp.init first))
                  = Deque.extend (CpuChartApp.history CpuChartApp.create) (first :: readings)).
  { rewrite Hh. reflexivity. }
  destruct (@extend_full float (first :: readings) (CpuChartApp.history CpuChartApp.create))
    as [Hitems Hlen]; [reflexivity|].
  unfold Deque.to_list. rewrite Hhist.
  split; [rewrite Hitems; reflexivity|]. split; [rewrite Hlen; reflexivity|].
  rewrite Hv. destruct readings; reflexivity.
Qed.

(** ** The label of a thermal zone *)

Lemma space_lower_fixed (c : ascii) : Text.is_space c = true -> Text.lower_char c = c.
Proof. by_cases_on_char c. Qed.

Lemma lstrip_word (k rest : Text.text) : forall ws c,
  Text.is_space c = false ->
  exists ws', Text.lstrip (ws ++ c :: k ++ rest) = ws' ++ c :: k ++ rest.
Proof.
  induction ws as [|w ws IH]; intros c Hc.
  - exists []. cbn [app Text.lstrip]. now rewrite Hc.
  - cbn [app Text.lstrip]. destruct (Text.is_space w).
    + apply IH, Hc.
    + exists (w :: ws). reflexivity.
Qed.

Lemma rev_word (A : Type) (b k after : list A) (first last_ : A) :
  rev (b ++ first :: k ++ last_ :: after)
  = rev after ++ last_ :: rev k ++ first :: rev b.
Proof.
  rewrite rev_app_distr. cbn [rev]. rewrite rev_app_distr. cbn [rev].
  rewrite <- !app_assoc. reflexivity.
Qed.

(** Stripping keeps a word that begins and ends with a non-blank. *)
Lemma strip_word (before after k : Text.text) (first last_ : ascii) :
  Text.is_space first = false -> Text.is_space last_ = false ->
  exists before' after',
    Text.strip (before ++ first :: k ++ last_ :: after)
    = before' ++ first :: k ++ last_ :: after'.
Proof.
  intros Hfirst Hlast. unfold Text.strip.
  destruct (lstrip_word k (last_ :: after) before first Hfirst) as (b' & Hl).
  rewrite Hl, rev_word.
  destruct (lstrip_word (rev k) (first :: rev b') (rev after) last_ Hlast) as (a' & Hr).
  rewrite Hr, rev_word, !rev_involutive.
  exists b', (rev a'). reflexivity.
Qed.

Lemma startswith_app (n rest : Text.text) : Text.startswith (n ++ rest) n = true.
Proof.
  induction n as [|c n IH]; [now destruct rest|].
  cbn [app Text.startswith]. now rewrite Ascii.eqb_refl, IH.
Qed.

Lemma contains_app (n before after : Text.text) :
  Text.contains n (before ++ n ++ after) = true.
Proof.
  induction before as [|c before IH].
  - cbn [app]. destruct (n ++ after) eqn:E; cbn [Text.contains];
      rewrite <- E, startswith_app; reflexivity.
  - cbn [app Text.contains]. rewrite IH. apply orb_true_r.
Qed.

Lemma lower_not_space (c : ascii) :
  Text.is_space (Text.lower_char c) = false -> Text.is_space c = false.
Proof.
  destruct (Text.is_space c) eqn:Hc; [|reflexivity].
  now rewrite (space_lower_fixed _ Hc), Hc.
Qed.

(** X15.  A zone is kept when its label mentions cpu, x86 or package in any
    mix of upper and lower case, with anything before and after it,
    surrounding blanks and the trailing newline of the [type] file
    included. *)
Theorem cpu_label_any_case (word spelled before after : Text.text) :
  In word cpu_words ->
  Text.lower spelled = word ->
  PcMonitorApp_sources.unrelated (Text.lower (Text.strip (before ++ spelled ++ after)))
  = false.
Proof.
  intros Hword Hspelled.
  assert (Hshape : exists first k last_,
            spelled = first :: k ++ [last_] /\
            Text.is_space first = false /\ Text.is_space last_ = false).
  { destruct Hword as [<- | [<- | [<- | []]]];
      repeat (destruct spelled as [|? spelled]; try discriminate).
    - injection Hspelled as H1 H2 H3. exists a, [a0], a1.
      split; [reflexivity|].
      split; apply lower_not_space; [rewrite H1|rewrite H3]; reflexivity.
    - injection Hspelled as H1 H2 H3. exists a, [a0], a1.
      split; [reflexivity|].
      split; apply lower_not_space; [rewrite H1|rewrite H3]; reflexivity.
    - injection Hspelled as H1 H2 H3 H4 H5 H6 H7.
      exists a, [a0; a1; a2; a3; a4], a5.
      split; [reflexivity|].
      split; apply lower_not_space; [rewrite H1|rewrite H7]; reflexivity. }
  destruct Hshape as (first & k & last_ & Hs & Hfirst & Hlast).
  destruct (@strip_word before after k first last_ Hfirst Hlast) as (b' & a' & Hstrip).
  assert (Hnormal : before ++ spelled ++ after
                    = before ++ first :: k ++ last_ :: after).
  { rewrite Hs. cbn [app]. now rewrite <- app_assoc. }
  assert (Hback : b' ++ first :: k ++ last_ :: a' = b' ++ spelled ++ a').
  { rewrite Hs. cbn [app]. now rewrite <- app_assoc. }
  rewrite Hnormal, Hstrip, Hback. unfold Text.lower. rewrite !map_app.
  fold (Text.lower spelled). rewrite Hspelled.
  unfold PcMonitorApp_sources.unrelated.
  assert (Hfound : Text.contains word (map Text.lower_char b' ++ word ++ map Text.lower_char a') = true)
    by apply contains_app.
  destruct Hword as [<- | [<- | [<- | []]]]; rewrite Hfound;
    rewrite ?andb_false_r; reflexivity.
Qed.

Lemma cpu_label_any_case_witness :
  PcMonitorApp_sources.unrelated
    (Text.lower
       (Text.strip
          (Text.str "  SoC-" ++ Text.str "CPU" ++ Text.str "-therm" ++ ["010"%char])))
  = false.
Proof.
  apply (@cpu_label_any_case (Text.str "cpu") (Text.str "CPU")).
  - now left.
  - reflexivity.
Defined.
